(** * Tax-code determination pipeline: a shallow embedding and its properties

    The development follows the Python package file by file:
    - [PyStr], [PyFloat]: the Python built-ins the code relies on
      ([str.upper], [str.strip], [float], [str(float)], ...);
    - [Masters]: [masters/sap_master.py], [masters/oracle_master.py],
      [masters/ms_360_master.py];
    - [Tools]: [tools.py];
    - [State], [Update]: [state.py] and the merge of a node's update;
    - [Nodes]: [nodes.py];
    - [Graph]: [graph.py];
    - [Agent]: [tax_agent.py];
    - [Prompt]: [prompt.py]; [Metrics]: [metrics.py];
    - [Spec], [Samples]: the vocabulary of the properties and sample
      requests; the properties follow.

    Conventions.  Python [str] is [string] (characters are code points
    below 256); a Python [dict] is a [gmap]; a [set] of strings is a [gset];
    Python [int] is [Z]; [Optional[T]] is [option T].  An exception is [None]
    or [inl].  Logging is an external observer and is not part of the
    model; the metrics of [metrics.py] are modelled apart, in [Metrics],
    and the decorators that update them are left out of the tools and the
    nodes. *)

From Stdlib Require Import ZArith List Bool Lia.
From Stdlib Require Import Strings.String Strings.Ascii Numbers.DecimalString.
From stdpp Require Import base option list strings gmap.

Local Open Scope string_scope.
Local Open Scope list_scope.

(* ===================================================================== *)
(** ** Python string built-ins *)
(* ===================================================================== *)

Module PyStr.

Definition code (c : ascii) : N := N_of_ascii c.

Definition in_range (lo hi : N) (c : ascii) : bool :=
  ((lo <=? code c) && (code c <=? hi))%N.

(** [0-9] *)
Definition is_digit : ascii -> bool := in_range 48 57.
(** [1-9] *)
Definition is_nonzero_digit : ascii -> bool := in_range 49 57.
(** [A-Z] *)
Definition is_upper : ascii -> bool := in_range 65 90.
(** [a-z] *)
Definition is_lower : ascii -> bool := in_range 97 122.

(** [str.upper] / [str.lower], character by character.  Only the ASCII
    letters change.  On ASCII strings this is Python's case mapping.
    Outside ASCII Python maps more: some characters become ASCII letters
    ([upper] sends U+00DF to "SS", U+017F to "S", U+0131 to "I"; [lower]
    sends U+212A to "k"), which this model does not do.  A property that
    rests on the case mapping of arbitrary text is therefore stated for
    ASCII strings ([Derived.is_ascii]). *)
Definition upper_char (c : ascii) : ascii :=
  if is_lower c then ascii_of_N (code c - 32) else c.
Definition lower_char (c : ascii) : ascii :=
  if is_upper c then ascii_of_N (code c + 32) else c.

Fixpoint map_chars (f : ascii -> ascii) (s : string) : string :=
  match s with
  | EmptyString => EmptyString
  | String c r => String (f c) (map_chars f r)
  end.

Definition upper : string -> string := map_chars upper_char.
Definition lower : string -> string := map_chars lower_char.

(** [str.isspace] on one character (code points below 256). *)
Definition is_space (c : ascii) : bool :=
  in_range 9 13 c || in_range 28 32 c
  || (code c =? 133)%N || (code c =? 160)%N.

Fixpoint lstrip_by (p : ascii -> bool) (s : string) : string :=
  match s with
  | EmptyString => EmptyString
  | String c r => if p c then lstrip_by p r else s
  end.

Fixpoint rstrip_by (p : ascii -> bool) (s : string) : string :=
  match s with
  | EmptyString => EmptyString
  | String c r =>
      match rstrip_by p r with
      | EmptyString => if p c then EmptyString else String c EmptyString
      | r' => String c r'
      end
  end.

(** [s.strip()] *)
Definition strip (s : string) : string := rstrip_by is_space (lstrip_by is_space s).

(** [s.rstrip(ch)] for a one-character argument. *)
Definition rstrip_char (ch : ascii) (s : string) : string :=
  rstrip_by (Ascii.eqb ch) s.

(** [s.replace(ch, '')] for a one-character [ch]. *)
Fixpoint remove_char (ch : ascii) (s : string) : string :=
  match s with
  | EmptyString => EmptyString
  | String c r =>
      if Ascii.eqb ch c then remove_char ch r else String c (remove_char ch r)
  end.

(** [s.startswith(p)] *)
Fixpoint startswith (p s : string) : bool :=
  match p, s with
  | EmptyString, _ => true
  | String a p', String b s' => Ascii.eqb a b && startswith p' s'
  | String _ _, EmptyString => false
  end.

(** [sub in s] *)
Fixpoint contains (sub s : string) : bool :=
  startswith sub s ||
  match s with
  | EmptyString => false
  | String _ r => contains sub r
  end.

(** [s[0:n]] *)
Fixpoint take (n : nat) (s : string) : string :=
  match n, s with
  | S n', String c r => String c (take n' r)
  | _, _ => EmptyString
  end.

(** [s[n:]] *)
Fixpoint drop (n : nat) (s : string) : string :=
  match n, s with
  | S n', String _ r => drop n' r
  | _, _ => s
  end.

(** [ch * n] *)
Fixpoint replicate_char (n : nat) (ch : ascii) : string :=
  match n with
  | O => EmptyString
  | S n' => String ch (replicate_char n' ch)
  end.

(** Split at the first character satisfying [p]; the separator is dropped. *)
Fixpoint split_first (p : ascii -> bool) (s : string) : string * option string :=
  match s with
  | EmptyString => (EmptyString, None)
  | String c r =>
      if p c then (EmptyString, Some r)
      else let '(a, b) := split_first p r in (String c a, b)
  end.

(** Truthiness of a string: non-empty. *)
Definition truthy (s : string) : bool :=
  match s with EmptyString => false | String _ _ => true end.

(** [x in [a, b, ...]] for a list of strings. *)
Definition in_list (x : string) (l : list string) : bool :=
  existsb (String.eqb x) l.

End PyStr.

(* ===================================================================== *)
(** ** Python floats

    A float is identified with its shortest round-trip decimal
    [m * 10^e]; [str(x)] prints exactly that decimal, and [float(s)] reads
    it back.  Arithmetic is carried out on the decimals: binary64 rounding
    and overflow are not modelled, and [-0.0] is identified with [0.0].
    Every sum the properties below evaluate is exact in binary64; the
    literals 0.6 and 0.95 stand for the floats nearest to them.  Where a
    binary64 sum is inexact the model differs from the code (0.1 + 17.3 +
    0.6 is 18 here and 18.000000000000004 there), and [float_of_str] keeps
    "1e999" finite where the code yields inf; no property below is stated
    about such sums. *)
(* ===================================================================== *)

Module PyFloat.
Import PyStr.
Local Open Scope Z_scope.

Inductive pyfloat : Type :=
| Fin (m e : Z)        (* m * 10^e, normalised *)
| Inf (neg : bool)
| NaN.

Fixpoint strip10 (fuel : nat) (m e : Z) : Z * Z :=
  match fuel with
  | O => (m, e)
  | S f => if m mod 10 =? 0 then strip10 f (m / 10) (e + 1) else (m, e)
  end.

(** Normal form: no trailing decimal zero in the mantissa; zero is [Fin 0 0]. *)
Definition norm (m e : Z) : pyfloat :=
  if m =? 0 then Fin 0 0
  else let '(m', e') := strip10 (Z.to_nat (Z.log2 (Z.abs m))) m e in Fin m' e'.

Definition of_Z (n : Z) : pyfloat := norm n 0.
Definition zero : pyfloat := Fin 0 0.

(** [a + b] *)
Definition fadd (a b : pyfloat) : pyfloat :=
  match a, b with
  | NaN, _ | _, NaN => NaN
  | Inf s, Inf t => if Bool.eqb s t then Inf s else NaN
  | Inf s, Fin _ _ | Fin _ _, Inf s => Inf s
  | Fin m1 e1, Fin m2 e2 =>
      let e := Z.min e1 e2 in
      norm (m1 * 10 ^ (e1 - e) + m2 * 10 ^ (e2 - e)) e
  end.

(** [a < b] *)
Definition flt (a b : pyfloat) : bool :=
  match a, b with
  | NaN, _ | _, NaN => false
  | _, Inf true => false
  | Inf true, _ => true
  | Inf false, _ => false
  | Fin _ _, Inf false => true
  | Fin m1 e1, Fin m2 e2 =>
      let e := Z.min e1 e2 in
      m1 * 10 ^ (e1 - e) <? m2 * 10 ^ (e2 - e)
  end.

(** *** [float(s)] for a string argument

    Grammar (Python language reference, "float"):
    [[sign] (floatnumber | "inf" | "infinity" | "nan")] surrounded by
    optional whitespace, where
    [digitpart ::= digit (["_"] digit)*],
    [number ::= [digitpart] "." digitpart | digitpart ["."]],
    [floatnumber ::= number [("e"|"E") [sign] digitpart]].
    [None] stands for [ValueError]. *)

(** After one digit: [(["_"] digit)*]; returns the digits read. *)
Fixpoint digitpart_tail (s : string) : option string :=
  match s with
  | EmptyString => Some EmptyString
  | String c r =>
      if is_digit c then option_map (String c) (digitpart_tail r)
      else if Ascii.eqb c "_" then
        match r with
        | String d r' =>
            if is_digit d then option_map (String d) (digitpart_tail r') else None
        | EmptyString => None
        end
      else None
  end.

Definition digitpart (s : string) : option string :=
  match s with
  | String c r => if is_digit c then option_map (String c) (digitpart_tail r) else None
  | EmptyString => None
  end.

(** Value of a string of decimal digits, most significant first. *)
Fixpoint digits_value (acc : Z) (s : string) : Z :=
  match s with
  | EmptyString => acc
  | String c r => digits_value (10 * acc + (Z.of_N (code c) - 48)) r
  end.

Definition split_sign (s : string) : bool * string :=
  match s with
  | String "+" r => (false, r)
  | String "-" r => (true, r)
  | _ => (false, s)
  end.

(** [number]: the integer digits and the fraction digits. *)
Definition parse_number (s : string) : option (string * string) :=
  match split_first (Ascii.eqb ".") s with
  | (ip, None) => ds ← digitpart ip; Some (ds, EmptyString)
  | (ip, Some EmptyString) => ds ← digitpart ip; Some (ds, EmptyString)
  | (EmptyString, Some fp) => fs ← digitpart fp; Some (EmptyString, fs)
  | (ip, Some fp) => ds ← digitpart ip; fs ← digitpart fp; Some (ds, fs)
  end.

Definition parse_exponent (o : option string) : option Z :=
  match o with
  | None => Some 0
  | Some s =>
      let '(neg, r) := split_sign s in
      ds ← digitpart r;
      Some (if neg then - digits_value 0 ds else digits_value 0 ds)
  end.

Definition float_of_str (s : string) : option pyfloat :=
  let '(neg, body) := split_sign (strip s) in
  let lo := lower body in
  if in_list lo ["inf"; "infinity"] then Some (Inf neg)
  else if String.eqb lo "nan" then Some NaN
  else
    let '(num, ex) := split_first (fun c => Ascii.eqb c "e" || Ascii.eqb c "E") body in
    '(ds, fs) ← parse_number num;
    x ← parse_exponent ex;
    let m := digits_value 0 (ds +:+ fs) in
    Some (norm (if neg then - m else m) (x - Z.of_nat (String.length fs))).

(** *** [str(x)] / [repr(x)] *)

Definition digits_of_Z (n : Z) : string :=
  NilEmpty.string_of_uint (N.to_uint (Z.to_N n)).

Definition pad2 (s : string) : string :=
  if (String.length s <? 2)%nat then "0" +:+ s else s.

Definition repr (x : pyfloat) : string :=
  match x with
  | NaN => "nan"
  | Inf false => "inf"
  | Inf true => "-inf"
  | Fin m e =>
      if m =? 0 then "0.0" else
      let sign := if m <? 0 then "-" else "" in
      let ds := digits_of_Z (Z.abs m) in
      let n := Z.of_nat (String.length ds) in
      let decpt := n + e in
      if (-4 <? decpt) && (decpt <=? 16) then
        if decpt <=? 0 then
          sign +:+ "0." +:+ replicate_char (Z.to_nat (- decpt)) "0" +:+ ds
        else if decpt <? n then
          sign +:+ take (Z.to_nat decpt) ds +:+ "." +:+ drop (Z.to_nat decpt) ds
        else
          sign +:+ ds +:+ replicate_char (Z.to_nat (decpt - n)) "0" +:+ ".0"
      else
        let ex := decpt - 1 in
        sign +:+ take 1 ds
             +:+ (if 1 <? n then "." +:+ drop 1 ds else "")
             +:+ "e" +:+ (if ex <? 0 then "-" else "+")
             +:+ pad2 (digits_of_Z (Z.abs ex))
  end.

End PyFloat.

(* ===================================================================== *)
(** ** Master data: [masters/*.py] *)
(* ===================================================================== *)

Module Masters.

(** Key: (tax_rate, transaction_type, charge_type, credit_type, state_type). *)
Definition key : Type := string * string * string * string * string.

Definition key_rate (k : key) : string := k.1.1.1.1.
Definition key_transaction (k : key) : string := k.1.1.1.2.
Definition key_charge (k : key) : string := k.1.1.2.
Definition key_credit (k : key) : string := k.1.2.
Definition key_state (k : key) : string := k.2.

(** [sap_master.py].  Each master file names its set [UNION_TERRITORIES];
    [tools.py] imports the three sets from the package under the names
    used here. *)
Definition SAP_UNION_TERRITORIES : gset string :=
  list_to_set ["04"; "07"; "25"; "26"; "31"; "34"; "35"; "38"].

Definition SAP_TAX_CODE_MASTER : gmap key string :=
  list_to_map [
    (("0.25", "INTRA", "REGULAR", "CREDIT", "STATE"), "3A");
    (("3", "INTRA", "REGULAR", "CREDIT", "STATE"), "3B");
    (("5", "INTRA", "REGULAR", "CREDIT", "STATE"), "3C");
    (("12", "INTRA", "REGULAR", "CREDIT", "STATE"), "3X");
    (("18", "INTRA", "REGULAR", "CREDIT", "STATE"), "3Z");
    (("28", "INTRA", "REGULAR", "CREDIT", "STATE"), "3Y");
    (("0.25", "INTRA", "REGULAR", "CREDIT", "UT"), "3A_UT");
    (("3", "INTRA", "REGULAR", "CREDIT", "UT"), "3B_UT");
    (("5", "INTRA", "REGULAR", "CREDIT", "UT"), "3C_UT");
    (("12", "INTRA", "REGULAR", "CREDIT", "UT"), "3X_UT");
    (("18", "INTRA", "REGULAR", "CREDIT", "UT"), "3Z_UT");
    (("28", "INTRA", "REGULAR", "CREDIT", "UT"), "3Y_UT");
    (("0.25", "INTER", "REGULAR", "CREDIT", "STATE"), "1A");
    (("0.25", "INTER", "REGULAR", "CREDIT", "UT"), "1A");
    (("3", "INTER", "REGULAR", "CREDIT", "STATE"), "1B");
    (("3", "INTER", "REGULAR", "CREDIT", "UT"), "1B");
    (("5", "INTER", "REGULAR", "CREDIT", "STATE"), "1C");
    (("5", "INTER", "REGULAR", "CREDIT", "UT"), "1C");
    (("12", "INTER", "REGULAR", "CREDIT", "STATE"), "1X");
    (("12", "INTER", "REGULAR", "CREDIT", "UT"), "1X");
    (("18", "INTER", "REGULAR", "CREDIT", "STATE"), "1Z");
    (("18", "INTER", "REGULAR", "CREDIT", "UT"), "1Z");
    (("28", "INTER", "REGULAR", "CREDIT", "STATE"), "1Y");
    (("28", "INTER", "REGULAR", "CREDIT", "UT"), "1Y");
    (("5", "INTRA", "REGULAR", "NON_CREDIT", "STATE"), "3C_NC");
    (("5", "INTRA", "REGULAR", "NON_CREDIT", "UT"), "3C_UT_NC");
    (("12", "INTRA", "REGULAR", "NON_CREDIT", "STATE"), "3X_NC");
    (("12", "INTRA", "REGULAR", "NON_CREDIT", "UT"), "3X_UT_NC");
    (("18", "INTRA", "REGULAR", "NON_CREDIT", "STATE"), "3Z_NC");
    (("18", "INTRA", "REGULAR", "NON_CREDIT", "UT"), "3Z_UT_NC");
    (("28", "INTRA", "REGULAR", "NON_CREDIT", "STATE"), "3Y_NC");
    (("28", "INTRA", "REGULAR", "NON_CREDIT", "UT"), "3Y_UT_NC");
    (("5", "INTER", "REGULAR", "NON_CREDIT", "STATE"), "1C_NC");
    (("5", "INTER", "REGULAR", "NON_CREDIT", "UT"), "1C_NC");
    (("12", "INTER", "REGULAR", "NON_CREDIT", "STATE"), "1X_NC");
    (("12", "INTER", "REGULAR", "NON_CREDIT", "UT"), "1X_NC");
    (("18", "INTER", "REGULAR", "NON_CREDIT", "STATE"), "1Z_NC");
    (("18", "INTER", "REGULAR", "NON_CREDIT", "UT"), "1Z_NC");
    (("28", "INTER", "REGULAR", "NON_CREDIT", "STATE"), "1Y_NC");
    (("28", "INTER", "REGULAR", "NON_CREDIT", "UT"), "1Y_NC");
    (("5", "INTRA", "RCM", "CREDIT", "STATE"), "R3");
    (("5", "INTRA", "RCM", "CREDIT", "UT"), "R3_UT");
    (("12", "INTRA", "RCM", "CREDIT", "STATE"), "R6");
    (("12", "INTRA", "RCM", "CREDIT", "UT"), "R6_UT");
    (("18", "INTRA", "RCM", "CREDIT", "STATE"), "R9");
    (("18", "INTRA", "RCM", "CREDIT", "UT"), "R9_UT");
    (("28", "INTRA", "RCM", "CREDIT", "STATE"), "R12");
    (("28", "INTRA", "RCM", "CREDIT", "UT"), "R12_UT");
    (("5", "INTER", "RCM", "CREDIT", "STATE"), "R1");
    (("5", "INTER", "RCM", "CREDIT", "UT"), "R1");
    (("12", "INTER", "RCM", "CREDIT", "STATE"), "R4");
    (("12", "INTER", "RCM", "CREDIT", "UT"), "R4");
    (("18", "INTER", "RCM", "CREDIT", "STATE"), "R7");
    (("18", "INTER", "RCM", "CREDIT", "UT"), "R7");
    (("28", "INTER", "RCM", "CREDIT", "STATE"), "R10");
    (("28", "INTER", "RCM", "CREDIT", "UT"), "R10");
    (("5", "INTRA", "RCM", "NON_CREDIT", "STATE"), "R3_NC");
    (("5", "INTRA", "RCM", "NON_CREDIT", "UT"), "R3_UT_NC");
    (("12", "INTRA", "RCM", "NON_CREDIT", "STATE"), "R6_NC");
    (("12", "INTRA", "RCM", "NON_CREDIT", "UT"), "R6_UT_NC");
    (("18", "INTRA", "RCM", "NON_CREDIT", "STATE"), "R9_NC");
    (("18", "INTRA", "RCM", "NON_CREDIT", "UT"), "R9_UT_NC");
    (("28", "INTRA", "RCM", "NON_CREDIT", "STATE"), "R12_NC");
    (("28", "INTRA", "RCM", "NON_CREDIT", "UT"), "R12_UT_NC");
    (("5", "INTER", "RCM", "NON_CREDIT", "STATE"), "R1_NC");
    (("5", "INTER", "RCM", "NON_CREDIT", "UT"), "R1_NC");
    (("12", "INTER", "RCM", "NON_CREDIT", "STATE"), "R4_NC");
    (("12", "INTER", "RCM", "NON_CREDIT", "UT"), "R4_NC");
    (("18", "INTER", "RCM", "NON_CREDIT", "STATE"), "R7_NC");
    (("18", "INTER", "RCM", "NON_CREDIT", "UT"), "R7_NC");
    (("28", "INTER", "RCM", "NON_CREDIT", "STATE"), "R10_NC");
    (("28", "INTER", "RCM", "NON_CREDIT", "UT"), "R10_NC");
    (("0", "INTRA", "REGULAR", "CREDIT", "STATE"), "Z0");
    (("0", "INTRA", "REGULAR", "CREDIT", "UT"), "Z0");
    (("0", "INTER", "REGULAR", "CREDIT", "STATE"), "Z0");
    (("0", "INTER", "REGULAR", "CREDIT", "UT"), "Z0")
  ].

Definition SAP_TAX_CODE_DESCRIPTIONS : gmap string string :=
  list_to_map [
    ("3A", "CGST-SGST 0.25% Input");
    ("3B", "CGST-SGST 3% Input");
    ("3C", "CGST-SGST 5% Input");
    ("3X", "CGST-SGST 12% Input");
    ("3Z", "CGST-SGST 18% Input");
    ("3Y", "CGST-SGST 28% Input");
    ("3A_UT", "CGST-UGST 0.25% Input");
    ("3B_UT", "CGST-UGST 3% Input");
    ("3C_UT", "CGST-UGST 5% Input");
    ("3X_UT", "CGST-UGST 12% Input");
    ("3Z_UT", "CGST-UGST 18% Input");
    ("3Y_UT", "CGST-UGST 28% Input");
    ("1A", "IGST 0.25% Input");
    ("1B", "IGST 3% Input");
    ("1C", "IGST 5% Input");
    ("1X", "IGST 12% Input");
    ("1Z", "IGST 18% Input");
    ("1Y", "IGST 28% Input");
    ("3C_NC", "CGST-SGST 5% Non-Credit");
    ("3X_NC", "CGST-SGST 12% Non-Credit");
    ("3Z_NC", "CGST-SGST 18% Non-Credit");
    ("3Y_NC", "CGST-SGST 28% Non-Credit");
    ("R3", "RCM CGST-SGST 5% Input");
    ("R6", "RCM CGST-SGST 12% Input");
    ("R9", "RCM CGST-SGST 18% Input");
    ("R12", "RCM CGST-SGST 28% Input");
    ("R1", "RCM IGST 5% Input");
    ("R4", "RCM IGST 12% Input");
    ("R7", "RCM IGST 18% Input");
    ("R10", "RCM IGST 28% Input");
    ("Z0", "Input Tax Exempt / Zero Rated")
  ].

(** [oracle_master.py] *)
Definition ORACLE_UNION_TERRITORIES : gset string :=
  list_to_set ["04"; "07"; "25"; "26"; "31"; "34"; "35"; "38"].

Definition ORACLE_TAX_CODE_MASTER : gmap key string :=
  list_to_map [
    (("5", "INTRA", "REGULAR", "CREDIT", "STATE"), "ORA_CGST_SGST_5");
    (("12", "INTRA", "REGULAR", "CREDIT", "STATE"), "ORA_CGST_SGST_12");
    (("18", "INTRA", "REGULAR", "CREDIT", "STATE"), "ORA_CGST_SGST_18");
    (("28", "INTRA", "REGULAR", "CREDIT", "STATE"), "ORA_CGST_SGST_28");
    (("5", "INTER", "REGULAR", "CREDIT", "STATE"), "ORA_IGST_5");
    (("12", "INTER", "REGULAR", "CREDIT", "STATE"), "ORA_IGST_12");
    (("18", "INTER", "REGULAR", "CREDIT", "STATE"), "ORA_IGST_18");
    (("28", "INTER", "REGULAR", "CREDIT", "STATE"), "ORA_IGST_28")
  ].

Definition ORACLE_TAX_CODE_DESCRIPTIONS : gmap string string :=
  list_to_map [
    ("ORA_CGST_SGST_5", "Oracle CGST-SGST 5% Input");
    ("ORA_CGST_SGST_12", "Oracle CGST-SGST 12% Input");
    ("ORA_CGST_SGST_18", "Oracle CGST-SGST 18% Input");
    ("ORA_CGST_SGST_28", "Oracle CGST-SGST 28% Input");
    ("ORA_IGST_5", "Oracle IGST 5% Input");
    ("ORA_IGST_12", "Oracle IGST 12% Input");
    ("ORA_IGST_18", "Oracle IGST 18% Input");
    ("ORA_IGST_28", "Oracle IGST 28% Input")
  ].

(** [ms_360_master.py] *)
Definition MS360_UNION_TERRITORIES : gset string :=
  list_to_set ["04"; "07"; "25"; "26"; "31"; "34"; "35"; "38"].

Definition MS360_TAX_CODE_MASTER : gmap key string :=
  list_to_map [
    (("5", "INTRA", "REGULAR", "CREDIT", "STATE"), "MS_IN_CGST_SGST_5");
    (("12", "INTRA", "REGULAR", "CREDIT", "STATE"), "MS_IN_CGST_SGST_12");
    (("18", "INTRA", "REGULAR", "CREDIT", "STATE"), "MS_IN_CGST_SGST_18");
    (("28", "INTRA", "REGULAR", "CREDIT", "STATE"), "MS_IN_CGST_SGST_28");
    (("5", "INTER", "REGULAR", "CREDIT", "STATE"), "MS_IN_IGST_5");
    (("12", "INTER", "REGULAR", "CREDIT", "STATE"), "MS_IN_IGST_12");
    (("18", "INTER", "REGULAR", "CREDIT", "STATE"), "MS_IN_IGST_18");
    (("28", "INTER", "REGULAR", "CREDIT", "STATE"), "MS_IN_IGST_28")
  ].

Definition MS360_TAX_CODE_DESCRIPTIONS : gmap string string :=
  list_to_map [
    ("MS_IN_CGST_SGST_5", "MS 365 CGST-SGST 5% Input");
    ("MS_IN_CGST_SGST_12", "MS 365 CGST-SGST 12% Input");
    ("MS_IN_CGST_SGST_18", "MS 365 CGST-SGST 18% Input");
    ("MS_IN_CGST_SGST_28", "MS 365 CGST-SGST 28% Input");
    ("MS_IN_IGST_5", "MS 365 IGST 5% Input");
    ("MS_IN_IGST_12", "MS 365 IGST 12% Input");
    ("MS_IN_IGST_18", "MS 365 IGST 18% Input");
    ("MS_IN_IGST_28", "MS 365 IGST 28% Input")
  ].

End Masters.

(* ===================================================================== *)
(** ** [tools.py] *)
(* ===================================================================== *)

Module GSTINExtractResult.
Record t : Type := mk {
  state_code : string;
  is_valid : bool;
  is_union_territory : bool;
  error : option string
}.
End GSTINExtractResult.

Module TransactionTypeResult.
Record t : Type := mk {
  transaction_type : string;
  supplier_state : string;
  buyer_state : string;
  is_same_state : bool
}.
End TransactionTypeResult.

Module TaxCodeLookupResult.
Record t : Type := mk {
  tax_code : string;
  tax_description : string;
  confidence : PyFloat.pyfloat;
  found : bool
}.
End TaxCodeLookupResult.

Module Tools.
Import PyStr PyFloat Masters.

(** *** [extract_state_code_from_gstin] *)

(** The character classes of
    [^[0-9]{2}[A-Z]{5}[0-9]{4}[A-Z]{1}[1-9A-Z]{1}Z[0-9A-Z]{1}$],
    one per position. *)
Definition gstin_pattern : list (ascii -> bool) :=
  repeat is_digit 2 ++ repeat is_upper 5 ++ repeat is_digit 4
    ++ [ is_upper;
         (fun c => is_nonzero_digit c || is_upper c);
         Ascii.eqb "Z";
         (fun c => is_digit c || is_upper c) ].

(** Match a sequence of one-character classes at the start of [s];
    the result is the unmatched rest. *)
Fixpoint match_classes (cls : list (ascii -> bool)) (s : string) : option string :=
  match cls with
  | [] => Some s
  | p :: cls' =>
      match s with
      | String c r => if p c then match_classes cls' r else None
      | EmptyString => None
      end
  end.

(** [$]: at the end of the string, or just before a final newline. *)
Definition at_end (rest : string) : bool :=
  match rest with
  | EmptyString => true
  | String c EmptyString => Ascii.eqb c "010"
  | _ => false
  end.

(** [re.match(pattern, gstin)] is not [None]. *)
Definition re_match_gstin (gstin : string) : bool :=
  match match_classes gstin_pattern gstin with
  | Some rest => at_end rest
  | None => false
  end.

Definition extract_state_code_from_gstin (gstin erp_type : string)
  : GSTINExtractResult.t :=
  if negb (truthy gstin) || negb (String.length gstin =? 15)%nat then
    GSTINExtractResult.mk "" false false (Some "GSTIN must be 15 characters")
  else if negb (re_match_gstin gstin) then
    GSTINExtractResult.mk "" false false (Some "Invalid GSTIN format")
  else
    let state_code := take 2 gstin in
    let ut_set :=
      if String.eqb erp_type "ORACLE" then ORACLE_UNION_TERRITORIES
      else if String.eqb erp_type "MS_365" then MS360_UNION_TERRITORIES
      else SAP_UNION_TERRITORIES in
    let is_ut := bool_decide (state_code ∈ ut_set) in
    GSTINExtractResult.mk state_code true is_ut None.

(** *** [determine_transaction_type] *)

Definition determine_transaction_type (supplier_gstin buyer_gstin erp_type : string)
  : TransactionTypeResult.t :=
  let supplier_result := extract_state_code_from_gstin supplier_gstin erp_type in
  let buyer_result := extract_state_code_from_gstin buyer_gstin erp_type in
  if negb (GSTINExtractResult.is_valid supplier_result)
     || negb (GSTINExtractResult.is_valid buyer_result) then
    TransactionTypeResult.mk "UNKNOWN"
      (GSTINExtractResult.state_code supplier_result)
      (GSTINExtractResult.state_code buyer_result)
      false
  else
    let is_same :=
      String.eqb (GSTINExtractResult.state_code supplier_result)
                 (GSTINExtractResult.state_code buyer_result) in
    let txn_type := if is_same then "INTRA" else "INTER" in
    TransactionTypeResult.mk txn_type
      (GSTINExtractResult.state_code supplier_result)
      (GSTINExtractResult.state_code buyer_result)
      is_same.

(** *** [calculate_total_tax_rate] *)

(** [float(rate_str.replace('%', '').strip())]; [None] is the exception. *)
Definition parse_rate (rate_str : string) : option pyfloat :=
  float_of_str (strip (remove_char "%" rate_str)).

(** The body of the [try]: the loop over [tax_list], left to right.
    An exception ([None]) leaves the loop at once. *)
Fixpoint sum_rates (total : pyfloat) (tax_list : list (string * string))
  : option pyfloat :=
  match tax_list with
  | [] => Some total
  | (tax_type, rate_str) :: rest =>
      rate ← parse_rate rate_str;
      sum_rates (fadd total rate) rest
  end.

Definition calculate_total_tax_rate (tax_list : list (string * string)) : pyfloat :=
  match sum_rates zero tax_list with
  | Some total => total
  | None => zero            (* except Exception: return 0.0 *)
  end.

(** *** [check_rcm_applicability] *)

Definition unregistered_markers : list string := ["URP"; "UNREGISTERED"; "NA"].

Definition rcm_keywords : list string :=
  ["reverse charge"; "rcm"; "gta"; "legal"; "advocate"; "arbitration"].

(** [not supplier_gstin]: [None] or the empty string. *)
Definition falsy (o : option string) : bool :=
  match o with
  | None => true
  | Some s => negb (truthy s)
  end.

Definition check_rcm_applicability
    (supplier_gstin : option string) (supplier_country item_description : string)
  : bool :=
  if negb (String.eqb supplier_country "IN") then true
  else if falsy supplier_gstin
          || in_list (upper (default "" supplier_gstin)) unregistered_markers then true
  else
    let description_lower := lower item_description in
    if existsb (fun keyword => contains keyword description_lower) rcm_keywords
    then true
    else false.

(** *** [lookup_tax_code] *)

(** [str(tax_rate).rstrip('0').rstrip('.')] *)
Definition normalize_rate (tax_rate : pyfloat) : string :=
  rstrip_char "." (rstrip_char "0" (repr tax_rate)).

Definition lookup_key (tax_rate : pyfloat)
    (transaction_type charge_type credit_type state_type : string) : key :=
  (normalize_rate tax_rate, transaction_type, charge_type, credit_type, state_type).

Definition select_master (erp_type : string)
  : gmap key string * gmap string string :=
  if String.eqb erp_type "ORACLE" then
    (ORACLE_TAX_CODE_MASTER, ORACLE_TAX_CODE_DESCRIPTIONS)
  else if String.eqb erp_type "MS_365" then
    (MS360_TAX_CODE_MASTER, MS360_TAX_CODE_DESCRIPTIONS)
  else
    (SAP_TAX_CODE_MASTER, SAP_TAX_CODE_DESCRIPTIONS).

Definition confidence_hit : pyfloat := Fin 95 (-2).   (* 0.95 *)

Definition lookup_tax_code (tax_rate : pyfloat)
    (transaction_type charge_type credit_type state_type erp_type : string)
  : TaxCodeLookupResult.t :=
  let rate_str := normalize_rate tax_rate in
  let lookup_key :=
    lookup_key tax_rate transaction_type charge_type credit_type state_type in
  let '(tax_master, desc_master) := select_master erp_type in
  let not_found :=
    TaxCodeLookupResult.mk "MANUAL_REVIEW"
      ("No mapping found: rate=" +:+ rate_str +:+ "%, type=" +:+ transaction_type
         +:+ ", charge=" +:+ charge_type)
      zero false in
  match tax_master !! lookup_key with      (* tax_master.get(lookup_key) *)
  | Some tax_code =>
      if truthy tax_code then
        let tax_description :=
          default ("Tax Code " +:+ tax_code +:+ " - " +:+ rate_str +:+ "%")
                  (desc_master !! tax_code) in
        TaxCodeLookupResult.mk tax_code tax_description confidence_hit true
      else not_found
  | None => not_found
  end.

End Tools.

(* ===================================================================== *)
(** ** [state.py]: the workflow state and its reducers *)
(* ===================================================================== *)

Module State.
Record t : Type := mk {
  (* input data *)
  item_description : string;
  hsn : Z;
  supplier_name : string;
  supplier_gstin : string;
  supplier_country : string;
  buyer_gstin : string;
  buyer_country : string;
  tax : list (string * string);
  erp_type : string;
  (* extracted / computed data *)
  supplier_state_code : string;
  buyer_state_code : string;
  is_union_territory : bool;
  transaction_type : string;
  total_tax_rate : PyFloat.pyfloat;
  is_rcm : bool;
  is_credit_eligible : bool;
  (* result *)
  tax_code : string;
  tax_description : string;
  confidence : PyFloat.pyfloat;
  (* token usage *)
  total_prompt_tokens : Z;
  total_completion_tokens : Z;
  total_reasoning_tokens : Z;
  total_tokens : Z;
  (* metadata, accumulated with operator.add *)
  messages : list string;
  errors : list string
}.
End State.

(** The dict a node returns: a key that is absent is [None].  Every node
    sets [messages] and [errors]. *)
Module Update.
Record t : Type := mk {
  supplier_state_code : option string;
  buyer_state_code : option string;
  is_union_territory : option bool;
  transaction_type : option string;
  total_tax_rate : option PyFloat.pyfloat;
  is_rcm : option bool;
  is_credit_eligible : option bool;
  tax_code : option string;
  tax_description : option string;
  confidence : option PyFloat.pyfloat;
  total_prompt_tokens : option Z;
  total_completion_tokens : option Z;
  total_reasoning_tokens : option Z;
  total_tokens : option Z;
  messages : list string;
  errors : list string
}.

(** The update that only carries [messages] and [errors]. *)
Definition only (messages errors : list string) : t :=
  mk None None None None None None None None None None None None None None
     messages errors.

(** Merge of a node's update into the state: a plain key overwrites, the
    two keys annotated with [operator.add] in [TaxDeterminationState]
    are concatenated, old value first. *)
Definition apply (s : State.t) (u : t) : State.t :=
  State.mk
    (State.item_description s) (State.hsn s) (State.supplier_name s)
    (State.supplier_gstin s) (State.supplier_country s)
    (State.buyer_gstin s) (State.buyer_country s) (State.tax s)
    (State.erp_type s)
    (default (State.supplier_state_code s) (supplier_state_code u))
    (default (State.buyer_state_code s) (buyer_state_code u))
    (default (State.is_union_territory s) (is_union_territory u))
    (default (State.transaction_type s) (transaction_type u))
    (default (State.total_tax_rate s) (total_tax_rate u))
    (default (State.is_rcm s) (is_rcm u))
    (default (State.is_credit_eligible s) (is_credit_eligible u))
    (default (State.tax_code s) (tax_code u))
    (default (State.tax_description s) (tax_description u))
    (default (State.confidence s) (confidence u))
    (default (State.total_prompt_tokens s) (total_prompt_tokens u))
    (default (State.total_completion_tokens s) (total_completion_tokens u))
    (default (State.total_reasoning_tokens s) (total_reasoning_tokens u))
    (default (State.total_tokens s) (total_tokens u))
    (State.messages s ++ messages u)
    (State.errors s ++ errors u).
End Update.

(* ===================================================================== *)
(** ** [nodes.py] *)
(* ===================================================================== *)

(** The structured answer of the generative collaborator. *)
Module TaxCodeOutput.
Record t : Type := mk {
  tax_code : string;
  reasoning : string;
  confidence : PyFloat.pyfloat
}.
End TaxCodeOutput.

(** Provider metadata: [llm_output['token_usage']], every key optional;
    [completion_tokens_details] is itself a dict whose only key read is
    [reasoning_tokens]. *)
Module TokenUsage.
Record t : Type := mk {
  prompt_tokens : option Z;
  completion_tokens : option Z;
  completion_tokens_details : option (option Z)
}.
End TokenUsage.

Module LLMOutput.
Record t : Type := mk { token_usage : option TokenUsage.t }.
End LLMOutput.

(** What one call of [get_llm_response] does: it returns the pair
    [(llm_response, llm_output)] or raises.  The prompt text is not
    modelled; the answer is arbitrary. *)
Inductive llm_outcome : Type :=
| LLMReturns (llm_response : TaxCodeOutput.t) (llm_output : option LLMOutput.t)
| LLMRaises (message : string).

Module Nodes.
Import PyStr PyFloat Tools.

Definition MANUAL_REVIEW_REQUIRED : string := "MANUAL_REVIEW_REQUIRED".
Definition ERROR : string := "ERROR".

(** *** [preprocessing_node] *)

Definition preprocessing_node (state : State.t) : Update.t :=
  let erp_type := State.erp_type state in
  let supplier_result :=
    extract_state_code_from_gstin (State.supplier_gstin state) erp_type in
  let errors1 :=
    if negb (GSTINExtractResult.is_valid supplier_result)
    then ["Invalid supplier GSTIN: "
            +:+ default "None" (GSTINExtractResult.error supplier_result)]
    else [] in
  let messages1 :=
    ["Supplier state: " +:+ GSTINExtractResult.state_code supplier_result] in
  let buyer_result :=
    extract_state_code_from_gstin (State.buyer_gstin state) erp_type in
  let errors2 :=
    if negb (GSTINExtractResult.is_valid buyer_result)
    then ["Invalid buyer GSTIN: "
            +:+ default "None" (GSTINExtractResult.error buyer_result)]
    else [] in
  let messages2 :=
    ["Buyer state: " +:+ GSTINExtractResult.state_code buyer_result] in
  let messages3 :=
    if GSTINExtractResult.is_union_territory supplier_result
    then ["State " +:+ GSTINExtractResult.state_code supplier_result
            +:+ " is a Union Territory"]
    else [] in
  let txn_result :=
    determine_transaction_type
      (State.supplier_gstin state) (State.buyer_gstin state) erp_type in
  let messages4 :=
    ["Transaction type: "
       +:+ TransactionTypeResult.transaction_type txn_result +:+ "state"] in
  let total_rate := calculate_total_tax_rate (State.tax state) in
  let messages5 := ["Total tax rate: " +:+ repr total_rate +:+ "%"] in
  let is_rcm :=
    check_rcm_applicability
      (Some (State.supplier_gstin state))
      (State.supplier_country state)
      (State.item_description state) in
  let messages6 := if is_rcm then ["RCM applicable"] else [] in
  Update.mk
    (Some (GSTINExtractResult.state_code supplier_result))
    (Some (GSTINExtractResult.state_code buyer_result))
    (Some (GSTINExtractResult.is_union_territory supplier_result))
    (Some (TransactionTypeResult.transaction_type txn_result))
    (Some total_rate)
    (Some is_rcm)
    (Some true)       (* updates['is_credit_eligible'] = True *)
    None None None None None None None
    (messages1 ++ messages2 ++ messages3 ++ messages4 ++ messages5 ++ messages6)
    (errors1 ++ errors2).

(** *** [tax_determination_node] *)

Definition state_type_of (state : State.t) : string :=
  if State.is_union_territory state then "UT" else "STATE".
Definition charge_type_of (state : State.t) : string :=
  if State.is_rcm state then "RCM" else "REGULAR".
Definition credit_type_of (state : State.t) : string :=
  if State.is_credit_eligible state then "CREDIT" else "NON_CREDIT".

(** The key the node's call of [lookup_tax_code] looks up. *)
Definition determination_key (state : State.t) : Masters.key :=
  lookup_key (State.total_tax_rate state) (State.transaction_type state)
    (charge_type_of state) (credit_type_of state) (state_type_of state).

(** Token counts read from the provider metadata:
    (prompt, completion, reasoning), each 0 when absent.  [TokenUsage.t]
    holds a key that is absent or present with a value of its type; a key
    present with the value [None] (where [token_usage.get] or
    [details.get] raises inside the inner [try], and the answer is replaced
    by the manual-review sentinel) is not represented. *)
Definition harvest_tokens (llm_output : option LLMOutput.t) : Z * Z * Z :=
  match llm_output with
  | Some (LLMOutput.mk (Some token_usage)) =>
      let prompt_tokens := default 0%Z (TokenUsage.prompt_tokens token_usage) in
      let completion_tokens :=
        default 0%Z (TokenUsage.completion_tokens token_usage) in
      let reasoning_tokens :=
        match TokenUsage.completion_tokens_details token_usage with
        | Some details => default 0%Z details
        | None => 0%Z
        end in
      (prompt_tokens, completion_tokens, reasoning_tokens)
  | _ => (0, 0, 0)%Z
  end.

Definition tax_determination_node (llm : llm_outcome) (state : State.t) : Update.t :=
  let erp_type := State.erp_type state in
  let lookup_result :=
    lookup_tax_code (State.total_tax_rate state) (State.transaction_type state)
      (charge_type_of state) (credit_type_of state) (state_type_of state)
      erp_type in
  let '(tax_code, tax_description, confidence, messages, errors, tokens) :=
    if TaxCodeLookupResult.found lookup_result then
      (TaxCodeLookupResult.tax_code lookup_result,
       TaxCodeLookupResult.tax_description lookup_result,
       TaxCodeLookupResult.confidence lookup_result,
       ["Tax code found in master: " +:+ TaxCodeLookupResult.tax_code lookup_result],
       [], (0, 0, 0)%Z)
    else
      match llm with
      | LLMReturns llm_response llm_output =>
          (TaxCodeOutput.tax_code llm_response,
           TaxCodeOutput.reasoning llm_response,
           TaxCodeOutput.confidence llm_response,
           ["No direct match - using LLM for determination";
            "LLM determined tax code: " +:+ TaxCodeOutput.tax_code llm_response],
           [], harvest_tokens llm_output)
      | LLMRaises llm_error =>
          (MANUAL_REVIEW_REQUIRED,
           "Error in automated determination",
           zero,
           ["No direct match - using LLM for determination"],
           ["LLM error: " +:+ llm_error], (0, 0, 0)%Z)
      end in
  let '(prompt_tokens, completion_tokens, reasoning_tokens) := tokens in
  let current_prompt := State.total_prompt_tokens state in
  let current_completion := State.total_completion_tokens state in
  let current_reasoning := State.total_reasoning_tokens state in
  Update.mk None None None None None None None
    (Some tax_code) (Some tax_description) (Some confidence)
    (Some (current_prompt + prompt_tokens)%Z)
    (Some (current_completion + completion_tokens)%Z)
    (Some (current_reasoning + reasoning_tokens)%Z)
    (Some (current_prompt + prompt_tokens
           + current_completion + completion_tokens
           + current_reasoning + reasoning_tokens)%Z)
    messages errors.

(** *** [validation_node] *)

Definition confidence_threshold : pyfloat := Fin 6 (-1).   (* 0.6 *)

Definition validation_node (state : State.t) : Update.t :=
  (* 1. confidence threshold *)
  let low := flt (State.confidence state) confidence_threshold in
  let messages1 :=
    if low then ["Low confidence: " +:+ repr (State.confidence state)] else [] in
  let errors1 := if low then ["Confidence below threshold (0.6)"] else [] in
  (* 2. tax code format *)
  let tax_code := State.tax_code state in
  let review := in_list tax_code [MANUAL_REVIEW_REQUIRED; ERROR; ""] in
  let messages2 := if review then ["Tax code requires manual review"] else [] in
  let errors2 := if review then ["Tax code not automatically determined"] else [] in
  (* 3. rate consistency *)
  let messages3 :=
    if String.eqb (State.transaction_type state) "INTER" && startswith "1" tax_code
    then ["IGST tax code matches interstate transaction"]
    else if String.eqb (State.transaction_type state) "INTRA"
            && (startswith "3" tax_code || startswith "R" tax_code)
    then ["CGST-SGST tax code matches intrastate transaction"]
    else [] in
  let errors := errors1 ++ errors2 in
  let messages4 :=
    if (length errors =? 0)%nat then ["All validations passed"] else [] in
  Update.only (messages1 ++ messages2 ++ messages3 ++ messages4) errors.

End Nodes.

(* ===================================================================== *)
(** ** [graph.py]: preprocessing, then tax_determination, then validation

    [Graph.run] is the run of a graph whose three nodes execute in this
    order and whose updates are merged by the reducers.  In the package as
    it stands the decorator [track_node_metrics] wraps the coroutine
    function [tax_determination_node] in a plain function, the graph
    receives a coroutine object instead of an update, and
    [graph.ainvoke] raises on every state: that behaviour is the case
    [LineEnv.graph_exn = Some _] of [Agent.ainvoke], and [Graph.run] is
    what the nodes compute once the node is awaited. *)
(* ===================================================================== *)

Module Graph.
Import Nodes.

Definition run (llm : llm_outcome) (initial_state : State.t) : State.t :=
  let s1 := Update.apply initial_state (preprocessing_node initial_state) in
  let s2 := Update.apply s1 (tax_determination_node llm s1) in
  Update.apply s2 (validation_node s2).

End Graph.

(* ===================================================================== *)
(** ** [tax_agent.py] *)
(* ===================================================================== *)

Module TaggingRequestLineItem.
Record t : Type := mk {
  item_description : string;
  hsn : Z;
  supplier_name : string;
  po_number : string;
  quantity : Z;
  unit_price : PyFloat.pyfloat;
  total : PyFloat.pyfloat;
  supplier_gstin : string;
  supplier_country : string;
  buyer_gstin : string;
  buyer_country : string;
  tax : list (string * string)
}.
End TaggingRequestLineItem.

Module TaggingRequest.
Record t : Type := mk {
  lines : list TaggingRequestLineItem.t;
  erp_type : string
}.
End TaggingRequest.

Module TaxTaggingResult.
Record t : Type := mk {
  line_index : Z;
  item_description : string;
  tax_code : string;
  tax_description : string;
  confidence : PyFloat.pyfloat;
  total_prompt_tokens : Z;
  total_completion_tokens : Z;
  total_reasoning_tokens : Z;
  total_tokens : Z;
  messages : list string;
  errors : list string
}.
End TaxTaggingResult.

(** The [summary] dict.  Its [average_confidence] entry (a float division
    followed by [round(_, 3)]) is the one entry that is not represented. *)
Module Summary.
Record t : Type := mk {
  total_lines : Z;
  successful : Z;
  manual_review : Z;
  errors : Z;
  total_prompt_tokens : Z;
  total_completion_tokens : Z;
  total_reasoning_tokens : Z;
  total_tokens : Z
}.
End Summary.

Module TaxTaggingResponse.
Record t : Type := mk {
  results : list TaxTaggingResult.t;
  summary : Summary.t
}.
End TaxTaggingResponse.

(** What the outside world does during the run of one line: whether the
    execution of the graph raises ([graph_exn], the text of the exception)
    and what the generative collaborator does if it is called. *)
Module LineEnv.
Record t : Type := mk {
  graph_exn : option string;
  llm : llm_outcome
}.
End LineEnv.

Module Agent.
Import PyFloat Nodes.

(** The local variables of the loop of [process_tagging_request]. *)
Record acc : Type := mk_acc {
  results : list TaxTaggingResult.t;
  total_confidence : pyfloat;
  manual_review_count : Z;
  error_count : Z;
  aggregate_prompt_tokens : Z;
  aggregate_completion_tokens : Z;
  aggregate_reasoning_tokens : Z;
  aggregate_total_tokens : Z
}.

Definition acc0 : acc := mk_acc [] zero 0 0 0 0 0 0.

Definition initial_state (erp_type : string) (line : TaggingRequestLineItem.t)
  : State.t :=
  State.mk
    (TaggingRequestLineItem.item_description line)
    (TaggingRequestLineItem.hsn line)
    (TaggingRequestLineItem.supplier_name line)
    (TaggingRequestLineItem.supplier_gstin line)
    (TaggingRequestLineItem.supplier_country line)
    (TaggingRequestLineItem.buyer_gstin line)
    (TaggingRequestLineItem.buyer_country line)
    (TaggingRequestLineItem.tax line)
    erp_type
    "" "" false "" zero false true
    "" "" zero
    0 0 0 0
    [] [].

(** [await self.graph.ainvoke(initial_state)]: [inl] is a raised exception. *)
Definition ainvoke (env : LineEnv.t) (initial_state : State.t) : string + State.t :=
  match LineEnv.graph_exn env with
  | Some e => inl e
  | None => inr (Graph.run (LineEnv.llm env) initial_state)
  end.

(** One iteration of the loop. *)
Definition process_line (erp_type : string) (env : LineEnv.t) (idx : nat)
    (line : TaggingRequestLineItem.t) (a : acc) : acc :=
  match ainvoke env (initial_state erp_type line) with
  | inr final_state =>
      let result :=
        TaxTaggingResult.mk (Z.of_nat idx)
          (TaggingRequestLineItem.item_description line)
          (State.tax_code final_state)
          (State.tax_description final_state)
          (State.confidence final_state)
          (State.total_prompt_tokens final_state)
          (State.total_completion_tokens final_state)
          (State.total_reasoning_tokens final_state)
          (State.total_tokens final_state)
          (State.messages final_state)
          (State.errors final_state) in
      let manual_review_count :=
        if String.eqb (State.tax_code final_state) MANUAL_REVIEW_REQUIRED
        then (manual_review_count a + 1)%Z else manual_review_count a in
      let error_count :=
        if (0 <? length (State.errors final_state))%nat
        then (error_count a + 1)%Z else error_count a in
      mk_acc
        (results a ++ [result])
        (fadd (total_confidence a) (State.confidence final_state))
        manual_review_count
        error_count
        (aggregate_prompt_tokens a + TaxTaggingResult.total_prompt_tokens result)%Z
        (aggregate_completion_tokens a
           + TaxTaggingResult.total_completion_tokens result)%Z
        (aggregate_reasoning_tokens a
           + TaxTaggingResult.total_reasoning_tokens result)%Z
        (aggregate_total_tokens a + TaxTaggingResult.total_tokens result)%Z
  | inl e =>
      let result :=
        TaxTaggingResult.mk (Z.of_nat idx)
          (TaggingRequestLineItem.item_description line)
          ERROR
          ("Processing error: " +:+ e)
          zero
          0 0 0 0
          []
          [e] in
      mk_acc
        (results a ++ [result])
        (total_confidence a)
        (manual_review_count a)
        (error_count a + 1)%Z
        (aggregate_prompt_tokens a)
        (aggregate_completion_tokens a)
        (aggregate_reasoning_tokens a)
        (aggregate_total_tokens a)
  end.

(** [for idx, line in enumerate(request.lines)], from index [idx] on. *)
Fixpoint process_lines (erp_type : string) (env : nat -> LineEnv.t) (idx : nat)
    (lines : list TaggingRequestLineItem.t) (a : acc) : acc :=
  match lines with
  | [] => a
  | line :: rest =>
      process_lines erp_type env (S idx) rest
        (process_line erp_type (env idx) idx line a)
  end.

Definition build_summary (n_lines : Z) (a : acc) : Summary.t :=
  Summary.mk
    n_lines
    (n_lines - manual_review_count a - error_count a)%Z
    (manual_review_count a)
    (error_count a)
    (aggregate_prompt_tokens a)
    (aggregate_completion_tokens a)
    (aggregate_reasoning_tokens a)
    (aggregate_total_tokens a).

Definition process_tagging_request (env : nat -> LineEnv.t)
    (request : TaggingRequest.t) : TaxTaggingResponse.t :=
  let a :=
    process_lines (TaggingRequest.erp_type request) env 0
      (TaggingRequest.lines request) acc0 in
  TaxTaggingResponse.mk
    (results a)
    (build_summary (Z.of_nat (length (TaggingRequest.lines request))) a).

End Agent.

(* ===================================================================== *)
(** ** Vocabulary of the properties *)
(* ===================================================================== *)

Module Spec.
Import PyStr PyFloat.

(** A string has a positional shape when it has exactly one character per
    class and each character lies in its class. *)
Definition has_shape (classes : list (ascii -> bool)) (s : string) : Prop :=
  Forall2 (fun (p : ascii -> bool) c => p c = true) classes (list_ascii_of_string s).

(** The identifier shape in the words of the specification: 2 digits,
    5 letters, 4 digits, 1 letter, 1 alphanumeric, the literal checksum
    letter, 1 alphanumeric.  Letters are read as upper-case letters, the
    reading closest to the code. *)
Definition is_alphanumeric (c : ascii) : bool := is_digit c || is_upper c.

Definition described_shape : list (ascii -> bool) :=
  repeat is_digit 2 ++ repeat is_upper 5 ++ repeat is_digit 4
    ++ [is_upper; is_alphanumeric; Ascii.eqb "Z"; is_alphanumeric].

(** Case-insensitive equality and case-insensitive substring. *)
Definition ci_equal (a b : string) : Prop := upper a = upper b.
Definition ci_substring (term s : string) : Prop :=
  exists pre post, lower s = pre +:+ lower term +:+ post.

(** The three positive steps of the reverse-charge chain. *)
Definition foreign_supplier (supplier_country : string) : Prop :=
  supplier_country <> "IN".
Definition unregistered_supplier (supplier_gstin : option string) : Prop :=
  supplier_gstin = None \/ supplier_gstin = Some "" \/
  exists g marker,
    supplier_gstin = Some g /\ In marker Tools.unregistered_markers /\ ci_equal g marker.
Definition notified_service (item_description : string) : Prop :=
  exists term, In term Tools.rcm_keywords /\ ci_substring term item_description.

(** The supported rates 0, 0.25, 3, 5, 12, 18, 28 as floats. *)
Definition supported_rates : list pyfloat :=
  [Fin 0 0; Fin 25 (-2); Fin 3 0; Fin 5 0; Fin 12 0; Fin 18 0; Fin 28 0].

(** A numeral is canonical when it does not end in a decimal point and its
    fraction, if any, does not end in a zero. *)
Definition ends_with (ch : ascii) (s : string) : bool :=
  negb (String.eqb (rstrip_char ch s) s).
Definition canonical_numeral (s : string) : bool :=
  negb (ends_with "." s) && negb (contains "." s && ends_with "0" s).

Definition b2z (b : bool) : Z := if b then 1%Z else 0%Z.

(** Counting the line results that satisfy a test. *)
Fixpoint count_where {A : Type} (p : A -> bool) (l : list A) : Z :=
  match l with
  | [] => 0
  | x :: r => ((if p x then 1 else 0) + count_where p r)%Z
  end.

Definition is_manual_review (r : TaxTaggingResult.t) : bool :=
  String.eqb (TaxTaggingResult.tax_code r) Nodes.MANUAL_REVIEW_REQUIRED.
Definition has_errors (r : TaxTaggingResult.t) : bool :=
  match TaxTaggingResult.errors r with [] => false | _ :: _ => true end.

(** Buckets with precedence, in the words of the specification: a line
    belongs to exactly one bucket, manual review first. *)
Definition in_error_bucket (r : TaxTaggingResult.t) : bool :=
  negb (is_manual_review r) && has_errors r.
Definition in_success_bucket (r : TaxTaggingResult.t) : bool :=
  negb (is_manual_review r) && negb (has_errors r).

Definition counted_once (resp : TaxTaggingResponse.t) : Prop :=
  let s := TaxTaggingResponse.summary resp in
  let rs := TaxTaggingResponse.results resp in
  (Summary.successful s + Summary.manual_review s + Summary.errors s
     = Summary.total_lines s)%Z
  /\ Summary.manual_review s = count_where is_manual_review rs
  /\ Summary.errors s = count_where in_error_bucket rs
  /\ Summary.successful s = count_where in_success_bucket rs.

(** [s'] is [s] with messages and errors appended and nothing else changed. *)
Definition extends_log (s s' : State.t) : Prop :=
  exists new_messages new_errors,
    s' = State.mk
           (State.item_description s) (State.hsn s) (State.supplier_name s)
           (State.supplier_gstin s) (State.supplier_country s)
           (State.buyer_gstin s) (State.buyer_country s) (State.tax s)
           (State.erp_type s)
           (State.supplier_state_code s) (State.buyer_state_code s)
           (State.is_union_territory s) (State.transaction_type s)
           (State.total_tax_rate s) (State.is_rcm s) (State.is_credit_eligible s)
           (State.tax_code s) (State.tax_description s) (State.confidence s)
           (State.total_prompt_tokens s) (State.total_completion_tokens s)
           (State.total_reasoning_tokens s) (State.total_tokens s)
           (State.messages s ++ new_messages)
           (State.errors s ++ new_errors).

(** The state of a line of a batch when the preprocessing stage is over. *)
Definition preprocessed (erp_type : string) (line : TaggingRequestLineItem.t)
  : State.t :=
  Update.apply (Agent.initial_state erp_type line)
    (Nodes.preprocessing_node (Agent.initial_state erp_type line)).

(** The codes for which a line needs attention. *)
Definition needs_attention (tax_code : string) : Prop :=
  tax_code = Nodes.MANUAL_REVIEW_REQUIRED \/ tax_code = Nodes.ERROR \/ tax_code = "".

End Spec.

(* ===================================================================== *)
(** ** Sample requests *)
(* ===================================================================== *)

Module Samples.
Import PyFloat.

(** A line at 7%, a rate the master does not map. *)
Definition line_unmapped_rate : TaggingRequestLineItem.t :=
  TaggingRequestLineItem.mk
    "Professional consulting services" 998314 "ABC Consultants Pvt Ltd"
    "PO-2024-001" 1 (of_Z 100000) (of_Z 107000)
    "27AABCU9603R1ZM" "IN" "27AADCB2501D1ZF" "IN"
    [("CGST", "3.5%"); ("SGST", "3.5%")].

(** The first line of the example request of [test.py]. *)
Definition line_consulting : TaggingRequestLineItem.t :=
  TaggingRequestLineItem.mk
    "Professional consulting services" 998314 "ABC Consultants Pvt Ltd"
    "PO-2024-001" 1 (of_Z 100000) (of_Z 118000)
    "27AABCU9603R1ZM" "IN" "27AADCB2501D1ZF" "IN"
    [("CGST", "9%"); ("SGST", "9%")].

(** The collaborator fails on every line; the graph itself never raises. *)
Definition env_llm_down (idx : nat) : LineEnv.t :=
  LineEnv.mk None (LLMRaises "timeout").

(** The graph raises on every line. *)
Definition env_graph_down (idx : nat) : LineEnv.t :=
  LineEnv.mk (Some "graph failure") (LLMRaises "timeout").

(** The collaborator answers every call, with a code of its own. *)
Definition env_llm_answers (idx : nat) : LineEnv.t :=
  LineEnv.mk None
    (LLMReturns (TaxCodeOutput.mk "3C" "Five percent, intrastate" (Fin 8 (-1)))
       (Some (LLMOutput.mk (Some (TokenUsage.mk (Some 120%Z) (Some 30%Z) None))))).

(** The collaborator answers on the first two lines; from the third line on
    the execution of the graph raises. *)
Definition env_two_answers (idx : nat) : LineEnv.t :=
  if (idx <? 2)%nat then env_llm_answers idx else env_graph_down idx.

Definition request_unmapped_rate : TaggingRequest.t :=
  TaggingRequest.mk [line_unmapped_rate] "SAP_ECC".

Definition result_llm_down : TaxTaggingResult.t :=
  TaxTaggingResult.mk 0 "Professional consulting services"
    "MANUAL_REVIEW_REQUIRED" "Error in automated determination" zero 0 0 0 0
    ["Supplier state: 27"; "Buyer state: 27"; "Transaction type: INTRAstate";
     "Total tax rate: 7.0%"; "No direct match - using LLM for determination";
     "Low confidence: 0.0"; "Tax code requires manual review"]
    ["LLM error: timeout"; "Confidence below threshold (0.6)";
     "Tax code not automatically determined"].

End Samples.

(* ===================================================================== *)
(** ** [prompt.py] *)
(* ===================================================================== *)

Module Prompt.

(** The three prompt constants.  Their texts are opaque configuration; a
    constant is identified by its name. *)
Inductive system_prompt : Type :=
| SAP_ECC_SYSTEM_PROMPT
| ORACLE_ERP_SYSTEM_PROMPT
| MS_365_SYSTEM_PROMPT.

Definition prompts : gmap string system_prompt :=
  list_to_map [
    ("SAP_ECC", SAP_ECC_SYSTEM_PROMPT);
    ("ORACLE", ORACLE_ERP_SYSTEM_PROMPT);
    ("MS_365", MS_365_SYSTEM_PROMPT)
  ].

(** [prompts.get(erp_type, SAP_ECC_SYSTEM_PROMPT)] *)
Definition get_system_prompt (erp_type : string) : system_prompt :=
  default SAP_ECC_SYSTEM_PROMPT (prompts !! erp_type).

End Prompt.

(* ===================================================================== *)
(** ** [metrics.py]

    A labelled counter or gauge is a map from its label values to its
    value; a child that was never touched reads 0.  A histogram is the list
    of its observations, latest last.  Durations are not modelled. *)
(* ===================================================================== *)

Module Metrics.
Import PyFloat.

Definition value {K : Type} `{Countable K} (m : gmap K Z) (labels : K) : Z :=
  default 0%Z (m !! labels).

(** [metric.labels(...).inc(amount)] *)
Definition inc {K : Type} `{Countable K} (labels : K) (amount : Z) (m : gmap K Z)
  : gmap K Z :=
  <[labels := (value m labels + amount)%Z]> m.

(** [histogram.labels(...).observe(x)] *)
Definition observe {K : Type} `{Countable K} (labels : K) (x : pyfloat)
    (m : gmap K (list pyfloat)) : gmap K (list pyfloat) :=
  <[labels := default [] (m !! labels) ++ [x]]> m.

Record registry : Type := mk {
  tax_agent_requests_total : gmap (string * string) Z;      (* erp_type, status *)
  tax_agent_active_requests : gmap string Z;                (* erp_type *)
  tax_agent_llm_tokens_total : gmap (string * string) Z;    (* erp_type, token_type *)
  tax_agent_confidence_score : gmap string (list pyfloat);  (* erp_type *)
  tax_agent_errors_total : gmap (string * string) Z;        (* erp_type, error_type *)
  tax_agent_tool_calls_total : gmap (string * string) Z     (* tool_name, status *)
}.

Definition set_requests_total (f : gmap (string * string) Z -> gmap (string * string) Z)
    (reg : registry) : registry :=
  mk (f (tax_agent_requests_total reg)) (tax_agent_active_requests reg)
     (tax_agent_llm_tokens_total reg) (tax_agent_confidence_score reg)
     (tax_agent_errors_total reg) (tax_agent_tool_calls_total reg).

Definition set_active_requests (f : gmap string Z -> gmap string Z)
    (reg : registry) : registry :=
  mk (tax_agent_requests_total reg) (f (tax_agent_active_requests reg))
     (tax_agent_llm_tokens_total reg) (tax_agent_confidence_score reg)
     (tax_agent_errors_total reg) (tax_agent_tool_calls_total reg).

Definition set_llm_tokens_total (f : gmap (string * string) Z -> gmap (string * string) Z)
    (reg : registry) : registry :=
  mk (tax_agent_requests_total reg) (tax_agent_active_requests reg)
     (f (tax_agent_llm_tokens_total reg)) (tax_agent_confidence_score reg)
     (tax_agent_errors_total reg) (tax_agent_tool_calls_total reg).

Definition set_confidence_score
    (f : gmap string (list pyfloat) -> gmap string (list pyfloat))
    (reg : registry) : registry :=
  mk (tax_agent_requests_total reg) (tax_agent_active_requests reg)
     (tax_agent_llm_tokens_total reg) (f (tax_agent_confidence_score reg))
     (tax_agent_errors_total reg) (tax_agent_tool_calls_total reg).

Definition set_errors_total (f : gmap (string * string) Z -> gmap (string * string) Z)
    (reg : registry) : registry :=
  mk (tax_agent_requests_total reg) (tax_agent_active_requests reg)
     (tax_agent_llm_tokens_total reg) (tax_agent_confidence_score reg)
     (f (tax_agent_errors_total reg)) (tax_agent_tool_calls_total reg).

Definition set_tool_calls_total (f : gmap (string * string) Z -> gmap (string * string) Z)
    (reg : registry) : registry :=
  mk (tax_agent_requests_total reg) (tax_agent_active_requests reg)
     (tax_agent_llm_tokens_total reg) (tax_agent_confidence_score reg)
     (tax_agent_errors_total reg) (f (tax_agent_tool_calls_total reg)).

(** [sum(1 for r in results if test(r))] *)
Fixpoint count_if (test : TaxTaggingResult.t -> bool) (results : list TaxTaggingResult.t)
  : Z :=
  match results with
  | [] => 0
  | r :: rest => ((if test r then 1 else 0) + count_if test rest)%Z
  end.

Definition is_manual_review_result (r : TaxTaggingResult.t) : bool :=
  String.eqb (TaxTaggingResult.tax_code r) "MANUAL_REVIEW_REQUIRED".

Definition is_error_result (r : TaxTaggingResult.t) : bool :=
  String.eqb (TaxTaggingResult.tax_code r) "ERROR"
  || (0 <? length (TaxTaggingResult.errors r))%nat.

(** The loop [for r in result.results: if r.confidence > 0: observe]. *)
Fixpoint observe_confidences (erp_type : string) (results : list TaxTaggingResult.t)
    (h : gmap string (list pyfloat)) : gmap string (list pyfloat) :=
  match results with
  | [] => h
  | r :: rest =>
      observe_confidences erp_type rest
        (if flt zero (TaxTaggingResult.confidence r)
         then observe erp_type (TaxTaggingResult.confidence r) h
         else h)
  end.

(** The wrapper of [track_request_metrics(erp_type)] around one call of
    the decorated function; [outcome] is what the call did: [inr] its
    result, [inl] the type name of the exception it raised (which the
    wrapper re-raises). *)
Definition track_request_metrics (erp_type : string)
    (outcome : string + TaxTaggingResponse.t) (reg : registry) : registry :=
  let reg := set_active_requests (inc erp_type 1) reg in
  let reg :=
    match outcome with
    | inr result =>
        let results := TaxTaggingResponse.results result in
        let manual_review_count := count_if is_manual_review_result results in
        let error_count := count_if is_error_result results in
        let reg :=
          if (0 <? manual_review_count)%Z
          then set_requests_total (inc (erp_type, "manual_review") manual_review_count) reg
          else reg in
        let reg :=
          if (0 <? error_count)%Z
          then set_requests_total (inc (erp_type, "error") error_count) reg
          else reg in
        let success_count :=
          (Z.of_nat (length results) - manual_review_count - error_count)%Z in
        let reg :=
          if (0 <? success_count)%Z
          then set_requests_total (inc (erp_type, "success") success_count) reg
          else reg in
        set_confidence_score (observe_confidences erp_type results) reg
    | inl exception_type =>
        let reg := set_requests_total (inc (erp_type, "error") 1) reg in
        set_errors_total (inc (erp_type, exception_type) 1) reg
    end in
  (* finally *)
  set_active_requests (inc erp_type (-1)) reg.

(** [process_tagging_request] as decorated in [tax_agent.py]:
    [@track_request_metrics(erp_type="SAP_ECC")]. *)
Definition tracked_process_tagging_request (env : nat -> LineEnv.t)
    (request : TaggingRequest.t) (reg : registry)
  : TaxTaggingResponse.t * registry :=
  let result := Agent.process_tagging_request env request in
  (result, track_request_metrics "SAP_ECC" (inr result) reg).

(** [track_llm_tokens] *)
Definition track_llm_tokens (erp_type : string)
    (prompt_tokens completion_tokens reasoning_tokens : Z) (reg : registry) : registry :=
  let reg :=
    if (0 <? prompt_tokens)%Z
    then set_llm_tokens_total (inc (erp_type, "prompt") prompt_tokens) reg
    else reg in
  let reg :=
    if (0 <? completion_tokens)%Z
    then set_llm_tokens_total (inc (erp_type, "completion") completion_tokens) reg
    else reg in
  if (0 <? reasoning_tokens)%Z
  then set_llm_tokens_total (inc (erp_type, "reasoning") reasoning_tokens) reg
  else reg.

(** [track_tool_success] and [track_tool_failure] *)
Definition track_tool_success (tool_name : string) (reg : registry) : registry :=
  set_tool_calls_total (inc (tool_name, "success") 1) reg.

Definition track_tool_failure (tool_name error_type : string) (reg : registry)
  : registry :=
  set_tool_calls_total (inc (tool_name, "failure") 1) reg.

End Metrics.

(* ===================================================================== *)
(** ** Further vocabulary *)
(* ===================================================================== *)

Module Derived.
Import PyStr PyFloat.

(** The result of a line that sits [k] places further down a batch. *)
Definition reindex (k : nat) (r : TaxTaggingResult.t) : TaxTaggingResult.t :=
  TaxTaggingResult.mk
    (Z.of_nat k + TaxTaggingResult.line_index r)%Z
    (TaxTaggingResult.item_description r)
    (TaxTaggingResult.tax_code r)
    (TaxTaggingResult.tax_description r)
    (TaxTaggingResult.confidence r)
    (TaxTaggingResult.total_prompt_tokens r)
    (TaxTaggingResult.total_completion_tokens r)
    (TaxTaggingResult.total_reasoning_tokens r)
    (TaxTaggingResult.total_tokens r)
    (TaxTaggingResult.messages r)
    (TaxTaggingResult.errors r).

(** Sum of a counter over the line results. *)
Fixpoint sum_over (f : TaxTaggingResult.t -> Z) (rs : list TaxTaggingResult.t) : Z :=
  match rs with
  | [] => 0
  | r :: rest => (f r + sum_over f rest)%Z
  end.

(** The lookup that the determination stage performs on a state. *)
Definition determination_lookup (state : State.t) : TaxCodeLookupResult.t :=
  Tools.lookup_tax_code (State.total_tax_rate state) (State.transaction_type state)
    (Nodes.charge_type_of state) (Nodes.credit_type_of state)
    (Nodes.state_type_of state) (State.erp_type state).

(** What every entry of a master table satisfies: the transaction category
    is INTRA or INTER, the credit and region categories are the known ones,
    and the code is neither empty nor one of the sentinels. *)
Definition entry_ok (kv : Masters.key * string) : bool :=
  PyStr.in_list (Masters.key_transaction kv.1) ["INTRA"; "INTER"]
  && PyStr.in_list (Masters.key_charge kv.1) ["REGULAR"; "RCM"]
  && PyStr.in_list (Masters.key_credit kv.1) ["CREDIT"; "NON_CREDIT"]
  && PyStr.in_list (Masters.key_state kv.1) ["STATE"; "UT"]
  && negb (PyStr.in_list kv.2 [Nodes.MANUAL_REVIEW_REQUIRED; Nodes.ERROR; ""; "MANUAL_REVIEW"]).

(** A state with another target-system selector. *)
Definition with_erp (erp_type : string) (s : State.t) : State.t :=
  State.mk
    (State.item_description s) (State.hsn s) (State.supplier_name s)
    (State.supplier_gstin s) (State.supplier_country s)
    (State.buyer_gstin s) (State.buyer_country s) (State.tax s)
    erp_type
    (State.supplier_state_code s) (State.buyer_state_code s)
    (State.is_union_territory s) (State.transaction_type s)
    (State.total_tax_rate s) (State.is_rcm s) (State.is_credit_eligible s)
    (State.tax_code s) (State.tax_description s) (State.confidence s)
    (State.total_prompt_tokens s) (State.total_completion_tokens s)
    (State.total_reasoning_tokens s) (State.total_tokens s)
    (State.messages s) (State.errors s).

(** A string of ASCII characters only. *)
Definition is_ascii (s : string) : Prop :=
  Forall (fun c => (PyStr.code c < 128)%N) (list_ascii_of_string s).

(** The outside world of the package as it stands: the execution of the
    graph raises on every line. *)
Definition every_run_raises (env : nat -> LineEnv.t) : Prop :=
  forall idx, LineEnv.graph_exn (env idx) <> None.

(** Two outside worlds that agree on the lines of a batch: on every line the
    execution of the graph fails in both with the same exception or in
    neither, and the collaborator, if it is consulted, gives the same
    outcome.  The selector is part of the text sent to the collaborator, so
    for two requests with different selectors this is an assumption about
    the collaborator, not a fact of the code. *)
Definition same_outcomes (lines : list TaggingRequestLineItem.t)
    (env1 env2 : nat -> LineEnv.t) : Prop :=
  forall idx, (idx < length lines)%nat ->
    LineEnv.graph_exn (env1 idx) = LineEnv.graph_exn (env2 idx)
    /\ LineEnv.llm (env1 idx) = LineEnv.llm (env2 idx).

(** A target-system selector other than the two the code tests for. *)
Definition default_selector (erp_type : string) : Prop :=
  erp_type <> "ORACLE" /\ erp_type <> "MS_365".

(** The whole percentages 0, 1, ..., 100. *)
Definition whole_percent (n : Z) : Prop := (0 <= n <= 100)%Z.

End Derived.

(* ===================================================================== *)
(** * Properties *)
(* ===================================================================== *)

Import PyStr PyFloat Masters Tools Nodes Spec Samples.

(** ** The float model *)

(** The fuel of [norm] suffices: the mantissa it returns has no trailing
    decimal zero, and the value is the one it was given. *)
Lemma strip10_spec (fuel : nat) (m e : Z) :
  (m <> 0 -> Z.abs m < 2 ^ (Z.of_nat fuel + 1) ->
   let '(m', e') := strip10 fuel m e in
   m' mod 10 <> 0 /\ e <= e' /\ m = m' * 10 ^ (e' - e))%Z.
Proof.
  revert m e. induction fuel as [|fuel IH]; intros m e Hm Hb.
  - simpl in *. assert (m = 1 \/ m = -1)%Z as [-> | ->] by lia;
      (split; [discriminate | split; [lia | rewrite Z.sub_diag; reflexivity]]).
  - cbn [strip10]. destruct (Z.eqb_spec (m mod 10) 0) as [Hd|Hd].
    + assert (Hm10 : (m = 10 * (m / 10))%Z)
        by (rewrite (Z.div_mod m 10) at 1; lia).
      assert (Hq : (m / 10 <> 0)%Z) by lia.
      assert (Hbq : (Z.abs (m / 10) < 2 ^ (Z.of_nat fuel + 1))%Z).
      { replace (Z.of_nat (S fuel) + 1)%Z with (Z.succ (Z.of_nat fuel + 1))%Z in Hb by lia.
        rewrite Z.pow_succ_r in Hb by lia. lia. }
      specialize (IH (m / 10)%Z (e + 1)%Z Hq Hbq).
      destruct (strip10 fuel (m / 10) (e + 1)) as [m' e'].
      destruct IH as (H1 & H2 & H3).
      split; [exact H1|]. split; [lia|].
      replace (e' - e)%Z with (Z.succ (e' - (e + 1)))%Z by lia.
      rewrite Z.pow_succ_r by lia. lia.
    + split; [exact Hd|]. split; [lia|]. rewrite Z.sub_diag. lia.
Qed.

Lemma norm_spec (m e : Z) :
  m <> 0%Z ->
  exists m' e',
    norm m e = Fin m' e'
    /\ (m' mod 10 <> 0 /\ e <= e' /\ m = m' * 10 ^ (e' - e))%Z.
Proof.
  intros Hm. unfold norm. destruct (Z.eqb_spec m 0) as [|_]; [contradiction|].
  pose proof (strip10_spec (Z.to_nat (Z.log2 (Z.abs m))) m e Hm) as H.
  destruct (strip10 (Z.to_nat (Z.log2 (Z.abs m))) m e) as [m' e'].
  exists m', e'. split; [reflexivity|]. apply H.
  rewrite Z2Nat.id by apply Z.log2_nonneg.
  replace (Z.log2 (Z.abs m) + 1)%Z with (Z.succ (Z.log2 (Z.abs m))) by lia.
  apply Z.log2_spec. lia.
Qed.

(** On the supported rates, [str] and [float] are inverse to each other. *)
Example float_of_str_repr_supported :
  map (fun r => float_of_str (repr r)) supported_rates = map Some supported_rates.
Proof. vm_compute. reflexivity. Qed.

(** ** Identifier validation *)

Lemma match_classes_shape (classes : list (ascii -> bool)) (s : string) :
  has_shape classes s -> match_classes classes s = Some "".
Proof.
  unfold has_shape. revert s.
  induction classes as [|p classes IH]; intros s H.
  - inversion H as [Hs|]. destruct s; [reflexivity | discriminate].
  - inversion H as [|p' c cls' cs Hp Hrest Heq1 Heq2]; subst.
    destruct s as [|c' r]; [discriminate|].
    simpl in Heq2. injection Heq2 as -> ->.
    simpl. rewrite Hp. apply IH. exact Hrest.
Qed.

Lemma match_classes_shape_inv (classes : list (ascii -> bool)) (s : string) :
  match_classes classes s = Some "" -> has_shape classes s.
Proof.
  unfold has_shape. revert s.
  induction classes as [|p classes IH]; intros s H; simpl in H.
  - injection H as ->. constructor.
  - destruct s as [|c r]; [discriminate|].
    destruct (p c) eqn:Hp; [|discriminate].
    simpl. constructor; [exact Hp | apply IH; exact H].
Qed.

Lemma match_classes_length (classes : list (ascii -> bool)) (s rest : string) :
  match_classes classes s = Some rest ->
  String.length s = (length classes + String.length rest)%nat.
Proof.
  revert s. induction classes as [|p classes IH]; intros s H; simpl in H.
  - injection H as ->. reflexivity.
  - destruct s as [|c r]; [discriminate|].
    destruct (p c); [|discriminate].
    simpl. f_equal. apply IH. exact H.
Qed.

Lemma has_shape_length (classes : list (ascii -> bool)) (s : string) :
  has_shape classes s -> String.length s = length classes.
Proof.
  intros H. apply match_classes_shape in H.
  apply match_classes_length in H. simpl in H. lia.
Qed.

(** On a string of 15 characters the regular expression matches exactly the
    strings of the shape [gstin_pattern]. *)
Lemma re_match_gstin_shape (gstin : string) :
  String.length gstin = 15%nat ->
  re_match_gstin gstin = true <-> has_shape gstin_pattern gstin.
Proof.
  intros Hlen. unfold re_match_gstin. split.
  - destruct (match_classes gstin_pattern gstin) as [rest|] eqn:Hm; [|discriminate].
    intros Hend. apply match_classes_shape_inv.
    pose proof (match_classes_length _ _ _ Hm) as Hl.
    rewrite Hlen in Hl. simpl in Hl.
    destruct rest; [exact Hm | simpl in Hl; lia].
  - intros H. rewrite (match_classes_shape _ _ H). reflexivity.
Qed.

Lemma truthy_length (s : string) : String.length s = 15%nat -> truthy s = true.
Proof. destruct s; [discriminate | reflexivity]. Qed.

Lemma has_shape_weaken (cls1 cls2 : list (ascii -> bool)) (s : string) :
  Forall2 (fun p q : ascii -> bool => forall c, p c = true -> q c = true) cls1 cls2 ->
  has_shape cls1 s -> has_shape cls2 s.
Proof.
  unfold has_shape. generalize (list_ascii_of_string s) as cs.
  intros cs Hcls. revert cs.
  induction Hcls as [|p q cls1 cls2 Hpq _ IH]; intros cs H.
  - inversion H. constructor.
  - inversion H as [|p' c cls' cs' Hp Hrest]; subst.
    constructor; [apply Hpq; exact Hp | apply IH; exact Hrest].
Qed.

Lemma nonzero_digit_is_digit (c : ascii) : is_nonzero_digit c = true -> is_digit c = true.
Proof.
  unfold is_nonzero_digit, is_digit, in_range.
  rewrite !andb_true_iff, !N.leb_le. lia.
Qed.

(** Every string of the code's shape has the described shape. *)
Lemma described_shape_covers_pattern (s : string) :
  has_shape gstin_pattern s -> has_shape described_shape s.
Proof.
  apply has_shape_weaken.
  unfold gstin_pattern, described_shape, is_alphanumeric. simpl.
  repeat (constructor; [try (intros c Hc; exact Hc) | ]); try constructor.
  intros c Hc. apply orb_true_iff in Hc. apply orb_true_iff.
  destruct Hc as [Hc|Hc]; [left; apply nonzero_digit_is_digit; exact Hc | right; exact Hc].
Qed.

Lemma extract_state_code_valid (gstin erp_type : string) :
  has_shape gstin_pattern gstin ->
  exists is_ut,
    extract_state_code_from_gstin gstin erp_type
    = GSTINExtractResult.mk (take 2 gstin) true is_ut None.
Proof.
  intros H.
  pose proof (has_shape_length _ _ H) as Hlen. simpl in Hlen.
  unfold extract_state_code_from_gstin.
  rewrite (truthy_length _ Hlen), Hlen.
  rewrite (proj2 (re_match_gstin_shape gstin Hlen) H).
  simpl. eexists. reflexivity.
Qed.

Lemma extract_state_code_wrong_length (gstin erp_type : string) :
  String.length gstin <> 15%nat ->
  extract_state_code_from_gstin gstin erp_type
  = GSTINExtractResult.mk "" false false (Some "GSTIN must be 15 characters").
Proof.
  intros Hlen. unfold extract_state_code_from_gstin.
  apply Nat.eqb_neq in Hlen. rewrite Hlen.
  rewrite orb_true_r. reflexivity.
Qed.

Lemma extract_state_code_wrong_shape (gstin erp_type : string) :
  String.length gstin = 15%nat ->
  ~ has_shape gstin_pattern gstin ->
  extract_state_code_from_gstin gstin erp_type
  = GSTINExtractResult.mk "" false false (Some "Invalid GSTIN format").
Proof.
  intros Hlen Hshape. unfold extract_state_code_from_gstin.
  rewrite (truthy_length _ Hlen), Hlen. simpl.
  destruct (re_match_gstin gstin) eqn:Hre; [|reflexivity].
  exfalso. apply Hshape. apply re_match_gstin_shape; assumption.
Qed.

(** C2, as amended: every identifier of the shape the code checks -- two
    digits, five upper-case letters, four digits, one upper-case letter, one
    character that is a non-zero digit or an upper-case letter, the letter Z,
    one digit or upper-case letter -- is valid, its region code is its first
    two characters, and it carries no error, for every target system. *)
Theorem extract_state_code_well_shaped (gstin erp_type : string) :
  has_shape gstin_pattern gstin ->
  GSTINExtractResult.is_valid (extract_state_code_from_gstin gstin erp_type) = true
  /\ GSTINExtractResult.state_code (extract_state_code_from_gstin gstin erp_type)
     = take 2 gstin
  /\ GSTINExtractResult.error (extract_state_code_from_gstin gstin erp_type) = None.
Proof.
  intros H. destruct (extract_state_code_valid gstin erp_type H) as [is_ut ->].
  repeat split.
Qed.

Lemma extract_state_code_well_shaped_witness :
  GSTINExtractResult.is_valid
    (extract_state_code_from_gstin "27AABCU9603R1ZM" "SAP_ECC") = true
  /\ GSTINExtractResult.state_code
       (extract_state_code_from_gstin "27AABCU9603R1ZM" "SAP_ECC") = "27"
  /\ GSTINExtractResult.error
       (extract_state_code_from_gstin "27AABCU9603R1ZM" "SAP_ECC") = None.
Proof.
  apply (extract_state_code_well_shaped "27AABCU9603R1ZM" "SAP_ECC").
  unfold has_shape. simpl. repeat constructor.
Defined.

(** C2, as stated, fails: the identifier below has the described shape (its
    13th character, the digit 0, is alphanumeric) and is rejected. *)
Lemma extract_state_code_zero_entity_rejected :
  has_shape described_shape "27AABCU9603R0ZM"
  /\ String.length "27AABCU9603R0ZM" = 15%nat
  /\ extract_state_code_from_gstin "27AABCU9603R0ZM" "SAP_ECC"
     = GSTINExtractResult.mk "" false false (Some "Invalid GSTIN format").
Proof.
  split; [unfold has_shape; simpl; repeat constructor | split; reflexivity].
Qed.

(** C8: a malformed identifier -- wrong length, or 15 characters that do not
    have the checked shape -- yields an invalid result with an empty region
    code and an error text that tells the two failures apart.  The function
    returns a result on every input.  A violation of the described shape is a
    violation of the checked shape ([described_shape_covers_pattern]). *)
Theorem extract_state_code_malformed (gstin erp_type : string) :
  String.length gstin <> 15%nat \/ ~ has_shape gstin_pattern gstin ->
  GSTINExtractResult.is_valid (extract_state_code_from_gstin gstin erp_type) = false
  /\ GSTINExtractResult.state_code (extract_state_code_from_gstin gstin erp_type) = ""
  /\ GSTINExtractResult.error (extract_state_code_from_gstin gstin erp_type)
     = Some (if (String.length gstin =? 15)%nat
             then "Invalid GSTIN format" else "GSTIN must be 15 characters")
  /\ "Invalid GSTIN format" <> "GSTIN must be 15 characters".
Proof.
  intros H.
  destruct (Nat.eq_dec (String.length gstin) 15) as [Hlen|Hlen].
  - destruct H as [H|H]; [contradiction|].
    rewrite (extract_state_code_wrong_shape _ erp_type Hlen H), Hlen.
    repeat split. discriminate.
  - rewrite (extract_state_code_wrong_length _ erp_type Hlen).
    apply Nat.eqb_neq in Hlen. rewrite Hlen.
    repeat split. discriminate.
Qed.

Lemma extract_state_code_malformed_witness :
  GSTINExtractResult.is_valid (extract_state_code_from_gstin "UNREGISTERED" "SAP_ECC")
  = false
  /\ GSTINExtractResult.state_code
       (extract_state_code_from_gstin "UNREGISTERED" "SAP_ECC") = ""
  /\ GSTINExtractResult.error (extract_state_code_from_gstin "UNREGISTERED" "SAP_ECC")
     = Some "GSTIN must be 15 characters"
  /\ "Invalid GSTIN format" <> "GSTIN must be 15 characters".
Proof.
  apply (extract_state_code_malformed "UNREGISTERED" "SAP_ECC").
  left. simpl. lia.
Defined.

(** A violation of the described shape is rejected as well. *)
Lemma extract_state_code_not_described (gstin erp_type : string) :
  ~ has_shape described_shape gstin ->
  GSTINExtractResult.is_valid (extract_state_code_from_gstin gstin erp_type) = false.
Proof.
  intros H.
  assert (Hp : ~ has_shape gstin_pattern gstin).
  { intros Hp. apply H. apply described_shape_covers_pattern. exact Hp. }
  destruct (Nat.eq_dec (String.length gstin) 15) as [Hlen|Hlen].
  - rewrite (extract_state_code_wrong_shape _ erp_type Hlen Hp). reflexivity.
  - rewrite (extract_state_code_wrong_length _ erp_type Hlen). reflexivity.
Qed.

Example extract_state_code_lower_case_rejected :
  extract_state_code_from_gstin "27aabcu9603r1zm" "SAP_ECC"
  = GSTINExtractResult.mk "" false false (Some "Invalid GSTIN format").
Proof. reflexivity. Qed.

(** ** Master lookup *)

(** The master tables have one entry per key of their source text. *)
Example master_sizes :
  size SAP_TAX_CODE_MASTER = 76%nat
  /\ size ORACLE_TAX_CODE_MASTER = 8%nat
  /\ size MS360_TAX_CODE_MASTER = 8%nat.
Proof. vm_compute. repeat split. Qed.

(** C3: on the primary system the key (5, INTRA, REGULAR, CREDIT, STATE) is a
    hit with code 3C, its description from the master and confidence 0.95;
    the same key with rate 7 is a miss with confidence 0.0. *)
Theorem lookup_tax_code_rate_5_and_7 :
  lookup_tax_code (of_Z 5) "INTRA" "REGULAR" "CREDIT" "STATE" "SAP_ECC"
  = TaxCodeLookupResult.mk "3C" "CGST-SGST 5% Input" (Fin 95 (-2)) true
  /\ TaxCodeLookupResult.found
       (lookup_tax_code (of_Z 7) "INTRA" "REGULAR" "CREDIT" "STATE" "SAP_ECC") = false
  /\ TaxCodeLookupResult.confidence
       (lookup_tax_code (of_Z 7) "INTRA" "REGULAR" "CREDIT" "STATE" "SAP_ECC") = zero.
Proof. vm_compute. repeat split. Qed.

(** ** Rate aggregation *)

Lemma sum_rates_failure (tax_list : list (string * string)) (total : pyfloat) :
  (exists tax_type rate_str,
      In (tax_type, rate_str) tax_list /\ parse_rate rate_str = None) ->
  sum_rates total tax_list = None.
Proof.
  revert total.
  induction tax_list as [|[ty rs] rest IH]; intros total (t & r & Hin & Hp).
  - destruct Hin.
  - simpl. destruct (parse_rate rs) as [rate|] eqn:Hrs; [|reflexivity].
    simpl. apply IH.
    destruct Hin as [Heq|Hin].
    + injection Heq as -> ->. congruence.
    + exists t, r. split; assumption.
Qed.

(** C5: the two components of 9% add up to 18.0, the empty list gives 0.0,
    and a list with an entry whose percentage does not parse gives 0.0
    whatever the other entries are. *)
Theorem calculate_total_tax_rate_atomic :
  calculate_total_tax_rate [("CGST", "9%"); ("SGST", "9%")] = of_Z 18
  /\ calculate_total_tax_rate [] = zero
  /\ forall tax_list : list (string * string),
       (exists tax_type rate_str,
           In (tax_type, rate_str) tax_list /\ parse_rate rate_str = None) ->
       calculate_total_tax_rate tax_list = zero.
Proof.
  split; [vm_compute; reflexivity|]. split; [reflexivity|].
  intros tax_list H. unfold calculate_total_tax_rate.
  rewrite (sum_rates_failure tax_list zero H). reflexivity.
Qed.

Lemma calculate_total_tax_rate_atomic_witness :
  calculate_total_tax_rate [("CGST", "9%"); ("SGST", "nine")] = zero.
Proof.
  apply (proj2 (proj2 calculate_total_tax_rate_atomic)).
  exists "SGST", "nine". split; [right; left; reflexivity | vm_compute; reflexivity].
Defined.

Example repr_total_rate : repr (of_Z 18) = "18.0" /\ repr zero = "0.0".
Proof. vm_compute. split; reflexivity. Qed.

(** ** Rate normalization *)

Lemma master_forall (m : gmap key string) (p : key -> bool) :
  forallb (fun kv => p kv.1) (map_to_list m) = true ->
  forall k code, m !! k = Some code -> p k = true.
Proof.
  intros H k code Hk.
  apply elem_of_map_to_list in Hk. apply list_elem_of_In in Hk.
  rewrite forallb_forall in H. exact (H (k, code) Hk).
Qed.

Lemma rate_has_key (r : pyfloat) :
  bool_decide
    (is_Some (SAP_TAX_CODE_MASTER
                !! (normalize_rate r, "INTRA", "REGULAR", "CREDIT", "STATE"))) = true ->
  exists k code',
    SAP_TAX_CODE_MASTER !! k = Some code' /\ key_rate k = normalize_rate r.
Proof.
  intros H. apply bool_decide_eq_true in H. destruct H as [code' H].
  exists (normalize_rate r, "INTRA", "REGULAR", "CREDIT", "STATE"), code'.
  split; [exact H | reflexivity].
Qed.

(** C6: on the supported rates the normalization yields the seven numerals
    0, 0.25, 3, 5, 12, 18, 28; they are pairwise distinct (so the
    normalization is injective there), canonical, and they are exactly the
    rate components of the keys of the primary master table. *)
Theorem normalize_rate_supported :
  map normalize_rate supported_rates = ["0"; "0.25"; "3"; "5"; "12"; "18"; "28"]
  /\ NoDup (map normalize_rate supported_rates)
  /\ (forall r1 r2, In r1 supported_rates -> In r2 supported_rates ->
                    normalize_rate r1 = normalize_rate r2 -> r1 = r2)
  /\ Forall (fun r => canonical_numeral (normalize_rate r) = true) supported_rates
  /\ Forall (fun r => exists k code,
                 SAP_TAX_CODE_MASTER !! k = Some code /\ key_rate k = normalize_rate r)
            supported_rates
  /\ (forall k code, SAP_TAX_CODE_MASTER !! k = Some code ->
                     In (key_rate k) (map normalize_rate supported_rates)).
Proof.
  assert (Hmap : map normalize_rate supported_rates
                 = ["0"; "0.25"; "3"; "5"; "12"; "18"; "28"])
    by (vm_compute; reflexivity).
  split; [exact Hmap|]. split.
  { rewrite Hmap. apply (bool_decide_unpack _). vm_compute. reflexivity. }
  split.
  { intros r1 r2 H1 H2 Heq. unfold supported_rates in H1, H2. simpl in H1, H2.
    repeat match goal with
           | H : _ \/ _ |- _ => destruct H as [H|H]
           | H : False |- _ => destruct H
           end; subst; try reflexivity; vm_compute in Heq; discriminate. }
  split.
  { unfold supported_rates. repeat (constructor; [vm_compute; reflexivity|]). constructor. }
  split.
  { unfold supported_rates.
    repeat (constructor; [apply rate_has_key; vm_compute; reflexivity|]).
    constructor. }
  intros k code Hk. rewrite Hmap.
  pose proof (master_forall SAP_TAX_CODE_MASTER
                (fun k => in_list (key_rate k) ["0"; "0.25"; "3"; "5"; "12"; "18"; "28"])
                ltac:(vm_compute; reflexivity) k code Hk) as H.
  unfold in_list in H. apply existsb_exists in H. destruct H as (x & Hin & Hx).
  apply String.eqb_eq in Hx. subst x. exact Hin.
Qed.

(** ** Reverse-charge chain *)

Lemma startswith_spec (p s : string) :
  startswith p s = true <-> exists post, s = p +:+ post.
Proof.
  revert s. induction p as [|a p IH]; intros s; simpl.
  - split; [intros _; exists s; reflexivity | reflexivity].
  - destruct s as [|b s].
    + split; [discriminate | intros [post H]; discriminate].
    + rewrite andb_true_iff, IH. split.
      * intros [Hab [post ->]]. apply Ascii.eqb_eq in Hab. subst b.
        exists post. reflexivity.
      * intros [post H]. injection H as -> ->.
        split; [apply Ascii.eqb_refl | exists post; reflexivity].
Qed.

Lemma contains_spec (sub s : string) :
  contains sub s = true <-> exists pre post, s = pre +:+ sub +:+ post.
Proof.
  split.
  - induction s as [|c r IH]; simpl; rewrite orb_true_iff; intros [H|H].
    + apply startswith_spec in H. destruct H as [post H]. exists "", post. exact H.
    + discriminate.
    + apply startswith_spec in H. destruct H as [post H]. exists "", post. exact H.
    + destruct (IH H) as (pre & post & ->). exists (String c pre), post. reflexivity.
  - intros (pre & post & ->). induction pre as [|c pre IH].
    + assert (Hs : startswith sub (sub +:+ post) = true)
        by (apply startswith_spec; exists post; reflexivity).
      simpl. destruct (sub +:+ post); simpl in *; rewrite Hs; reflexivity.
    + simpl. rewrite IH. apply orb_true_r.
Qed.

Lemma in_list_spec (x : string) (l : list string) :
  in_list x l = true <-> In x l.
Proof.
  unfold in_list. rewrite existsb_exists. split.
  - intros (y & Hy & Heq). apply String.eqb_eq in Heq. subst y. exact Hy.
  - intros H. exists x. split; [exact H | apply String.eqb_refl].
Qed.

Lemma markers_upper (marker : string) :
  In marker unregistered_markers -> upper marker = marker.
Proof.
  unfold unregistered_markers. simpl.
  intros [<-|[<-|[<-|[]]]]; reflexivity.
Qed.

Lemma keywords_lower (term : string) :
  In term rcm_keywords -> lower term = term.
Proof.
  unfold rcm_keywords. simpl.
  intros [<-|[<-|[<-|[<-|[<-|[<-|[]]]]]]]; reflexivity.
Qed.

Lemma foreign_supplier_spec (supplier_country : string) :
  negb (String.eqb supplier_country "IN") = true <-> foreign_supplier supplier_country.
Proof.
  unfold foreign_supplier. rewrite negb_true_iff. apply String.eqb_neq.
Qed.

Lemma unregistered_supplier_spec (supplier_gstin : option string) :
  falsy supplier_gstin
  || in_list (upper (default "" supplier_gstin)) unregistered_markers = true
  <-> unregistered_supplier supplier_gstin.
Proof.
  unfold unregistered_supplier. rewrite orb_true_iff, in_list_spec. split.
  - intros [H|H].
    + destruct supplier_gstin as [[|c g]|]; simpl in H; try discriminate; auto.
    + destruct supplier_gstin as [g|]; simpl in H.
      * right. right. exists g, (upper g). repeat split; [exact H|].
        unfold ci_equal. symmetry. apply markers_upper. exact H.
      * left. reflexivity.
  - intros [->|[->|(g & marker & -> & Hin & Heq)]]; [left; reflexivity ..|].
    right. simpl. unfold ci_equal in Heq.
    rewrite Heq, (markers_upper _ Hin). exact Hin.
Qed.

Lemma notified_service_spec (item_description : string) :
  existsb (fun keyword => contains keyword (lower item_description)) rcm_keywords = true
  <-> notified_service item_description.
Proof.
  unfold notified_service, ci_substring. rewrite existsb_exists. split.
  - intros (term & Hin & H). exists term. split; [exact Hin|].
    rewrite (keywords_lower _ Hin). apply contains_spec. exact H.
  - intros (term & Hin & H). exists term. split; [exact Hin|].
    rewrite (keywords_lower _ Hin) in H. apply contains_spec. exact H.
Qed.

(** C4: the chain in its order.  A supplier country other than "IN" gives
    true whatever the other arguments are; otherwise an absent (or empty)
    supplier identifier, or one equal up to case to URP, UNREGISTERED or NA,
    gives true; otherwise a description that contains one of the keywords up
    to case gives true; otherwise the answer is false. *)
Theorem check_rcm_applicability_chain
    (supplier_gstin : option string) (supplier_country item_description : string) :
  (foreign_supplier supplier_country ->
   check_rcm_applicability supplier_gstin supplier_country item_description = true)
  /\ (~ foreign_supplier supplier_country ->
      unregistered_supplier supplier_gstin ->
      check_rcm_applicability supplier_gstin supplier_country item_description = true)
  /\ (~ foreign_supplier supplier_country ->
      ~ unregistered_supplier supplier_gstin ->
      notified_service item_description ->
      check_rcm_applicability supplier_gstin supplier_country item_description = true)
  /\ (~ foreign_supplier supplier_country ->
      ~ unregistered_supplier supplier_gstin ->
      ~ notified_service item_description ->
      check_rcm_applicability supplier_gstin supplier_country item_description = false).
Proof.
  unfold check_rcm_applicability.
  pose proof (foreign_supplier_spec supplier_country) as Hf.
  pose proof (unregistered_supplier_spec supplier_gstin) as Hu.
  pose proof (notified_service_spec item_description) as Hn.
  destruct (negb (String.eqb supplier_country "IN"));
    destruct (falsy supplier_gstin
              || in_list (upper (default "" supplier_gstin)) unregistered_markers);
    destruct (existsb (fun keyword => contains keyword (lower item_description))
                rcm_keywords);
    repeat split; intros; try reflexivity; exfalso; intuition discriminate.
Qed.

Lemma check_rcm_applicability_chain_witness :
  check_rcm_applicability (Some "27AABCU9603R1ZM") "IN" "Fees for LEGAL advice" = true.
Proof.
  apply (proj1 (proj2 (proj2
           (check_rcm_applicability_chain
              (Some "27AABCU9603R1ZM") "IN" "Fees for LEGAL advice")))).
  - intros H. apply H. reflexivity.
  - intros [H|[H|(g & marker & Hg & Hin & Heq)]]; try discriminate.
    injection Hg as <-. unfold ci_equal in Heq.
    rewrite (markers_upper _ Hin) in Heq. subst marker.
    vm_compute in Hin. intuition discriminate.
  - exists "legal". split; [vm_compute; tauto|].
    exists "fees for ", " advice". reflexivity.
Defined.

Example check_rcm_applicability_examples :
  check_rcm_applicability (Some "27AABCU9603R1ZM") "US" "Software license" = true
  /\ check_rcm_applicability (Some "Unregistered") "IN" "Software license" = true
  /\ check_rcm_applicability None "IN" "Software license" = true
  /\ check_rcm_applicability (Some "27AABCU9603R1ZM") "IN" "Software license" = false.
Proof. vm_compute. repeat split. Qed.

(** ** Validation stage *)

(** C9: the update of the validation stage has no entry for the code, the
    description or the confidence; merged into the state it leaves these
    three fields (and every other field) as they were and only appends to
    the messages and to the errors. *)
Theorem validation_node_frame (state : State.t) :
  Update.tax_code (validation_node state) = None
  /\ Update.tax_description (validation_node state) = None
  /\ Update.confidence (validation_node state) = None
  /\ State.tax_code (Update.apply state (validation_node state)) = State.tax_code state
  /\ State.tax_description (Update.apply state (validation_node state))
     = State.tax_description state
  /\ State.confidence (Update.apply state (validation_node state))
     = State.confidence state
  /\ extends_log state (Update.apply state (validation_node state)).
Proof.
  repeat split.
  exists (Update.messages (validation_node state)),
         (Update.errors (validation_node state)).
  reflexivity.
Qed.

(** ** Credit category *)

Lemma lookup_hit_is_master_entry
    (tax_rate : pyfloat) (txn charge credit st erp_type : string) :
  TaxCodeLookupResult.found (lookup_tax_code tax_rate txn charge credit st erp_type)
  = true ->
  (select_master erp_type).1 !! lookup_key tax_rate txn charge credit st
  = Some (TaxCodeLookupResult.tax_code
            (lookup_tax_code tax_rate txn charge credit st erp_type)).
Proof.
  unfold lookup_tax_code.
  destruct (select_master erp_type) as [tax_master desc_master]. simpl.
  destruct (tax_master !! lookup_key tax_rate txn charge credit st) as [c|];
    [|discriminate].
  destruct (truthy c); [reflexivity | discriminate].
Qed.

Lemma preprocessed_credit_eligible (erp_type : string) (line : TaggingRequestLineItem.t) :
  State.is_credit_eligible (preprocessed erp_type line) = true.
Proof. reflexivity. Qed.

(** C10: the preprocessing stage sets the credit-eligibility flag to True on
    every state.  Hence, for every line of a batch, the key that the
    determination stage looks up has credit category CREDIT, it is none of
    the keys with credit category NON_CREDIT, and a hit is the entry of a
    CREDIT key. *)
Theorem pipeline_credit_category (erp_type : string) (line : TaggingRequestLineItem.t) :
  (forall state, Update.is_credit_eligible (preprocessing_node state) = Some true)
  /\ State.is_credit_eligible (preprocessed erp_type line) = true
  /\ key_credit (determination_key (preprocessed erp_type line)) = "CREDIT"
  /\ (forall k, key_credit k = "NON_CREDIT" ->
                determination_key (preprocessed erp_type line) <> k)
  /\ (forall llm,
        TaxCodeLookupResult.found
          (lookup_tax_code
             (State.total_tax_rate (preprocessed erp_type line))
             (State.transaction_type (preprocessed erp_type line))
             (charge_type_of (preprocessed erp_type line))
             (credit_type_of (preprocessed erp_type line))
             (state_type_of (preprocessed erp_type line))
             (State.erp_type (preprocessed erp_type line))) = true ->
        exists k,
          key_credit k = "CREDIT"
          /\ (select_master erp_type).1 !! k
             = Some (State.tax_code
                       (Update.apply (preprocessed erp_type line)
                          (tax_determination_node llm (preprocessed erp_type line))))).
Proof.
  split; [reflexivity|]. split; [reflexivity|]. split; [reflexivity|]. split.
  - intros k Hk Heq. rewrite <- Heq in Hk. discriminate.
  - intros llm Hfound.
    exists (determination_key (preprocessed erp_type line)).
    split; [reflexivity|].
    pose proof (lookup_hit_is_master_entry _ _ _ _ _ _ Hfound) as Hhit.
    unfold tax_determination_node. rewrite Hfound.
    exact Hhit.
Qed.

(** ** Line results and the batch summary *)

Lemma count_where_snoc {A : Type} (p : A -> bool) (l : list A) (x : A) :
  count_where p (l ++ [x]) = (count_where p l + b2z (p x))%Z.
Proof.
  induction l as [|y l IH]; simpl.
  - unfold b2z. destruct (p x); reflexivity.
  - rewrite IH. lia.
Qed.

Lemma in_list_needs_attention (tax_code : string) :
  needs_attention tax_code ->
  in_list tax_code [MANUAL_REVIEW_REQUIRED; ERROR; ""] = true.
Proof.
  intros [-> | [-> | ->] ]; reflexivity.
Qed.

(** The validation stage reports every code that needs attention. *)
Lemma validation_node_reports (state : State.t) :
  needs_attention (State.tax_code state) ->
  Update.errors (validation_node state) <> [].
Proof.
  intros H. unfold validation_node, Update.only. cbn [Update.errors].
  rewrite (in_list_needs_attention _ H).
  destruct (flt (State.confidence state) confidence_threshold); discriminate.
Qed.

(** The graph ends with the validation stage, which keeps the code. *)
Lemma run_reports (llm : llm_outcome) (initial_state : State.t) :
  needs_attention (State.tax_code (Graph.run llm initial_state)) ->
  State.errors (Graph.run llm initial_state) <> [].
Proof.
  unfold Graph.run.
  set (s1 := Update.apply initial_state (preprocessing_node initial_state)).
  set (s2 := Update.apply s1 (tax_determination_node llm s1)).
  intros H.
  change (State.errors s2 ++ Update.errors (validation_node s2) <> []).
  change (needs_attention (State.tax_code s2)) in H.
  pose proof (validation_node_reports s2 H) as Hv.
  destruct (Update.errors (validation_node s2)); [contradiction|].
  destruct (State.errors s2); discriminate.
Qed.

(** One iteration appends one result and advances each counter by its own
    test on that result. *)
Lemma process_line_step (erp_type : string) (env : LineEnv.t) (idx : nat)
    (line : TaggingRequestLineItem.t) (a : Agent.acc) :
  exists r,
    Agent.results (Agent.process_line erp_type env idx line a) = Agent.results a ++ [r]
    /\ Agent.manual_review_count (Agent.process_line erp_type env idx line a)
       = (Agent.manual_review_count a + b2z (is_manual_review r))%Z
    /\ Agent.error_count (Agent.process_line erp_type env idx line a)
       = (Agent.error_count a + b2z (has_errors r))%Z
    /\ (needs_attention (TaxTaggingResult.tax_code r) -> TaxTaggingResult.errors r <> []).
Proof.
  unfold Agent.process_line, Agent.ainvoke.
  destruct (LineEnv.graph_exn env) as [e|].
  - eexists. split; [reflexivity|]. cbn [Agent.manual_review_count Agent.error_count].
    split; [unfold is_manual_review; cbn; lia|].
    split; [unfold has_errors; cbn; lia|].
    cbn. discriminate.
  - set (final_state := Graph.run (LineEnv.llm env) (Agent.initial_state erp_type line)).
    eexists. split; [reflexivity|]. cbn [Agent.manual_review_count Agent.error_count].
    unfold is_manual_review, has_errors.
    cbn [TaxTaggingResult.tax_code TaxTaggingResult.errors].
    split; [destruct (String.eqb _ _); unfold b2z; lia|].
    split; [destruct (State.errors final_state); unfold b2z; cbn; lia|].
    apply run_reports.
Qed.

Lemma process_lines_invariant (erp_type : string) (env : nat -> LineEnv.t)
    (lines : list TaggingRequestLineItem.t) (idx : nat) (a : Agent.acc) :
  Agent.manual_review_count a = count_where is_manual_review (Agent.results a) ->
  Agent.error_count a = count_where has_errors (Agent.results a) ->
  Forall (fun r => needs_attention (TaxTaggingResult.tax_code r) ->
                   TaxTaggingResult.errors r <> []) (Agent.results a) ->
  let a' := Agent.process_lines erp_type env idx lines a in
  Agent.manual_review_count a' = count_where is_manual_review (Agent.results a')
  /\ Agent.error_count a' = count_where has_errors (Agent.results a')
  /\ Forall (fun r => needs_attention (TaxTaggingResult.tax_code r) ->
                      TaxTaggingResult.errors r <> []) (Agent.results a')
  /\ length (Agent.results a') = (length (Agent.results a) + length lines)%nat.
Proof.
  revert idx a. induction lines as [|line rest IH]; intros idx a Hm He Hf; simpl.
  - repeat split; try assumption. lia.
  - destruct (process_line_step erp_type (env idx) idx line a)
      as (r & Hr & Hm' & He' & Hatt).
    specialize (IH (S idx) (Agent.process_line erp_type (env idx) idx line a)).
    rewrite Hr in IH. rewrite !count_where_snoc in IH.
    destruct IH as (H1 & H2 & H3 & H4).
    + rewrite Hm', Hm. reflexivity.
    + rewrite He', He. reflexivity.
    + apply Forall_app. split; [exact Hf | constructor; [exact Hatt | constructor]].
    + repeat split; try assumption.
      rewrite H4, length_app. simpl. lia.
Qed.

Lemma process_tagging_request_invariant (env : nat -> LineEnv.t)
    (request : TaggingRequest.t) :
  let a := Agent.process_lines (TaggingRequest.erp_type request) env 0
             (TaggingRequest.lines request) Agent.acc0 in
  Agent.manual_review_count a = count_where is_manual_review (Agent.results a)
  /\ Agent.error_count a = count_where has_errors (Agent.results a)
  /\ Forall (fun r => needs_attention (TaxTaggingResult.tax_code r) ->
                      TaxTaggingResult.errors r <> []) (Agent.results a)
  /\ length (Agent.results a) = length (TaggingRequest.lines request).
Proof.
  apply (process_lines_invariant (TaggingRequest.erp_type request) env
           (TaggingRequest.lines request) 0 Agent.acc0);
    try reflexivity.
  constructor.
Qed.

(** C7: in every batch response, a line result whose code is the
    manual-review sentinel, the error sentinel or the empty string has a
    non-empty error list; this covers the lines whose fallback failed and the
    lines whose run raised. *)
Theorem attention_code_has_errors (env : nat -> LineEnv.t) (request : TaggingRequest.t)
    (r : TaxTaggingResult.t) :
  In r (TaxTaggingResponse.results (Agent.process_tagging_request env request)) ->
  needs_attention (TaxTaggingResult.tax_code r) ->
  TaxTaggingResult.errors r <> [].
Proof.
  intros Hin Hatt.
  destruct (process_tagging_request_invariant env request) as (_ & _ & Hf & _).
  rewrite Forall_forall in Hf.
  apply (Hf r); [|exact Hatt].
  apply list_elem_of_In. exact Hin.
Qed.

Example process_tagging_request_llm_down :
  Agent.process_tagging_request env_llm_down request_unmapped_rate
  = TaxTaggingResponse.mk [result_llm_down] (Summary.mk 1 (-1) 1 1 0 0 0 0).
Proof. vm_compute. reflexivity. Qed.

(** A line that the master resolves: hit, confidence 0.95, no error. *)
Example process_tagging_request_hit :
  Agent.process_tagging_request env_llm_down
    (TaggingRequest.mk [line_consulting] "SAP_ECC")
  = TaxTaggingResponse.mk
      [TaxTaggingResult.mk 0 "Professional consulting services" "3Z"
         "CGST-SGST 18% Input" (Fin 95 (-2)) 0 0 0 0
         ["Supplier state: 27"; "Buyer state: 27"; "Transaction type: INTRAstate";
          "Total tax rate: 18.0%"; "Tax code found in master: 3Z";
          "CGST-SGST tax code matches intrastate transaction";
          "All validations passed"]
         []]
      (Summary.mk 1 1 0 0 0 0 0 0).
Proof. vm_compute. reflexivity. Qed.

Example process_tagging_request_graph_down :
  Agent.process_tagging_request env_graph_down request_unmapped_rate
  = TaxTaggingResponse.mk
      [TaxTaggingResult.mk 0 "Professional consulting services" "ERROR"
         "Processing error: graph failure" zero 0 0 0 0 [] ["graph failure"]]
      (Summary.mk 1 0 0 1 0 0 0 0).
Proof. vm_compute. reflexivity. Qed.

Lemma attention_code_has_errors_witness :
  TaxTaggingResult.errors result_llm_down <> [].
Proof.
  apply (attention_code_has_errors env_llm_down request_unmapped_rate result_llm_down).
  - left. vm_compute. reflexivity.
  - left. reflexivity.
Defined.

(** The counters of the summary.  In every batch summary
    successful + manual_review + errors = total_lines; total_lines is the
    number of lines and of results; manual_review is the number of results
    whose code is the manual-review sentinel; errors is the number of results
    whose error list is non-empty.  The two counts are taken independently
    of each other. *)
Theorem batch_summary_counts (env : nat -> LineEnv.t) (request : TaggingRequest.t) :
  (Summary.successful
     (TaxTaggingResponse.summary (Agent.process_tagging_request env request))
   + Summary.manual_review
       (TaxTaggingResponse.summary (Agent.process_tagging_request env request))
   + Summary.errors
       (TaxTaggingResponse.summary (Agent.process_tagging_request env request))
   = Summary.total_lines
       (TaxTaggingResponse.summary (Agent.process_tagging_request env request)))%Z
  /\ Summary.total_lines
       (TaxTaggingResponse.summary (Agent.process_tagging_request env request))
     = Z.of_nat (length (TaggingRequest.lines request))
  /\ length (TaxTaggingResponse.results (Agent.process_tagging_request env request))
     = length (TaggingRequest.lines request)
  /\ Summary.manual_review
       (TaxTaggingResponse.summary (Agent.process_tagging_request env request))
     = count_where is_manual_review
         (TaxTaggingResponse.results (Agent.process_tagging_request env request))
  /\ Summary.errors
       (TaxTaggingResponse.summary (Agent.process_tagging_request env request))
     = count_where has_errors
         (TaxTaggingResponse.results (Agent.process_tagging_request env request)).
Proof.
  destruct (process_tagging_request_invariant env request) as (Hm & He & _ & Hlen).
  unfold Agent.process_tagging_request, Agent.build_summary.
  cbn [TaxTaggingResponse.summary TaxTaggingResponse.results
       Summary.successful Summary.manual_review Summary.errors Summary.total_lines].
  repeat split; try assumption; lia.
Qed.

(** Double counting at work.  When the nodes of the graph run and the
    fallback call fails, the line carries the manual-review sentinel and a
    non-empty error list, and it is counted in the manual-review bucket and
    in the error bucket: the batch of this one line has manual_review = 1
    and errors = 1 (hence successful = -1) where the precedence rule gives
    errors = 0. *)
Lemma batch_summary_counts_twice :
  Summary.manual_review
    (TaxTaggingResponse.summary
       (Agent.process_tagging_request env_llm_down request_unmapped_rate)) = 1%Z
  /\ Summary.errors
       (TaxTaggingResponse.summary
          (Agent.process_tagging_request env_llm_down request_unmapped_rate)) = 1%Z
  /\ count_where in_error_bucket
       (TaxTaggingResponse.results
          (Agent.process_tagging_request env_llm_down request_unmapped_rate)) = 0%Z
  /\ ~ counted_once (Agent.process_tagging_request env_llm_down request_unmapped_rate).
Proof.
  rewrite process_tagging_request_llm_down.
  split; [reflexivity|]. split; [reflexivity|]. split; [reflexivity|].
  intros (_ & _ & H & _). vm_compute in H. discriminate.
Qed.

(** *** When the precedence rule and the code agree *)

Lemma count_where_nonneg {A : Type} (p : A -> bool) (l : list A) :
  (0 <= count_where p l)%Z.
Proof. induction l as [|x l IH]; simpl; [lia | destruct (p x); lia]. Qed.

Lemma count_where_zero {A : Type} (p : A -> bool) (l : list A) :
  count_where p l = 0%Z -> forall x, In x l -> p x = false.
Proof.
  induction l as [|y l IH]; simpl; intros H x Hin; [destruct Hin|].
  pose proof (count_where_nonneg p l) as Hn.
  destruct (p y) eqn:Hy; [lia|].
  destruct Hin as [<-|Hin]; [exact Hy | apply IH; [lia | exact Hin]].
Qed.

Lemma count_where_ext {A : Type} (p q : A -> bool) (l : list A) :
  (forall x, In x l -> p x = q x) -> count_where p l = count_where q l.
Proof.
  induction l as [|y l IH]; simpl; intros H; [reflexivity|].
  rewrite (H y) by (left; reflexivity).
  rewrite IH by (intros x Hx; apply H; right; exact Hx). reflexivity.
Qed.



Lemma has_errors_true (r : TaxTaggingResult.t) :
  TaxTaggingResult.errors r <> [] -> has_errors r = true.
Proof. unfold has_errors. destruct (TaxTaggingResult.errors r); [contradiction | reflexivity]. Qed.


(** The package as it stands.  The decorator of the determination stage
    hands the graph a coroutine object, so the execution of the graph raises
    on every line.  Then every line is a pipeline error: the summary has
    manual_review = 0, errors = total_lines and successful = 0, and the
    double counting above cannot show. *)
Lemma process_lines_every_run_raises (erp_type : string) (env : nat -> LineEnv.t)
    (lines : list TaggingRequestLineItem.t) :
  Derived.every_run_raises env ->
  forall (idx : nat) (a : Agent.acc),
    Agent.manual_review_count (Agent.process_lines erp_type env idx lines a)
    = Agent.manual_review_count a
    /\ Agent.error_count (Agent.process_lines erp_type env idx lines a)
       = (Agent.error_count a + Z.of_nat (length lines))%Z.
Proof.
  intros Hraise. induction lines as [|line rest IH]; intros idx a.
  - cbn [Agent.process_lines length]. split; [reflexivity|lia].
  - cbn [Agent.process_lines].
    destruct (IH (S idx) (Agent.process_line erp_type (env idx) idx line a)) as [Hm He].
    rewrite Hm, He. unfold Agent.process_line, Agent.ainvoke.
    specialize (Hraise idx).
    destruct (LineEnv.graph_exn (env idx)) as [e|]; [|congruence].
    cbn [Agent.manual_review_count Agent.error_count length]. split; [reflexivity|lia].
Qed.

Lemma summary_when_every_run_raises (env : nat -> LineEnv.t)
    (request : TaggingRequest.t) :
  Derived.every_run_raises env ->
  Summary.manual_review
    (TaxTaggingResponse.summary (Agent.process_tagging_request env request)) = 0%Z
  /\ Summary.errors
       (TaxTaggingResponse.summary (Agent.process_tagging_request env request))
     = Z.of_nat (length (TaggingRequest.lines request))
  /\ Summary.successful
       (TaxTaggingResponse.summary (Agent.process_tagging_request env request)) = 0%Z.
Proof.
  intros Hraise.
  destruct (process_lines_every_run_raises (TaggingRequest.erp_type request) env
              (TaggingRequest.lines request) Hraise 0%nat Agent.acc0) as [Hm He].
  unfold Agent.process_tagging_request, Agent.build_summary.
  cbn [TaxTaggingResponse.summary Summary.manual_review Summary.errors
       Summary.successful].
  rewrite Hm, He. cbn [Agent.acc0 Agent.manual_review_count Agent.error_count].
  repeat split; lia.
Qed.

(* ===================================================================== *)
(** * Further properties *)
(* ===================================================================== *)

Import Prompt Metrics Derived.

(** ** Identifier validation and classification *)

Lemma union_territories_agree :
  ORACLE_UNION_TERRITORIES = SAP_UNION_TERRITORIES
  /\ MS360_UNION_TERRITORIES = SAP_UNION_TERRITORIES.
Proof. split; reflexivity. Qed.

Lemma extract_state_code_any_erp (gstin erp_type : string) :
  extract_state_code_from_gstin gstin erp_type
  = extract_state_code_from_gstin gstin "SAP_ECC".
Proof.
  unfold extract_state_code_from_gstin.
  destruct union_territories_agree as [-> ->].
  destruct (String.eqb erp_type "ORACLE"), (String.eqb erp_type "MS_365"); reflexivity.
Qed.

(** X1: the three systems share one union-territory set, so the result of
    the identifier validation does not depend on the target system at all. *)
Theorem extract_state_code_erp_independent (gstin erp1 erp2 : string) :
  extract_state_code_from_gstin gstin erp1 = extract_state_code_from_gstin gstin erp2.
Proof.
  rewrite (extract_state_code_any_erp gstin erp1).
  rewrite (extract_state_code_any_erp gstin erp2). reflexivity.
Qed.

Lemma extract_state_code_cases (gstin erp_type : string) :
  (has_shape gstin_pattern gstin
   /\ exists is_ut, extract_state_code_from_gstin gstin erp_type
                    = GSTINExtractResult.mk (take 2 gstin) true is_ut None)
  \/ (~ has_shape gstin_pattern gstin
      /\ exists msg, extract_state_code_from_gstin gstin erp_type
                     = GSTINExtractResult.mk "" false false (Some msg)).
Proof.
  destruct (Nat.eq_dec (String.length gstin) 15) as [Hlen|Hlen].
  - destruct (re_match_gstin gstin) eqn:Hre.
    + left. apply re_match_gstin_shape in Hre; [|exact Hlen].
      split; [exact Hre | apply extract_state_code_valid; exact Hre].
    + right. assert (Hn : ~ has_shape gstin_pattern gstin).
      { intros H. apply re_match_gstin_shape in H; [congruence | exact Hlen]. }
      split; [exact Hn|]. eexists. apply extract_state_code_wrong_shape; assumption.
  - right. split.
    + intros H. apply has_shape_length in H. simpl in H. contradiction.
    + eexists. apply extract_state_code_wrong_length. exact Hlen.
Qed.

Lemma shape_two_digits (gstin : string) :
  has_shape gstin_pattern gstin ->
  exists d1 d2, take 2 gstin = String d1 (String d2 "")
                /\ is_digit d1 = true /\ is_digit d2 = true.
Proof.
  unfold has_shape, gstin_pattern. simpl. intros H.
  destruct gstin as [|d1 [|d2 rest]]; simpl in H.
  - inversion H.
  - inversion H as [|? ? ? ? _ H']; subst. inversion H'.
  - inversion H as [|? ? ? ? H1 H']; subst.
    inversion H' as [|? ? ? ? H2 _]; subst.
    exists d1, d2. repeat split; assumption.
Qed.

(** X2: the fields of a validation result are tied together: the result is
    valid exactly when the identifier has the checked shape and exactly when
    it carries no error; a valid result's region code is two digits, an
    invalid one's is empty; only a valid result can be flagged as a union
    territory. *)
Theorem extract_state_code_result_invariant (gstin erp_type : string) :
  (GSTINExtractResult.is_valid (extract_state_code_from_gstin gstin erp_type) = true
   <-> has_shape gstin_pattern gstin)
  /\ (GSTINExtractResult.is_valid (extract_state_code_from_gstin gstin erp_type) = true
      <-> GSTINExtractResult.error (extract_state_code_from_gstin gstin erp_type) = None)
  /\ (if GSTINExtractResult.is_valid (extract_state_code_from_gstin gstin erp_type)
      then exists d1 d2,
             GSTINExtractResult.state_code (extract_state_code_from_gstin gstin erp_type)
             = String d1 (String d2 "")
             /\ is_digit d1 = true /\ is_digit d2 = true
      else GSTINExtractResult.state_code (extract_state_code_from_gstin gstin erp_type)
           = "")
  /\ (GSTINExtractResult.is_union_territory
        (extract_state_code_from_gstin gstin erp_type) = true
      -> GSTINExtractResult.is_valid (extract_state_code_from_gstin gstin erp_type)
         = true).
Proof.
  destruct (extract_state_code_cases gstin erp_type)
    as [[Hs [is_ut ->]] | [Hs [msg ->]]]; cbn.
  - repeat split; auto; try (apply shape_two_digits; exact Hs).
  - repeat split; auto; try discriminate; try (intros H; contradiction).
Qed.

Lemma determine_transaction_type_valid (supplier_gstin buyer_gstin erp_type : string) :
  has_shape gstin_pattern supplier_gstin ->
  has_shape gstin_pattern buyer_gstin ->
  determine_transaction_type supplier_gstin buyer_gstin erp_type
  = TransactionTypeResult.mk
      (if String.eqb (take 2 supplier_gstin) (take 2 buyer_gstin)
       then "INTRA" else "INTER")
      (take 2 supplier_gstin) (take 2 buyer_gstin)
      (String.eqb (take 2 supplier_gstin) (take 2 buyer_gstin)).
Proof.
  intros Hs Hb. unfold determine_transaction_type.
  destruct (extract_state_code_valid supplier_gstin erp_type Hs) as [u1 ->].
  destruct (extract_state_code_valid buyer_gstin erp_type Hb) as [u2 ->].
  reflexivity.
Qed.

Lemma determine_transaction_type_invalid (supplier_gstin buyer_gstin erp_type : string) :
  ~ has_shape gstin_pattern supplier_gstin \/ ~ has_shape gstin_pattern buyer_gstin ->
  TransactionTypeResult.transaction_type
    (determine_transaction_type supplier_gstin buyer_gstin erp_type) = "UNKNOWN"
  /\ TransactionTypeResult.is_same_state
       (determine_transaction_type supplier_gstin buyer_gstin erp_type) = false.
Proof.
  intros H. unfold determine_transaction_type.
  destruct (extract_state_code_cases supplier_gstin erp_type)
    as [[Hs [u1 ->]] | [Hs [m1 ->]]];
  destruct (extract_state_code_cases buyer_gstin erp_type)
    as [[Hb [u2 ->]] | [Hb [m2 ->]]]; cbn; try (split; reflexivity).
  destruct H; contradiction.
Qed.

(** X3: for two well-shaped identifiers the transaction is INTRA when their
    first two characters agree and INTER otherwise; the reported regions are
    these two-character prefixes and the same-region flag says whether they
    agree. *)
Theorem determine_transaction_type_classifies
    (supplier_gstin buyer_gstin erp_type : string) :
  has_shape gstin_pattern supplier_gstin ->
  has_shape gstin_pattern buyer_gstin ->
  determine_transaction_type supplier_gstin buyer_gstin erp_type
  = TransactionTypeResult.mk
      (if String.eqb (take 2 supplier_gstin) (take 2 buyer_gstin)
       then "INTRA" else "INTER")
      (take 2 supplier_gstin) (take 2 buyer_gstin)
      (String.eqb (take 2 supplier_gstin) (take 2 buyer_gstin)).
Proof. apply determine_transaction_type_valid. Qed.

Lemma determine_transaction_type_classifies_witness :
  determine_transaction_type "29AABCX1234F1Z5" "27AADCB2501D1ZF" "SAP_ECC"
  = TransactionTypeResult.mk "INTER" "29" "27" false.
Proof.
  apply (determine_transaction_type_classifies
           "29AABCX1234F1Z5" "27AADCB2501D1ZF" "SAP_ECC");
    unfold has_shape; simpl; repeat constructor.
Defined.

(** X4: the transaction is UNKNOWN exactly when one of the two identifiers
    is malformed, and then the same-region flag is false even if both
    reported regions are empty; the flag is true exactly for INTRA. *)
Theorem determine_transaction_type_unknown_iff
    (supplier_gstin buyer_gstin erp_type : string) :
  (TransactionTypeResult.transaction_type
     (determine_transaction_type supplier_gstin buyer_gstin erp_type) = "UNKNOWN"
   <-> ~ (has_shape gstin_pattern supplier_gstin /\ has_shape gstin_pattern buyer_gstin))
  /\ (TransactionTypeResult.is_same_state
        (determine_transaction_type supplier_gstin buyer_gstin erp_type) = true
      <-> TransactionTypeResult.transaction_type
            (determine_transaction_type supplier_gstin buyer_gstin erp_type) = "INTRA")
  /\ In (TransactionTypeResult.transaction_type
           (determine_transaction_type supplier_gstin buyer_gstin erp_type))
        ["INTRA"; "INTER"; "UNKNOWN"].
Proof.
  destruct (extract_state_code_cases supplier_gstin erp_type) as [[Hs _] | [Hs _]];
  destruct (extract_state_code_cases buyer_gstin erp_type) as [[Hb _] | [Hb _]].
  1: { rewrite (determine_transaction_type_valid _ _ erp_type Hs Hb).
       cbn [TransactionTypeResult.transaction_type TransactionTypeResult.is_same_state].
       destruct (String.eqb (take 2 supplier_gstin) (take 2 buyer_gstin));
         (split; [split; [discriminate | intros H; exfalso; apply H; split; assumption]|]);
         (split; [split; try discriminate; reflexivity | simpl; tauto]). }
  all: destruct (determine_transaction_type_invalid supplier_gstin buyer_gstin erp_type)
         as [-> ->]; [tauto|];
       (split; [split; [intros _ [? ?]; contradiction | reflexivity]|]);
       (split; [split; discriminate | simpl; tauto]).
Qed.

(** X5: swapping supplier and buyer keeps the transaction category and the
    same-region flag and swaps the two reported regions. *)
Theorem determine_transaction_type_swap (supplier_gstin buyer_gstin erp_type : string) :
  determine_transaction_type buyer_gstin supplier_gstin erp_type
  = TransactionTypeResult.mk
      (TransactionTypeResult.transaction_type
         (determine_transaction_type supplier_gstin buyer_gstin erp_type))
      (TransactionTypeResult.buyer_state
         (determine_transaction_type supplier_gstin buyer_gstin erp_type))
      (TransactionTypeResult.supplier_state
         (determine_transaction_type supplier_gstin buyer_gstin erp_type))
      (TransactionTypeResult.is_same_state
         (determine_transaction_type supplier_gstin buyer_gstin erp_type)).
Proof.
  unfold determine_transaction_type.
  destruct (extract_state_code_cases supplier_gstin erp_type)
    as [[_ [u1 ->]] | [_ [m1 ->]]];
  destruct (extract_state_code_cases buyer_gstin erp_type)
    as [[_ [u2 ->]] | [_ [m2 ->]]]; cbn -[take String.eqb]; try reflexivity.
  rewrite (String.eqb_sym (take 2 buyer_gstin) (take 2 supplier_gstin)).
  destruct (String.eqb (take 2 supplier_gstin) (take 2 buyer_gstin)); reflexivity.
Qed.

(** ** Reverse charge *)

Lemma lower_upper_char (c : ascii) : lower_char (upper_char c) = lower_char c.
Proof. destruct c as [[] [] [] [] [] [] [] []]; reflexivity. Qed.

Lemma upper_lower_char (c : ascii) : upper_char (lower_char c) = upper_char c.
Proof. destruct c as [[] [] [] [] [] [] [] []]; reflexivity. Qed.

Lemma upper_upper_char (c : ascii) : upper_char (upper_char c) = upper_char c.
Proof. destruct c as [[] [] [] [] [] [] [] []]; reflexivity. Qed.

Lemma lower_lower_char (c : ascii) : lower_char (lower_char c) = lower_char c.
Proof. destruct c as [[] [] [] [] [] [] [] []]; reflexivity. Qed.

Lemma map_chars_compose (f g h : ascii -> ascii) (s : string) :
  (forall c, f (g c) = h c) -> map_chars f (map_chars g s) = map_chars h s.
Proof. intros H. induction s as [|c s IH]; simpl; [reflexivity | rewrite H, IH; reflexivity]. Qed.

Lemma map_chars_app (f : ascii -> ascii) (a b : string) :
  map_chars f (a +:+ b) = map_chars f a +:+ map_chars f b.
Proof. induction a as [|c a IH]; simpl; [reflexivity | rewrite IH; reflexivity]. Qed.

Lemma map_chars_length (f : ascii -> ascii) (s : string) :
  String.length (map_chars f s) = String.length s.
Proof. induction s as [|c s IH]; simpl; [reflexivity | rewrite IH; reflexivity]. Qed.

Lemma truthy_map_chars (f : ascii -> ascii) (s : string) :
  truthy (map_chars f s) = truthy s.
Proof. destruct s; reflexivity. Qed.

(** X6: for a description and a supplier identifier made of ASCII
    characters, the reverse-charge decision does not depend on their letter
    case.  (Outside ASCII the case mapping can create ASCII letters, and the
    decision can change: the statement is about ASCII text only.) *)
Theorem check_rcm_applicability_case_insensitive
    (g supplier_country item_description : string)
    (Hdescription : is_ascii item_description) (Hgstin : is_ascii g) :
  check_rcm_applicability (Some g) supplier_country (upper item_description)
  = check_rcm_applicability (Some g) supplier_country item_description
  /\ check_rcm_applicability (Some g) supplier_country (lower item_description)
     = check_rcm_applicability (Some g) supplier_country item_description
  /\ check_rcm_applicability (Some (upper g)) supplier_country item_description
     = check_rcm_applicability (Some g) supplier_country item_description
  /\ check_rcm_applicability (Some (lower g)) supplier_country item_description
     = check_rcm_applicability (Some g) supplier_country item_description.
Proof.
  clear Hdescription Hgstin.
  unfold check_rcm_applicability, falsy, upper, lower.
  cbn [from_option id].
  rewrite (map_chars_compose lower_char upper_char lower_char) by apply lower_upper_char.
  rewrite (map_chars_compose lower_char lower_char lower_char) by apply lower_lower_char.
  rewrite (map_chars_compose upper_char upper_char upper_char) by apply upper_upper_char.
  rewrite (map_chars_compose upper_char lower_char upper_char) by apply upper_lower_char.
  rewrite !truthy_map_chars.
  repeat split.
Qed.

Lemma check_rcm_applicability_case_insensitive_witness :
  is_ascii "Legal Services" /\ is_ascii "urp"
  /\ check_rcm_applicability (Some "urp") "IN" (upper "Legal Services")
     = check_rcm_applicability (Some "urp") "IN" "Legal Services"
  /\ check_rcm_applicability (Some "urp") "IN" (lower "Legal Services")
     = check_rcm_applicability (Some "urp") "IN" "Legal Services"
  /\ check_rcm_applicability (Some (upper "urp")) "IN" "Legal Services"
     = check_rcm_applicability (Some "urp") "IN" "Legal Services"
  /\ check_rcm_applicability (Some (lower "urp")) "IN" "Legal Services"
     = check_rcm_applicability (Some "urp") "IN" "Legal Services".
Proof.
  assert (Hd : is_ascii "Legal Services")
    by (unfold is_ascii; apply (bool_decide_unpack _); vm_compute; reflexivity).
  assert (Hg : is_ascii "urp")
    by (unfold is_ascii; apply (bool_decide_unpack _); vm_compute; reflexivity).
  split; [exact Hd|]. split; [exact Hg|].
  exact (check_rcm_applicability_case_insensitive "urp" "IN" "Legal Services" Hd Hg).
Defined.

Lemma string_append_assoc (a b c : string) : (a +:+ b) +:+ c = a +:+ (b +:+ c).
Proof.
  induction a as [|x a IH]; [reflexivity|].
  change (String x ((a +:+ b) +:+ c) = String x (a +:+ (b +:+ c))).
  rewrite IH. reflexivity.
Qed.

Lemma contains_extend (sub s pre post : string) :
  contains sub s = true -> contains sub (pre +:+ s +:+ post) = true.
Proof.
  rewrite !contains_spec. intros (a & b & ->).
  exists (pre +:+ a), (b +:+ post).
  rewrite !string_append_assoc. reflexivity.
Qed.

(** X7: adding text before or after a description never turns reverse
    charge off. *)
Theorem check_rcm_applicability_monotone
    (supplier_gstin : option string) (supplier_country item_description pre post : string) :
  check_rcm_applicability supplier_gstin supplier_country item_description = true ->
  check_rcm_applicability supplier_gstin supplier_country
    (pre +:+ item_description +:+ post) = true.
Proof.
  unfold check_rcm_applicability.
  destruct (negb (String.eqb supplier_country "IN")); [reflexivity|].
  destruct (falsy supplier_gstin
            || in_list (upper (default "" supplier_gstin)) unregistered_markers);
    [reflexivity|].
  destruct (existsb (fun keyword => contains keyword (lower item_description))
              rcm_keywords) eqn:He; [|discriminate].
  intros _. apply existsb_exists in He. destruct He as (kw & Hin & Hc).
  assert (Hx : existsb
                 (fun keyword =>
                    contains keyword (lower (pre +:+ item_description +:+ post)))
                 rcm_keywords = true).
  { apply existsb_exists. exists kw. split; [exact Hin|].
    unfold lower. rewrite !map_chars_app. apply contains_extend. exact Hc. }
  rewrite Hx. reflexivity.
Qed.

Lemma check_rcm_applicability_monotone_witness :
  check_rcm_applicability (Some "27AABCU9603R1ZM") "IN"
    ("Fees: " +:+ "legal advice" +:+ " (March)") = true.
Proof.
  apply (check_rcm_applicability_monotone
           (Some "27AABCU9603R1ZM") "IN" "legal advice" "Fees: " " (March)").
  vm_compute. reflexivity.
Defined.

Lemma shaped_not_marker (g : string) :
  has_shape gstin_pattern g ->
  falsy (Some g) || in_list (upper g) unregistered_markers = false.
Proof.
  intros H. pose proof (has_shape_length _ _ H) as Hlen. simpl in Hlen.
  unfold falsy. rewrite (truthy_length _ Hlen). cbn [negb orb].
  destruct (in_list (upper g) unregistered_markers) eqn:Hin; [|reflexivity].
  apply in_list_spec in Hin.
  assert (Hl : String.length (upper g) = 15%nat)
    by (unfold upper; rewrite map_chars_length; exact Hlen).
  unfold unregistered_markers in Hin. simpl in Hin.
  destruct Hin as [E|[E|[E|[]]]]; rewrite <- E in Hl; discriminate.
Qed.

(** X8: for a domestic supplier with a well-shaped identifier, reverse
    charge applies exactly when the description contains one of the
    keywords up to case. *)
Theorem check_rcm_applicability_registered_domestic (g item_description : string) :
  has_shape gstin_pattern g ->
  check_rcm_applicability (Some g) "IN" item_description = true
  <-> notified_service item_description.
Proof.
  intros H. unfold check_rcm_applicability.
  cbn [String.eqb Ascii.eqb Bool.eqb negb from_option id].
  rewrite (shaped_not_marker g H).
  rewrite <- notified_service_spec.
  destruct (existsb (fun keyword => contains keyword (lower item_description))
              rcm_keywords); split; auto.
Qed.

Lemma check_rcm_applicability_registered_domestic_witness :
  check_rcm_applicability (Some "27AABCU9603R1ZM") "IN" "Software license" = true
  <-> notified_service "Software license".
Proof.
  apply (check_rcm_applicability_registered_domestic
           "27AABCU9603R1ZM" "Software license").
  unfold has_shape. simpl. repeat constructor.
Defined.

(** ** Master lookup and rates *)

Lemma master_forall_entries (m : gmap key string) (p : key * string -> bool) :
  forallb p (map_to_list m) = true ->
  forall k code, m !! k = Some code -> p (k, code) = true.
Proof.
  intros H k code Hk.
  apply elem_of_map_to_list in Hk. apply list_elem_of_In in Hk.
  rewrite forallb_forall in H. exact (H (k, code) Hk).
Qed.

Lemma select_master_cases (erp_type : string) :
  select_master erp_type = (ORACLE_TAX_CODE_MASTER, ORACLE_TAX_CODE_DESCRIPTIONS)
  \/ select_master erp_type = (MS360_TAX_CODE_MASTER, MS360_TAX_CODE_DESCRIPTIONS)
  \/ select_master erp_type = (SAP_TAX_CODE_MASTER, SAP_TAX_CODE_DESCRIPTIONS).
Proof.
  unfold select_master.
  destruct (String.eqb erp_type "ORACLE"); [tauto|].
  destruct (String.eqb erp_type "MS_365"); tauto.
Qed.

Lemma masters_entries_ok (erp_type : string) (k : key) (code' : string) :
  (select_master erp_type).1 !! k = Some code' -> entry_ok (k, code') = true.
Proof.
  destruct (select_master_cases erp_type) as [-> | [-> | ->]]; cbn [fst];
    apply master_forall_entries; vm_compute; reflexivity.
Qed.

Lemma lookup_tax_code_cases
    (tax_rate : pyfloat) (txn charge credit st erp_type : string) :
  (exists code' desc,
      (select_master erp_type).1 !! lookup_key tax_rate txn charge credit st = Some code'
      /\ lookup_tax_code tax_rate txn charge credit st erp_type
         = TaxCodeLookupResult.mk code' desc confidence_hit true)
  \/ (exists desc,
         (select_master erp_type).1 !! lookup_key tax_rate txn charge credit st = None
         /\ lookup_tax_code tax_rate txn charge credit st erp_type
            = TaxCodeLookupResult.mk "MANUAL_REVIEW" desc zero false).
Proof.
  unfold lookup_tax_code.
  pose proof (masters_entries_ok erp_type (lookup_key tax_rate txn charge credit st)) as Hok.
  destruct (select_master erp_type) as [tax_master desc_master]. cbn [fst] in *.
  destruct (tax_master !! lookup_key tax_rate txn charge credit st) as [c|] eqn:Hl.
  - left. specialize (Hok c eq_refl).
    destruct c as [|a c].
    + unfold entry_ok in Hok. rewrite !andb_true_iff in Hok.
      destruct Hok as (_ & Hno). discriminate.
    + cbn [truthy]. eexists _, _. split; reflexivity.
  - right. eexists. split; reflexivity.
Qed.

(** X9: for every rate, key and target system, a lookup either hits -- the
    code is the master's entry at the key, never empty and never a sentinel,
    and the confidence is 0.95 -- or misses, with the code MANUAL_REVIEW and
    confidence 0.0.  The [found] flag is true exactly when the key is in the
    selected master. *)
Theorem lookup_tax_code_hit_or_miss
    (tax_rate : pyfloat) (txn charge credit st erp_type : string) :
  (TaxCodeLookupResult.found (lookup_tax_code tax_rate txn charge credit st erp_type)
   = true
   <-> is_Some ((select_master erp_type).1 !! lookup_key tax_rate txn charge credit st))
  /\ (if TaxCodeLookupResult.found
           (lookup_tax_code tax_rate txn charge credit st erp_type)
      then (select_master erp_type).1 !! lookup_key tax_rate txn charge credit st
           = Some (TaxCodeLookupResult.tax_code
                     (lookup_tax_code tax_rate txn charge credit st erp_type))
           /\ TaxCodeLookupResult.confidence
                (lookup_tax_code tax_rate txn charge credit st erp_type) = Fin 95 (-2)
           /\ ~ needs_attention
                  (TaxCodeLookupResult.tax_code
                     (lookup_tax_code tax_rate txn charge credit st erp_type))
           /\ TaxCodeLookupResult.tax_code
                (lookup_tax_code tax_rate txn charge credit st erp_type)
              <> "MANUAL_REVIEW"
      else TaxCodeLookupResult.tax_code
             (lookup_tax_code tax_rate txn charge credit st erp_type) = "MANUAL_REVIEW"
           /\ TaxCodeLookupResult.confidence
                (lookup_tax_code tax_rate txn charge credit st erp_type) = zero).
Proof.
  destruct (lookup_tax_code_cases tax_rate txn charge credit st erp_type)
    as [(c & d & Hl & ->) | (d & Hl & ->)];
    cbn [TaxCodeLookupResult.found TaxCodeLookupResult.tax_code
         TaxCodeLookupResult.confidence]; rewrite Hl.
  - pose proof (masters_entries_ok erp_type _ _ Hl) as Hok.
    unfold entry_ok in Hok. rewrite !andb_true_iff, negb_true_iff in Hok.
    destruct Hok as (_ & Hno). cbn [snd] in Hno.
    split; [split; [intros _; eexists; reflexivity | reflexivity]|].
    split; [reflexivity|]. split; [reflexivity|].
    assert (Hin : ~ In c [MANUAL_REVIEW_REQUIRED; ERROR; ""; "MANUAL_REVIEW"]).
    { intros Hin. apply in_list_spec in Hin. congruence. }
    split.
    + intros [H | [H | H]]; apply Hin; subst c; simpl; tauto.
    + intros H. apply Hin. subst c. simpl. tauto.
  - split; [split; [discriminate | intros [x Hx]; discriminate]|].
    split; reflexivity.
Qed.

Lemma fadd_nan_l (x : pyfloat) : fadd NaN x = NaN.
Proof. destruct x; reflexivity. Qed.

Lemma sum_rates_nan (tax_list : list (string * string)) :
  Forall (fun e => is_Some (parse_rate e.2)) tax_list ->
  sum_rates NaN tax_list = Some NaN.
Proof.
  induction tax_list as [|[t r] rest IH]; intros H; [reflexivity|].
  inversion H as [|? ? [x Hx] Hrest]; subst. cbn [snd] in Hx.
  cbn [sum_rates]. rewrite Hx. cbn [mbind option_bind].
  rewrite fadd_nan_l. apply IH. exact Hrest.
Qed.

Lemma sum_rates_poisoned (tax_list : list (string * string)) (total : pyfloat) :
  Forall (fun e => is_Some (parse_rate e.2)) tax_list ->
  Exists (fun e => parse_rate e.2 = Some NaN) tax_list ->
  sum_rates total tax_list = Some NaN.
Proof.
  revert total. induction tax_list as [|[t r] rest IH]; intros total Hall Hex.
  - inversion Hex.
  - inversion Hall as [|? ? [x Hx] Hrest]; subst. cbn [snd] in Hx.
    cbn [sum_rates]. rewrite Hx. cbn [mbind option_bind].
    inversion Hex as [? ? Hnan | ? ? Hlater]; subst.
    + cbn [snd] in Hnan. rewrite Hx in Hnan. injection Hnan as ->.
      replace (fadd total NaN) with NaN by (destruct total; reflexivity).
      apply sum_rates_nan. exact Hrest.
    + apply IH; assumption.
Qed.

(** X21: a percentage that reads as not-a-number is not a parse failure:
    when every entry parses and one of them is "nan" (in any spelling
    [float] accepts), the total is NaN, not 0.0. *)
Theorem calculate_total_tax_rate_nan (tax_list : list (string * string)) :
  Forall (fun e => is_Some (parse_rate e.2)) tax_list ->
  Exists (fun e => parse_rate e.2 = Some NaN) tax_list ->
  calculate_total_tax_rate tax_list = NaN.
Proof.
  intros Hall Hex. unfold calculate_total_tax_rate.
  rewrite (sum_rates_poisoned tax_list zero Hall Hex). reflexivity.
Qed.

Lemma calculate_total_tax_rate_nan_witness :
  calculate_total_tax_rate [("CGST", "9%"); ("SGST", " NaN %")] = NaN.
Proof.
  apply (calculate_total_tax_rate_nan [("CGST", "9%"); ("SGST", " NaN %")]).
  - repeat constructor; cbn [snd]; vm_compute; eexists; reflexivity.
  - right. left. vm_compute. reflexivity.
Defined.

Lemma whole_percent_table :
  forallb
    (fun k =>
       String.eqb
         (normalize_rate
            (calculate_total_tax_rate [("", digits_of_Z (Z.of_nat k) +:+ "%")]))
         (digits_of_Z (Z.of_nat k)))
    (seq 0 101) = true.
Proof. vm_compute. reflexivity. Qed.

(** X22: round trip of a whole percentage.  For n = 0, ..., 100 the entry
    "n%" alone aggregates to a rate whose normalized key component is the
    numeral n again (zeros before the decimal point are kept: 10, 20, 100). *)
Theorem whole_percent_round_trip (n : Z) (tax_type : string) :
  whole_percent n ->
  normalize_rate (calculate_total_tax_rate [(tax_type, digits_of_Z n +:+ "%")])
  = digits_of_Z n.
Proof.
  intros [Hlo Hhi].
  pose proof whole_percent_table as Ht. rewrite forallb_forall in Ht.
  specialize (Ht (Z.to_nat n)).
  rewrite Z2Nat.id in Ht by exact Hlo.
  assert (Hin : In (Z.to_nat n) (seq 0 101)) by (apply in_seq; lia).
  apply Ht in Hin. apply String.eqb_eq in Hin. exact Hin.
Qed.

Lemma whole_percent_round_trip_witness :
  normalize_rate (calculate_total_tax_rate [("IGST", digits_of_Z 20 +:+ "%")])
  = digits_of_Z 20.
Proof.
  apply (whole_percent_round_trip 20 "IGST"). unfold whole_percent. lia.
Defined.

(** ** The stages of one line *)

Lemma needs_attention_in_list (tax_code : string) :
  in_list tax_code [MANUAL_REVIEW_REQUIRED; ERROR; ""] = true <-> needs_attention tax_code.
Proof.
  split; [|apply in_list_needs_attention].
  intros H. apply in_list_spec in H. unfold needs_attention.
  simpl in H. destruct H as [H|[H|[H|[]]]]; auto.
Qed.

Lemma validation_node_errors (state : State.t) :
  Update.errors (validation_node state)
  = (if flt (State.confidence state) confidence_threshold
     then ["Confidence below threshold (0.6)"] else [])
    ++ (if in_list (State.tax_code state) [MANUAL_REVIEW_REQUIRED; ERROR; ""]
        then ["Tax code not automatically determined"] else []).
Proof. reflexivity. Qed.

Lemma validation_node_passed_message (state : State.t) :
  In "All validations passed" (Update.messages (validation_node state))
  <-> Update.errors (validation_node state) = [].
Proof.
  rewrite validation_node_errors.
  unfold validation_node, Update.only. cbn [Update.messages].
  rewrite !in_app_iff.
  destruct (flt (State.confidence state) confidence_threshold);
    destruct (in_list (State.tax_code state) [MANUAL_REVIEW_REQUIRED; ERROR; ""]);
    destruct (String.eqb (State.transaction_type state) "INTER"
              && startswith "1" (State.tax_code state));
    destruct (String.eqb (State.transaction_type state) "INTRA"
              && (startswith "3" (State.tax_code state)
                  || startswith "R" (State.tax_code state)));
    cbn [app length Nat.eqb In];
    (split;
     [ intros H; try reflexivity; exfalso;
       repeat (destruct H as [H|H]); try discriminate H; try contradiction
     | intros H; try discriminate H; tauto ]).
Qed.

(** X13: the validation stage reports no error exactly when the confidence
    is not below 0.6 and the code needs no attention; it reports at most two
    errors, and the message "All validations passed" appears exactly when it
    reports none. *)
Theorem validation_node_passes_iff (state : State.t) :
  (Update.errors (validation_node state) = []
   <-> flt (State.confidence state) confidence_threshold = false
       /\ ~ needs_attention (State.tax_code state))
  /\ (In "All validations passed" (Update.messages (validation_node state))
      <-> Update.errors (validation_node state) = [])
  /\ (length (Update.errors (validation_node state)) <= 2)%nat.
Proof.
  split; [|split; [apply validation_node_passed_message|]];
    rewrite validation_node_errors;
    pose proof (needs_attention_in_list (State.tax_code state)) as Hna;
    destruct (flt (State.confidence state) confidence_threshold);
    destruct (in_list (State.tax_code state) [MANUAL_REVIEW_REQUIRED; ERROR; ""]);
    cbn [app length]; try lia.
  - split; [discriminate | intros [H _]; discriminate].
  - split; [discriminate | intros [H _]; discriminate].
  - split; [discriminate | intros [_ H]; exfalso; apply H, Hna; reflexivity].
  - split; [intros _; split; [reflexivity | intros H; apply Hna in H; discriminate]
           | reflexivity].
Qed.

Lemma preprocessed_transaction_type (erp_type : string) (line : TaggingRequestLineItem.t) :
  State.transaction_type (preprocessed erp_type line)
  = TransactionTypeResult.transaction_type
      (determine_transaction_type
         (TaggingRequestLineItem.supplier_gstin line)
         (TaggingRequestLineItem.buyer_gstin line) erp_type).
Proof. reflexivity. Qed.

Lemma preprocessed_errors (erp_type : string) (line : TaggingRequestLineItem.t) :
  State.errors (preprocessed erp_type line)
  = (if negb (GSTINExtractResult.is_valid
                (extract_state_code_from_gstin
                   (TaggingRequestLineItem.supplier_gstin line) erp_type))
     then ["Invalid supplier GSTIN: "
             +:+ default "None"
                   (GSTINExtractResult.error
                      (extract_state_code_from_gstin
                         (TaggingRequestLineItem.supplier_gstin line) erp_type))]
     else [])
    ++ (if negb (GSTINExtractResult.is_valid
                   (extract_state_code_from_gstin
                      (TaggingRequestLineItem.buyer_gstin line) erp_type))
        then ["Invalid buyer GSTIN: "
                +:+ default "None"
                      (GSTINExtractResult.error
                         (extract_state_code_from_gstin
                            (TaggingRequestLineItem.buyer_gstin line) erp_type))]
        else []).
Proof. reflexivity. Qed.

Lemma preprocessed_errors_shaped (erp_type : string) (line : TaggingRequestLineItem.t) :
  has_shape gstin_pattern (TaggingRequestLineItem.supplier_gstin line) ->
  has_shape gstin_pattern (TaggingRequestLineItem.buyer_gstin line) ->
  State.errors (preprocessed erp_type line) = [].
Proof.
  intros Hs Hb. rewrite preprocessed_errors.
  destruct (extract_state_code_valid _ erp_type Hs) as [u1 ->].
  destruct (extract_state_code_valid _ erp_type Hb) as [u2 ->].
  reflexivity.
Qed.

Lemma preprocessed_errors_malformed (erp_type : string) (line : TaggingRequestLineItem.t) :
  ~ has_shape gstin_pattern (TaggingRequestLineItem.supplier_gstin line)
  \/ ~ has_shape gstin_pattern (TaggingRequestLineItem.buyer_gstin line) ->
  State.errors (preprocessed erp_type line) <> [].
Proof.
  intros H. rewrite preprocessed_errors.
  destruct (extract_state_code_cases (TaggingRequestLineItem.supplier_gstin line) erp_type)
    as [[Hs [u1 ->]] | [Hs [m1 ->]]];
  destruct (extract_state_code_cases (TaggingRequestLineItem.buyer_gstin line) erp_type)
    as [[Hb [u2 ->]] | [Hb [m2 ->]]];
    cbn [GSTINExtractResult.is_valid negb app]; try discriminate.
  destruct H; contradiction.
Qed.

Lemma hit_transaction_type (state : State.t) :
  TaxCodeLookupResult.found (determination_lookup state) = true ->
  State.transaction_type state = "INTRA" \/ State.transaction_type state = "INTER".
Proof.
  unfold determination_lookup. intros Hf.
  destruct (lookup_tax_code_cases
              (State.total_tax_rate state) (State.transaction_type state)
              (charge_type_of state) (credit_type_of state) (state_type_of state)
              (State.erp_type state)) as [(c & d & Hl & He) | (d & _ & He)];
    rewrite He in Hf; [|discriminate].
  apply masters_entries_ok in Hl. unfold entry_ok in Hl.
  rewrite !andb_true_iff in Hl. destruct Hl as ((((Ht & _) & _) & _) & _).
  apply in_list_spec in Ht. cbn in Ht. destruct Ht as [Ht|[Ht|[]]]; auto.
Qed.

Lemma tax_determination_node_hit (llm : llm_outcome) (state : State.t) :
  TaxCodeLookupResult.found (determination_lookup state) = true ->
  tax_determination_node llm state
  = Update.mk None None None None None None None
      (Some (TaxCodeLookupResult.tax_code (determination_lookup state)))
      (Some (TaxCodeLookupResult.tax_description (determination_lookup state)))
      (Some (TaxCodeLookupResult.confidence (determination_lookup state)))
      (Some (State.total_prompt_tokens state + 0)%Z)
      (Some (State.total_completion_tokens state + 0)%Z)
      (Some (State.total_reasoning_tokens state + 0)%Z)
      (Some (State.total_prompt_tokens state + 0
             + State.total_completion_tokens state + 0
             + State.total_reasoning_tokens state + 0)%Z)
      ["Tax code found in master: "
         +:+ TaxCodeLookupResult.tax_code (determination_lookup state)]
      [].
Proof.
  unfold determination_lookup, tax_determination_node. intros ->. reflexivity.
Qed.

Lemma tax_determination_node_miss (llm : llm_outcome) (state : State.t) :
  TaxCodeLookupResult.found (determination_lookup state) = false ->
  Update.tax_code (tax_determination_node llm state)
  = Some (match llm with
          | LLMReturns llm_response _ => TaxCodeOutput.tax_code llm_response
          | LLMRaises _ => MANUAL_REVIEW_REQUIRED
          end).
Proof.
  unfold determination_lookup, tax_determination_node. intros ->.
  destruct llm as [llm_response llm_output | llm_error]; [|reflexivity].
  destruct (harvest_tokens llm_output) as [[p c] r]. reflexivity.
Qed.

Lemma run_structure (llm : llm_outcome) (erp_type : string)
    (line : TaggingRequestLineItem.t) :
  Graph.run llm (Agent.initial_state erp_type line)
  = Update.apply
      (Update.apply (preprocessed erp_type line)
         (tax_determination_node llm (preprocessed erp_type line)))
      (validation_node
         (Update.apply (preprocessed erp_type line)
            (tax_determination_node llm (preprocessed erp_type line)))).
Proof. reflexivity. Qed.

Lemma preprocessed_hit_shaped (erp_type : string) (line : TaggingRequestLineItem.t) :
  TaxCodeLookupResult.found (determination_lookup (preprocessed erp_type line)) = true ->
  has_shape gstin_pattern (TaggingRequestLineItem.supplier_gstin line)
  /\ has_shape gstin_pattern (TaggingRequestLineItem.buyer_gstin line).
Proof.
  intros Hf. apply hit_transaction_type in Hf.
  rewrite preprocessed_transaction_type in Hf.
  destruct (extract_state_code_cases (TaggingRequestLineItem.supplier_gstin line) erp_type)
    as [[Hs _] | [Hs _]];
  destruct (extract_state_code_cases (TaggingRequestLineItem.buyer_gstin line) erp_type)
    as [[Hb _] | [Hb _]]; try (split; assumption);
    (destruct (determine_transaction_type_invalid
                 (TaggingRequestLineItem.supplier_gstin line)
                 (TaggingRequestLineItem.buyer_gstin line) erp_type) as [Hu _];
     [tauto|]; rewrite Hu in Hf; destruct Hf; discriminate).
Qed.

Lemma validation_node_no_error (state : State.t) :
  flt (State.confidence state) confidence_threshold = false ->
  ~ needs_attention (State.tax_code state) ->
  Update.errors (validation_node state) = [].
Proof.
  intros Hc Hn. rewrite validation_node_errors, Hc.
  destruct (in_list (State.tax_code state) [MANUAL_REVIEW_REQUIRED; ERROR; ""]) eqn:Hin;
    [|reflexivity].
  apply needs_attention_in_list in Hin. contradiction.
Qed.

Lemma hit_result (state : State.t) :
  TaxCodeLookupResult.found (determination_lookup state) = true ->
  TaxCodeLookupResult.confidence (determination_lookup state) = Fin 95 (-2)
  /\ ~ needs_attention (TaxCodeLookupResult.tax_code (determination_lookup state)).
Proof.
  unfold determination_lookup. intros Hf.
  destruct (lookup_tax_code_cases
              (State.total_tax_rate state) (State.transaction_type state)
              (charge_type_of state) (credit_type_of state) (state_type_of state)
              (State.erp_type state)) as [(c & d & Hl & He) | (d & _ & He)];
    rewrite He in *; [|discriminate].
  split; [reflexivity|]. cbn [TaxCodeLookupResult.tax_code].
  apply masters_entries_ok in Hl. unfold entry_ok in Hl.
  rewrite !andb_true_iff, negb_true_iff in Hl. destruct Hl as (_ & Hno).
  cbn [snd] in Hno. intros Hna.
  assert (Hin : In c [MANUAL_REVIEW_REQUIRED; ERROR; ""; "MANUAL_REVIEW"])
    by (destruct Hna as [-> | [-> | ->] ]; simpl; tauto).
  apply in_list_spec in Hin. congruence.
Qed.

(** X11: a master hit settles the line without the collaborator.  For every
    state on which the lookup of the determination stage hits, the update
    of the stage is the same whatever the collaborator would have done: the
    code is the master's, the confidence is 0.95, no error is reported and
    the token counters keep their values; the code needs no attention, the
    validation stage then reports no error either, and the transaction of
    the state is INTRA or INTER. *)
Theorem master_hit_is_clean (llm : llm_outcome) (state : State.t) :
  TaxCodeLookupResult.found (determination_lookup state) = true ->
  (forall llm', tax_determination_node llm' state = tax_determination_node llm state)
  /\ Update.tax_code (tax_determination_node llm state)
     = Some (TaxCodeLookupResult.tax_code (determination_lookup state))
  /\ ~ needs_attention (TaxCodeLookupResult.tax_code (determination_lookup state))
  /\ Update.confidence (tax_determination_node llm state) = Some (Fin 95 (-2))
  /\ Update.errors (tax_determination_node llm state) = []
  /\ Update.total_prompt_tokens (tax_determination_node llm state)
     = Some (State.total_prompt_tokens state)
  /\ Update.total_completion_tokens (tax_determination_node llm state)
     = Some (State.total_completion_tokens state)
  /\ Update.total_reasoning_tokens (tax_determination_node llm state)
     = Some (State.total_reasoning_tokens state)
  /\ Update.errors
       (validation_node (Update.apply state (tax_determination_node llm state))) = []
  /\ (State.transaction_type state = "INTRA" \/ State.transaction_type state = "INTER").
Proof.
  intros Hf.
  destruct (hit_result _ Hf) as [Hc Hn].
  split; [|split; [|split; [|split; [|split; [|split; [|split; [|split; [|split]]]]]]]].
  - intros llm'.
    rewrite (tax_determination_node_hit llm' _ Hf), (tax_determination_node_hit llm _ Hf).
    reflexivity.
  - rewrite (tax_determination_node_hit llm _ Hf). reflexivity.
  - exact Hn.
  - rewrite (tax_determination_node_hit llm _ Hf). cbn [Update.confidence].
    rewrite Hc. reflexivity.
  - rewrite (tax_determination_node_hit llm _ Hf). reflexivity.
  - rewrite (tax_determination_node_hit llm _ Hf). cbn [Update.total_prompt_tokens].
    rewrite Z.add_0_r. reflexivity.
  - rewrite (tax_determination_node_hit llm _ Hf). cbn [Update.total_completion_tokens].
    rewrite Z.add_0_r. reflexivity.
  - rewrite (tax_determination_node_hit llm _ Hf). cbn [Update.total_reasoning_tokens].
    rewrite Z.add_0_r. reflexivity.
  - rewrite (tax_determination_node_hit llm _ Hf).
    apply validation_node_no_error.
    + cbn [Update.apply State.confidence Update.confidence from_option id].
      rewrite Hc. reflexivity.
    + cbn [Update.apply State.tax_code Update.tax_code from_option id].
      exact Hn.
  - exact (hit_transaction_type _ Hf).
Qed.

Lemma master_hit_is_clean_witness :
  TaxCodeLookupResult.found
    (determination_lookup (preprocessed "SAP_ECC" line_consulting)) = true
  /\ Update.tax_code
       (tax_determination_node (LLMRaises "timeout")
          (preprocessed "SAP_ECC" line_consulting)) = Some "3Z"
  /\ Update.errors
       (validation_node
          (Update.apply (preprocessed "SAP_ECC" line_consulting)
             (tax_determination_node (LLMRaises "timeout")
                (preprocessed "SAP_ECC" line_consulting)))) = [].
Proof.
  assert (Hf : TaxCodeLookupResult.found
                 (determination_lookup (preprocessed "SAP_ECC" line_consulting)) = true)
    by (vm_compute; reflexivity).
  destruct (master_hit_is_clean (LLMRaises "timeout")
              (preprocessed "SAP_ECC" line_consulting) Hf)
    as (_ & Hcode & _ & _ & _ & _ & _ & _ & Hval & _).
  split; [exact Hf|]. split; [|exact Hval].
  rewrite Hcode. vm_compute. reflexivity.
Defined.

Lemma tax_determination_node_keeps_transaction (llm : llm_outcome) (state : State.t) :
  Update.transaction_type (tax_determination_node llm state) = None.
Proof.
  unfold tax_determination_node.
  destruct (TaxCodeLookupResult.found _); [reflexivity|].
  destruct llm as [llm_response llm_output | llm_error]; [|reflexivity].
  destruct (harvest_tokens llm_output) as [[p c] r]. reflexivity.
Qed.

Lemma malformed_lookup_misses (erp_type : string) (line : TaggingRequestLineItem.t) :
  ~ has_shape gstin_pattern (TaggingRequestLineItem.supplier_gstin line)
  \/ ~ has_shape gstin_pattern (TaggingRequestLineItem.buyer_gstin line) ->
  TaxCodeLookupResult.found (determination_lookup (preprocessed erp_type line)) = false.
Proof.
  intros H.
  destruct (TaxCodeLookupResult.found (determination_lookup (preprocessed erp_type line)))
    eqn:Hf; [|reflexivity].
  destruct (preprocessed_hit_shaped erp_type line Hf) as [Hs Hb].
  destruct H; contradiction.
Qed.

Lemma preprocessing_node_transaction_type (state : State.t) :
  Update.transaction_type (preprocessing_node state)
  = Some (TransactionTypeResult.transaction_type
            (determine_transaction_type (State.supplier_gstin state)
               (State.buyer_gstin state) (State.erp_type state))).
Proof. reflexivity. Qed.

Lemma preprocessing_node_errors_malformed (state : State.t) :
  ~ has_shape gstin_pattern (State.supplier_gstin state)
  \/ ~ has_shape gstin_pattern (State.buyer_gstin state) ->
  Update.errors (preprocessing_node state) <> [].
Proof.
  intros H. unfold preprocessing_node. cbn [Update.errors].
  destruct (extract_state_code_cases (State.supplier_gstin state) (State.erp_type state))
    as [[Hs [u1 ->]] | [Hs [m1 ->]]];
  destruct (extract_state_code_cases (State.buyer_gstin state) (State.erp_type state))
    as [[Hb [u2 ->]] | [Hb [m2 ->]]];
    cbn [GSTINExtractResult.is_valid negb app]; try discriminate.
  destruct H; contradiction.
Qed.

(** X12: a malformed supplier or buyer identifier always sends the line to
    the collaborator.  For every state with such an identifier the
    preprocessing stage sets the transaction to UNKNOWN and reports an
    error; on the state it leaves behind the lookup of the determination
    stage misses, for every target system and every rate; and when the call
    to the collaborator fails the code is the manual-review sentinel. *)
Theorem malformed_identifier_forces_fallback (state : State.t) :
  ~ has_shape gstin_pattern (State.supplier_gstin state)
  \/ ~ has_shape gstin_pattern (State.buyer_gstin state) ->
  Update.transaction_type (preprocessing_node state) = Some "UNKNOWN"
  /\ Update.errors (preprocessing_node state) <> []
  /\ TaxCodeLookupResult.found
       (determination_lookup (Update.apply state (preprocessing_node state))) = false
  /\ forall llm_error,
       Update.tax_code
         (tax_determination_node (LLMRaises llm_error)
            (Update.apply state (preprocessing_node state)))
       = Some MANUAL_REVIEW_REQUIRED.
Proof.
  intros H.
  assert (Ht : Update.transaction_type (preprocessing_node state) = Some "UNKNOWN").
  { rewrite preprocessing_node_transaction_type. f_equal.
    apply (determine_transaction_type_invalid _ _ (State.erp_type state) H). }
  assert (Hf : TaxCodeLookupResult.found
                 (determination_lookup (Update.apply state (preprocessing_node state)))
               = false).
  { destruct (TaxCodeLookupResult.found
                (determination_lookup (Update.apply state (preprocessing_node state))))
      eqn:Hf; [|reflexivity].
    apply hit_transaction_type in Hf.
    cbn [Update.apply State.transaction_type] in Hf. rewrite Ht in Hf.
    cbn [from_option id] in Hf. destruct Hf; discriminate. }
  split; [exact Ht|]. split; [exact (preprocessing_node_errors_malformed state H)|].
  split; [exact Hf|].
  intros llm_error.
  rewrite (tax_determination_node_miss (LLMRaises llm_error) _ Hf). reflexivity.
Qed.

Lemma malformed_identifier_forces_fallback_witness :
  ~ has_shape gstin_pattern
      (State.supplier_gstin
         (Agent.initial_state "SAP_ECC"
            (TaggingRequestLineItem.mk "Legal services" 998212 "Advocate Services"
               "PO-2024-003" 1 (of_Z 25000) (of_Z 29500)
               "UNREGISTERED" "IN" "27AADCB2501D1ZF" "IN" [("CGST", "9%")])))
  /\ Update.transaction_type
       (preprocessing_node
          (Agent.initial_state "SAP_ECC"
             (TaggingRequestLineItem.mk "Legal services" 998212 "Advocate Services"
                "PO-2024-003" 1 (of_Z 25000) (of_Z 29500)
                "UNREGISTERED" "IN" "27AADCB2501D1ZF" "IN" [("CGST", "9%")])))
     = Some "UNKNOWN"
  /\ TaxCodeLookupResult.found
       (determination_lookup
          (preprocessed "SAP_ECC"
             (TaggingRequestLineItem.mk "Legal services" 998212 "Advocate Services"
                "PO-2024-003" 1 (of_Z 25000) (of_Z 29500)
                "UNREGISTERED" "IN" "27AADCB2501D1ZF" "IN" [("CGST", "9%")])))
     = false.
Proof.
  assert (Hs : ~ has_shape gstin_pattern
                 (State.supplier_gstin
                    (Agent.initial_state "SAP_ECC"
                       (TaggingRequestLineItem.mk "Legal services" 998212
                          "Advocate Services" "PO-2024-003" 1 (of_Z 25000) (of_Z 29500)
                          "UNREGISTERED" "IN" "27AADCB2501D1ZF" "IN" [("CGST", "9%")])))).
  { intros H. apply has_shape_length in H. simpl in H. discriminate. }
  destruct (malformed_identifier_forces_fallback
              (Agent.initial_state "SAP_ECC"
                 (TaggingRequestLineItem.mk "Legal services" 998212
                    "Advocate Services" "PO-2024-003" 1 (of_Z 25000) (of_Z 29500)
                    "UNREGISTERED" "IN" "27AADCB2501D1ZF" "IN" [("CGST", "9%")]))
              (or_introl Hs))
    as (Ht & _ & Hf & _).
  split; [exact Hs|]. split; [exact Ht|]. exact Hf.
Defined.

(** ** Target-system selector *)

Lemma determine_transaction_type_any_erp (supplier_gstin buyer_gstin erp_type : string) :
  determine_transaction_type supplier_gstin buyer_gstin erp_type
  = determine_transaction_type supplier_gstin buyer_gstin "SAP_ECC".
Proof.
  unfold determine_transaction_type.
  rewrite (extract_state_code_any_erp supplier_gstin erp_type).
  rewrite (extract_state_code_any_erp buyer_gstin erp_type). reflexivity.
Qed.

Lemma preprocessing_node_any_erp (erp_type : string) (state : State.t) :
  preprocessing_node (with_erp erp_type state)
  = preprocessing_node (with_erp "SAP_ECC" state).
Proof.
  unfold preprocessing_node.
  cbn [with_erp State.erp_type State.supplier_gstin State.buyer_gstin State.tax
       State.supplier_country State.item_description].
  rewrite (extract_state_code_any_erp (State.supplier_gstin state) erp_type).
  rewrite (extract_state_code_any_erp (State.buyer_gstin state) erp_type).
  rewrite (determine_transaction_type_any_erp _ _ erp_type).
  reflexivity.
Qed.

Lemma select_master_default (erp_type : string) :
  default_selector erp_type -> select_master erp_type = select_master "SAP_ECC".
Proof.
  intros [Ho Hm]. unfold select_master.
  apply String.eqb_neq in Ho. apply String.eqb_neq in Hm.
  rewrite Ho, Hm. reflexivity.
Qed.

Lemma lookup_tax_code_default
    (tax_rate : pyfloat) (txn charge credit st erp_type : string) :
  default_selector erp_type ->
  lookup_tax_code tax_rate txn charge credit st erp_type
  = lookup_tax_code tax_rate txn charge credit st "SAP_ECC".
Proof.
  intros H. unfold lookup_tax_code. rewrite (select_master_default _ H). reflexivity.
Qed.

Lemma tax_determination_node_default (llm : llm_outcome) (erp_type : string)
    (state : State.t) :
  default_selector erp_type ->
  tax_determination_node llm (with_erp erp_type state)
  = tax_determination_node llm (with_erp "SAP_ECC" state).
Proof.
  intros H. unfold tax_determination_node.
  cbn [with_erp State.erp_type State.total_tax_rate State.transaction_type
       State.total_prompt_tokens State.total_completion_tokens
       State.total_reasoning_tokens
       charge_type_of credit_type_of state_type_of
       State.is_rcm State.is_credit_eligible State.is_union_territory].
  rewrite (lookup_tax_code_default _ _ _ _ _ _ H). reflexivity.
Qed.

Lemma run_default (llm : llm_outcome) (erp_type : string) (state : State.t) :
  default_selector erp_type ->
  Graph.run llm (with_erp erp_type state)
  = with_erp erp_type (Graph.run llm (with_erp "SAP_ECC" state)).
Proof.
  intros H. unfold Graph.run.
  rewrite (preprocessing_node_any_erp erp_type state).
  set (u1 := preprocessing_node (with_erp "SAP_ECC" state)).
  change (Update.apply (with_erp erp_type state) u1)
    with (with_erp erp_type (Update.apply (with_erp "SAP_ECC" state) u1)).
  set (s1 := Update.apply (with_erp "SAP_ECC" state) u1).
  rewrite (tax_determination_node_default llm erp_type s1 H).
  replace (with_erp "SAP_ECC" s1) with s1 by reflexivity.
  set (u2 := tax_determination_node llm s1).
  reflexivity.
Qed.

Lemma run_initial_default (llm : llm_outcome) (erp_type : string)
    (line : TaggingRequestLineItem.t) :
  default_selector erp_type ->
  Graph.run llm (Agent.initial_state erp_type line)
  = with_erp erp_type (Graph.run llm (Agent.initial_state "SAP_ECC" line)).
Proof.
  intros H.
  exact (run_default llm erp_type (Agent.initial_state "SAP_ECC" line) H).
Qed.

Lemma process_line_of_run (erp_type : string) (env : LineEnv.t) (idx : nat)
    (line : TaggingRequestLineItem.t) (a : Agent.acc) (final_state : State.t) :
  Graph.run (LineEnv.llm env) (Agent.initial_state erp_type line)
  = with_erp erp_type final_state ->
  Graph.run (LineEnv.llm env) (Agent.initial_state "SAP_ECC" line) = final_state ->
  Agent.process_line erp_type env idx line a
  = Agent.process_line "SAP_ECC" env idx line a.
Proof.
  intros H1 H2. unfold Agent.process_line, Agent.ainvoke.
  destruct (LineEnv.graph_exn env); [reflexivity|].
  rewrite H1, H2. reflexivity.
Qed.

Lemma process_line_default (erp_type : string) (env : LineEnv.t) (idx : nat)
    (line : TaggingRequestLineItem.t) (a : Agent.acc) :
  default_selector erp_type ->
  Agent.process_line erp_type env idx line a
  = Agent.process_line "SAP_ECC" env idx line a.
Proof.
  intros H.
  apply (process_line_of_run erp_type env idx line a
           (Graph.run (LineEnv.llm env) (Agent.initial_state "SAP_ECC" line))).
  - apply run_initial_default. exact H.
  - reflexivity.
Qed.

Lemma process_line_same_outcome (erp_type : string) (env1 env2 : LineEnv.t)
    (idx : nat) (line : TaggingRequestLineItem.t) (a : Agent.acc) :
  LineEnv.graph_exn env1 = LineEnv.graph_exn env2 ->
  LineEnv.llm env1 = LineEnv.llm env2 ->
  Agent.process_line erp_type env1 idx line a
  = Agent.process_line erp_type env2 idx line a.
Proof.
  intros Hg Hl. unfold Agent.process_line, Agent.ainvoke.
  rewrite Hg, Hl. reflexivity.
Qed.

Lemma process_lines_same_outcomes (erp_type : string)
    (lines : list TaggingRequestLineItem.t) :
  default_selector erp_type ->
  forall (env1 env2 : nat -> LineEnv.t) (idx : nat) (a : Agent.acc),
    (forall k, (k < length lines)%nat ->
       LineEnv.graph_exn (env1 (idx + k)%nat) = LineEnv.graph_exn (env2 (idx + k)%nat)
       /\ LineEnv.llm (env1 (idx + k)%nat) = LineEnv.llm (env2 (idx + k)%nat)) ->
    Agent.process_lines erp_type env1 idx lines a
    = Agent.process_lines "SAP_ECC" env2 idx lines a.
Proof.
  intros H. induction lines as [|line rest IH]; intros env1 env2 idx a Hsame;
    [reflexivity|].
  cbn [Agent.process_lines].
  rewrite (process_line_default _ _ _ _ _ H).
  destruct (Hsame 0%nat ltac:(cbn [length]; lia)) as [Hg Hl].
  rewrite Nat.add_0_r in Hg, Hl.
  rewrite (process_line_same_outcome "SAP_ECC" (env1 idx) (env2 idx) idx line a Hg Hl).
  apply IH. intros k Hk.
  replace (S idx + k)%nat with (idx + S k)%nat by lia.
  apply Hsame. cbn [length]. lia.
Qed.

(** X10: a target-system selector that is neither "ORACLE" nor "MS_365" --
    a misspelt one included -- is served as "SAP_ECC" by everything the code
    computes itself (validation of the identifiers, rate, reverse charge,
    master lookup, thresholds, counters).  The response to the batch can
    differ from the response for "SAP_ECC" only through the outside world:
    if, line by line, the execution of the graph fails alike and the
    collaborator, which is told the selector, gives the same outcome, the
    two responses are equal. *)
Theorem unknown_selector_is_sap (env1 env2 : nat -> LineEnv.t) (erp_type : string)
    (lines : list TaggingRequestLineItem.t) :
  default_selector erp_type ->
  same_outcomes lines env1 env2 ->
  Agent.process_tagging_request env1 (TaggingRequest.mk lines erp_type)
  = Agent.process_tagging_request env2 (TaggingRequest.mk lines "SAP_ECC").
Proof.
  intros H Hsame. unfold Agent.process_tagging_request.
  cbn [TaggingRequest.erp_type TaggingRequest.lines].
  rewrite (process_lines_same_outcomes erp_type lines H env1 env2 0 Agent.acc0);
    [reflexivity|].
  intros k Hk. cbn [Nat.add]. apply Hsame. exact Hk.
Qed.

Lemma unknown_selector_is_sap_witness :
  default_selector "sap"
  /\ same_outcomes [line_unmapped_rate; line_consulting] env_llm_answers env_two_answers
  /\ Agent.process_tagging_request env_llm_answers
       (TaggingRequest.mk [line_unmapped_rate; line_consulting] "sap")
     = Agent.process_tagging_request env_two_answers
         (TaggingRequest.mk [line_unmapped_rate; line_consulting] "SAP_ECC").
Proof.
  assert (Hsel : default_selector "sap") by (split; discriminate).
  assert (Hsame : same_outcomes [line_unmapped_rate; line_consulting]
                    env_llm_answers env_two_answers).
  { intros idx Hidx. cbn [length] in Hidx.
    destruct idx as [|[|idx]]; [split; reflexivity|split; reflexivity|lia]. }
  split; [exact Hsel|]. split; [exact Hsame|].
  exact (unknown_selector_is_sap env_llm_answers env_two_answers "sap"
           [line_unmapped_rate; line_consulting] Hsel Hsame).
Defined.

(** ** The batch loop *)

Lemma tax_determination_node_tokens (llm : llm_outcome) (state : State.t) :
  State.total_tokens (Update.apply state (tax_determination_node llm state))
  = (State.total_prompt_tokens (Update.apply state (tax_determination_node llm state))
     + State.total_completion_tokens
         (Update.apply state (tax_determination_node llm state))
     + State.total_reasoning_tokens
         (Update.apply state (tax_determination_node llm state)))%Z.
Proof.
  unfold tax_determination_node.
  destruct (TaxCodeLookupResult.found _); [cbn; lia|].
  destruct llm as [llm_response llm_output | llm_error]; [|cbn; lia].
  destruct (harvest_tokens llm_output) as [[p c] r]. cbn. lia.
Qed.

Lemma run_tokens (llm : llm_outcome) (initial_state : State.t) :
  State.total_tokens (Graph.run llm initial_state)
  = (State.total_prompt_tokens (Graph.run llm initial_state)
     + State.total_completion_tokens (Graph.run llm initial_state)
     + State.total_reasoning_tokens (Graph.run llm initial_state))%Z.
Proof.
  unfold Graph.run.
  set (s1 := Update.apply initial_state (preprocessing_node initial_state)).
  exact (tax_determination_node_tokens llm s1).
Qed.

(** What one iteration contributes: one result, carrying the index and the
    description of its line and consistent token counters, and each
    aggregate advanced by that result's counter. *)
Lemma process_line_contribution (erp_type : string) (env : LineEnv.t) (idx : nat)
    (line : TaggingRequestLineItem.t) (a : Agent.acc) :
  exists r,
    Agent.results (Agent.process_line erp_type env idx line a) = Agent.results a ++ [r]
    /\ Agent.results (Agent.process_line erp_type env idx line Agent.acc0) = [r]
    /\ TaxTaggingResult.line_index r = Z.of_nat idx
    /\ TaxTaggingResult.item_description r = TaggingRequestLineItem.item_description line
    /\ TaxTaggingResult.total_tokens r
       = (TaxTaggingResult.total_prompt_tokens r
          + TaxTaggingResult.total_completion_tokens r
          + TaxTaggingResult.total_reasoning_tokens r)%Z
    /\ Agent.aggregate_prompt_tokens (Agent.process_line erp_type env idx line a)
       = (Agent.aggregate_prompt_tokens a + TaxTaggingResult.total_prompt_tokens r)%Z
    /\ Agent.aggregate_completion_tokens (Agent.process_line erp_type env idx line a)
       = (Agent.aggregate_completion_tokens a
          + TaxTaggingResult.total_completion_tokens r)%Z
    /\ Agent.aggregate_reasoning_tokens (Agent.process_line erp_type env idx line a)
       = (Agent.aggregate_reasoning_tokens a
          + TaxTaggingResult.total_reasoning_tokens r)%Z
    /\ Agent.aggregate_total_tokens (Agent.process_line erp_type env idx line a)
       = (Agent.aggregate_total_tokens a + TaxTaggingResult.total_tokens r)%Z.
Proof.
  unfold Agent.process_line, Agent.ainvoke.
  destruct (LineEnv.graph_exn env) as [e|].
  - eexists. split; [reflexivity|]. cbn. repeat split; lia.
  - eexists. split; [reflexivity|].
    cbn [Agent.results Agent.acc0 app TaxTaggingResult.line_index
         TaxTaggingResult.item_description TaxTaggingResult.total_tokens
         TaxTaggingResult.total_prompt_tokens TaxTaggingResult.total_completion_tokens
         TaxTaggingResult.total_reasoning_tokens
         Agent.aggregate_prompt_tokens Agent.aggregate_completion_tokens
         Agent.aggregate_reasoning_tokens Agent.aggregate_total_tokens].
    repeat split. apply run_tokens.
Qed.

Lemma sum_over_snoc (f : TaxTaggingResult.t -> Z) (rs : list TaxTaggingResult.t)
    (r : TaxTaggingResult.t) :
  sum_over f (rs ++ [r]) = (sum_over f rs + f r)%Z.
Proof. induction rs as [|x rs IH]; simpl; [lia | rewrite IH; lia]. Qed.

Lemma process_lines_tokens (erp_type : string) (env : nat -> LineEnv.t)
    (lines : list TaggingRequestLineItem.t) (idx : nat) (a : Agent.acc) :
  Agent.aggregate_prompt_tokens a
  = sum_over TaxTaggingResult.total_prompt_tokens (Agent.results a) ->
  Agent.aggregate_completion_tokens a
  = sum_over TaxTaggingResult.total_completion_tokens (Agent.results a) ->
  Agent.aggregate_reasoning_tokens a
  = sum_over TaxTaggingResult.total_reasoning_tokens (Agent.results a) ->
  Agent.aggregate_total_tokens a
  = sum_over TaxTaggingResult.total_tokens (Agent.results a) ->
  Forall (fun r => TaxTaggingResult.total_tokens r
                   = (TaxTaggingResult.total_prompt_tokens r
                      + TaxTaggingResult.total_completion_tokens r
                      + TaxTaggingResult.total_reasoning_tokens r)%Z)
         (Agent.results a) ->
  let a' := Agent.process_lines erp_type env idx lines a in
  Agent.aggregate_prompt_tokens a'
  = sum_over TaxTaggingResult.total_prompt_tokens (Agent.results a')
  /\ Agent.aggregate_completion_tokens a'
     = sum_over TaxTaggingResult.total_completion_tokens (Agent.results a')
  /\ Agent.aggregate_reasoning_tokens a'
     = sum_over TaxTaggingResult.total_reasoning_tokens (Agent.results a')
  /\ Agent.aggregate_total_tokens a'
     = sum_over TaxTaggingResult.total_tokens (Agent.results a')
  /\ Forall (fun r => TaxTaggingResult.total_tokens r
                      = (TaxTaggingResult.total_prompt_tokens r
                         + TaxTaggingResult.total_completion_tokens r
                         + TaxTaggingResult.total_reasoning_tokens r)%Z)
            (Agent.results a').
Proof.
  revert idx a. induction lines as [|line rest IH]; intros idx a Hp Hc Hr Ht Hf.
  - cbn. repeat split; assumption.
  - cbn [Agent.process_lines].
    destruct (process_line_contribution erp_type (env idx) idx line a)
      as (r & Hres & _ & _ & _ & Htok & Hp' & Hc' & Hr' & Ht').
    apply IH; rewrite Hres.
    + rewrite sum_over_snoc, Hp', Hp. reflexivity.
    + rewrite sum_over_snoc, Hc', Hc. reflexivity.
    + rewrite sum_over_snoc, Hr', Hr. reflexivity.
    + rewrite sum_over_snoc, Ht', Ht. reflexivity.
    + apply Forall_app. split; [exact Hf | constructor; [exact Htok | constructor]].
Qed.

(** X14: token accounting.  In every batch response each line result's
    total is the sum of its prompt, completion and reasoning counts; each of
    the four summary counters is the sum of that counter over the line
    results; and the summary's total is the sum of its other three. *)
Theorem token_totals_consistent (env : nat -> LineEnv.t) (request : TaggingRequest.t) :
  Forall (fun r => TaxTaggingResult.total_tokens r
                   = (TaxTaggingResult.total_prompt_tokens r
                      + TaxTaggingResult.total_completion_tokens r
                      + TaxTaggingResult.total_reasoning_tokens r)%Z)
         (TaxTaggingResponse.results (Agent.process_tagging_request env request))
  /\ Summary.total_prompt_tokens
       (TaxTaggingResponse.summary (Agent.process_tagging_request env request))
     = sum_over TaxTaggingResult.total_prompt_tokens
         (TaxTaggingResponse.results (Agent.process_tagging_request env request))
  /\ Summary.total_completion_tokens
       (TaxTaggingResponse.summary (Agent.process_tagging_request env request))
     = sum_over TaxTaggingResult.total_completion_tokens
         (TaxTaggingResponse.results (Agent.process_tagging_request env request))
  /\ Summary.total_reasoning_tokens
       (TaxTaggingResponse.summary (Agent.process_tagging_request env request))
     = sum_over TaxTaggingResult.total_reasoning_tokens
         (TaxTaggingResponse.results (Agent.process_tagging_request env request))
  /\ Summary.total_tokens
       (TaxTaggingResponse.summary (Agent.process_tagging_request env request))
     = sum_over TaxTaggingResult.total_tokens
         (TaxTaggingResponse.results (Agent.process_tagging_request env request))
  /\ Summary.total_tokens
       (TaxTaggingResponse.summary (Agent.process_tagging_request env request))
     = (Summary.total_prompt_tokens
          (TaxTaggingResponse.summary (Agent.process_tagging_request env request))
        + Summary.total_completion_tokens
            (TaxTaggingResponse.summary (Agent.process_tagging_request env request))
        + Summary.total_reasoning_tokens
            (TaxTaggingResponse.summary (Agent.process_tagging_request env request)))%Z.
Proof.
  destruct (process_lines_tokens (TaggingRequest.erp_type request) env
              (TaggingRequest.lines request) 0 Agent.acc0
              eq_refl eq_refl eq_refl eq_refl ltac:(constructor))
    as (Hp & Hc & Hr & Ht & Hf).
  unfold Agent.process_tagging_request, Agent.build_summary.
  cbn [TaxTaggingResponse.summary TaxTaggingResponse.results
       Summary.total_prompt_tokens Summary.total_completion_tokens
       Summary.total_reasoning_tokens Summary.total_tokens].
  repeat split; try assumption.
  rewrite Ht, Hp, Hc, Hr.
  set (rs := Agent.results _) in *.
  clearbody rs. clear -Hf.
  induction Hf as [|r rs Hr _ IH]; [reflexivity|]. simpl. rewrite Hr, IH. lia.
Qed.

Lemma count_where_le_length {A : Type} (p : A -> bool) (l : list A) :
  (count_where p l <= Z.of_nat (length l))%Z.
Proof.
  induction l as [|x l IH]; [simpl; lia|].
  cbn [count_where length]. destruct (p x); lia.
Qed.

Lemma count_where_mono {A : Type} (p q : A -> bool) (l : list A) :
  Forall (fun x => p x = true -> q x = true) l ->
  (count_where p l <= count_where q l)%Z.
Proof.
  induction 1 as [|x l Hx _ IH]; [simpl; lia|].
  cbn [count_where]. destruct (p x) eqn:Hp.
  - rewrite (Hx eq_refl). lia.
  - destruct (q x); lia.
Qed.

(** X15: bounds of the summary.  In every batch
    0 <= manual_review <= errors <= total_lines: every manual-review line is
    also an error line.  Hence successful <= total_lines - 2 * manual_review. *)
Theorem summary_bounds (env : nat -> LineEnv.t) (request : TaggingRequest.t) :
  (0 <= Summary.manual_review
          (TaxTaggingResponse.summary (Agent.process_tagging_request env request))
   <= Summary.errors
        (TaxTaggingResponse.summary (Agent.process_tagging_request env request)))%Z
  /\ (Summary.errors
        (TaxTaggingResponse.summary (Agent.process_tagging_request env request))
      <= Summary.total_lines
           (TaxTaggingResponse.summary (Agent.process_tagging_request env request)))%Z
  /\ (Summary.successful
        (TaxTaggingResponse.summary (Agent.process_tagging_request env request))
      <= Summary.total_lines
           (TaxTaggingResponse.summary (Agent.process_tagging_request env request))
         - 2 * Summary.manual_review
                 (TaxTaggingResponse.summary (Agent.process_tagging_request env request)))%Z.
Proof.
  destruct (process_tagging_request_invariant env request) as (Hm & He & Hf & Hlen).
  unfold Agent.process_tagging_request, Agent.build_summary.
  cbn [TaxTaggingResponse.summary Summary.successful Summary.manual_review
       Summary.errors Summary.total_lines].
  set (a := Agent.process_lines (TaggingRequest.erp_type request) env 0
              (TaggingRequest.lines request) Agent.acc0) in *.
  assert (Hle : (count_where is_manual_review (Agent.results a)
                 <= count_where has_errors (Agent.results a))%Z).
  { apply count_where_mono. eapply Forall_impl; [exact Hf|].
    intros r Hr Hmr. apply has_errors_true. apply Hr. left.
    apply String.eqb_eq. exact Hmr. }
  pose proof (count_where_nonneg is_manual_review (Agent.results a)).
  pose proof (count_where_le_length has_errors (Agent.results a)).
  rewrite Hlen in *. lia.
Qed.

Lemma process_line_results_acc (erp_type : string) (env : LineEnv.t) (idx : nat)
    (line : TaggingRequestLineItem.t) (a : Agent.acc) :
  Agent.results (Agent.process_line erp_type env idx line a)
  = Agent.results a ++ Agent.results (Agent.process_line erp_type env idx line Agent.acc0).
Proof.
  destruct (process_line_contribution erp_type env idx line a) as (r & -> & -> & _).
  reflexivity.
Qed.

Lemma process_lines_results_acc (erp_type : string) (env : nat -> LineEnv.t)
    (lines : list TaggingRequestLineItem.t) (idx : nat) (a : Agent.acc) :
  Agent.results (Agent.process_lines erp_type env idx lines a)
  = Agent.results a ++ Agent.results (Agent.process_lines erp_type env idx lines Agent.acc0).
Proof.
  revert idx a. induction lines as [|line rest IH]; intros idx a.
  - cbn. rewrite app_nil_r. reflexivity.
  - cbn [Agent.process_lines].
    rewrite (IH (S idx) (Agent.process_line erp_type (env idx) idx line a)).
    rewrite (IH (S idx) (Agent.process_line erp_type (env idx) idx line Agent.acc0)).
    rewrite process_line_results_acc, app_assoc. reflexivity.
Qed.

Lemma process_lines_lookup (erp_type : string) (env : nat -> LineEnv.t)
    (lines : list TaggingRequestLineItem.t) (idx i : nat)
    (line : TaggingRequestLineItem.t) :
  lines !! i = Some line ->
  exists r,
    Agent.results (Agent.process_lines erp_type env idx lines Agent.acc0) !! i = Some r
    /\ [r] = Agent.results (Agent.process_line erp_type (env (idx + i)%nat) (idx + i)
                              line Agent.acc0).
Proof.
  revert idx i. induction lines as [|l rest IH]; intros idx i Hl; [discriminate|].
  cbn [Agent.process_lines]. rewrite process_lines_results_acc.
  destruct (process_line_contribution erp_type (env idx) idx l Agent.acc0)
    as (r & _ & Hr & _).
  destruct i as [|j].
  - injection Hl as ->. exists r. rewrite Hr, Nat.add_0_r. split; [reflexivity|].
    symmetry. exact Hr.
  - cbn in Hl. rewrite Hr. cbn [app lookup list_lookup].
    destruct (IH (S idx) j Hl) as (r' & Hlk & Hr').
    exists r'. split; [exact Hlk|].
    replace (idx + S j)%nat with (S idx + j)%nat by lia. exact Hr'.
Qed.

Lemma process_line_reindex (erp_type : string) (env : LineEnv.t) (k idx : nat)
    (line : TaggingRequestLineItem.t) :
  Agent.results (Agent.process_line erp_type env (k + idx) line Agent.acc0)
  = map (reindex k) (Agent.results (Agent.process_line erp_type env idx line Agent.acc0)).
Proof.
  unfold Agent.process_line, Agent.ainvoke.
  destruct (LineEnv.graph_exn env) as [e|];
    cbn [Agent.results Agent.acc0 app map]; unfold reindex;
    cbn [TaxTaggingResult.line_index TaxTaggingResult.item_description
         TaxTaggingResult.tax_code TaxTaggingResult.tax_description
         TaxTaggingResult.confidence TaxTaggingResult.total_prompt_tokens
         TaxTaggingResult.total_completion_tokens
         TaxTaggingResult.total_reasoning_tokens TaxTaggingResult.total_tokens
         TaxTaggingResult.messages TaxTaggingResult.errors];
    rewrite Nat2Z.inj_add; reflexivity.
Qed.

(** X16: results come in the order of the request, and no line influences
    another.  The result at position i carries line index i and the
    description of line i, and it is the result of the one-line batch made
    of line i alone (with the outside world of index i), moved to index i. *)
Theorem results_follow_request_order (env : nat -> LineEnv.t) (request : TaggingRequest.t)
    (i : nat) (line : TaggingRequestLineItem.t) :
  TaggingRequest.lines request !! i = Some line ->
  exists r0,
    TaxTaggingResponse.results
      (Agent.process_tagging_request (fun _ => env i)
         (TaggingRequest.mk [line] (TaggingRequest.erp_type request))) = [r0]
    /\ TaxTaggingResponse.results (Agent.process_tagging_request env request) !! i
       = Some (reindex i r0)
    /\ TaxTaggingResult.line_index (reindex i r0) = Z.of_nat i
    /\ TaxTaggingResult.item_description (reindex i r0)
       = TaggingRequestLineItem.item_description line.
Proof.
  intros Hl.
  destruct (process_lines_lookup (TaggingRequest.erp_type request) env
              (TaggingRequest.lines request) 0 i line Hl) as (r & Hlk & Hr).
  cbn [Nat.add] in Hr.
  destruct (process_line_contribution (TaggingRequest.erp_type request) (env i) 0 line
              Agent.acc0) as (r0 & _ & Hr0 & Hidx & Hdesc & _).
  pose proof (process_line_reindex (TaggingRequest.erp_type request) (env i) i 0 line)
    as Hsh.
  rewrite Nat.add_0_r, <- Hr, Hr0 in Hsh. cbn [map] in Hsh. injection Hsh as ->.
  exists r0. split; [exact Hr0|]. split; [exact Hlk|].
  unfold reindex. cbn [TaxTaggingResult.line_index TaxTaggingResult.item_description].
  rewrite Hidx, Hdesc. split; [cbn; lia | reflexivity].
Qed.

Lemma results_follow_request_order_witness :
  exists r0,
    TaxTaggingResponse.results
      (Agent.process_tagging_request (fun _ => env_llm_down 1)
         (TaggingRequest.mk [line_unmapped_rate] "SAP_ECC")) = [r0]
    /\ TaxTaggingResponse.results
         (Agent.process_tagging_request env_llm_down
            (TaggingRequest.mk [line_consulting; line_unmapped_rate] "SAP_ECC")) !! 1%nat
       = Some (reindex 1 r0)
    /\ TaxTaggingResult.line_index (reindex 1 r0) = Z.of_nat 1
    /\ TaxTaggingResult.item_description (reindex 1 r0)
       = TaggingRequestLineItem.item_description line_unmapped_rate.
Proof.
  apply (results_follow_request_order env_llm_down
           (TaggingRequest.mk [line_consulting; line_unmapped_rate] "SAP_ECC")
           1 line_unmapped_rate).
  reflexivity.
Defined.

Lemma process_lines_reindex (erp_type : string) (env : nat -> LineEnv.t) (k : nat)
    (lines : list TaggingRequestLineItem.t) (idx : nat) :
  Agent.results (Agent.process_lines erp_type env (k + idx) lines Agent.acc0)
  = map (reindex k)
      (Agent.results
         (Agent.process_lines erp_type (fun j => env (k + j)%nat) idx lines Agent.acc0)).
Proof.
  revert idx. induction lines as [|line rest IH]; intros idx; [reflexivity|].
  cbn [Agent.process_lines].
  rewrite process_lines_results_acc.
  rewrite (process_lines_results_acc erp_type (fun j => env (k + j)%nat)).
  rewrite map_app, process_line_reindex.
  replace (S (k + idx)) with (k + S idx)%nat by lia.
  rewrite IH. reflexivity.
Qed.

Lemma process_lines_app (erp_type : string) (env : nat -> LineEnv.t)
    (l1 l2 : list TaggingRequestLineItem.t) (idx : nat) (a : Agent.acc) :
  Agent.process_lines erp_type env idx (l1 ++ l2) a
  = Agent.process_lines erp_type env (length l1 + idx) l2
      (Agent.process_lines erp_type env idx l1 a).
Proof.
  revert idx a. induction l1 as [|line rest IH]; intros idx a; [reflexivity|].
  cbn [app Agent.process_lines length]. rewrite IH.
  replace (length rest + S idx)%nat with (S (length rest) + idx)%nat by lia.
  reflexivity.
Qed.

Lemma count_where_app {A : Type} (p : A -> bool) (l1 l2 : list A) :
  count_where p (l1 ++ l2) = (count_where p l1 + count_where p l2)%Z.
Proof. induction l1 as [|x l1 IH]; cbn [app count_where]; [lia | rewrite IH; lia]. Qed.

Lemma count_where_reindex (p : TaxTaggingResult.t -> bool) (k : nat)
    (rs : list TaxTaggingResult.t) :
  (forall r, p (reindex k r) = p r) ->
  count_where p (map (reindex k) rs) = count_where p rs.
Proof.
  intros H. induction rs as [|r rs IH]; [reflexivity|].
  cbn [map count_where]. rewrite H, IH. reflexivity.
Qed.

(** X17: a batch can be split.  The results of the batch l1 ++ l2 are the
    results of l1 followed by the results of l2 run on its own (with the
    outside world of its lines), moved down by the length of l1; the
    manual-review and error counts of the whole are the sums of the counts
    of the two parts. *)
Theorem batch_split (env : nat -> LineEnv.t) (erp_type : string)
    (l1 l2 : list TaggingRequestLineItem.t) :
  TaxTaggingResponse.results
    (Agent.process_tagging_request env (TaggingRequest.mk (l1 ++ l2) erp_type))
  = TaxTaggingResponse.results
      (Agent.process_tagging_request env (TaggingRequest.mk l1 erp_type))
    ++ map (reindex (length l1))
         (TaxTaggingResponse.results
            (Agent.process_tagging_request (fun j => env (length l1 + j)%nat)
               (TaggingRequest.mk l2 erp_type)))
  /\ Summary.manual_review
       (TaxTaggingResponse.summary
          (Agent.process_tagging_request env (TaggingRequest.mk (l1 ++ l2) erp_type)))
     = (Summary.manual_review
          (TaxTaggingResponse.summary
             (Agent.process_tagging_request env (TaggingRequest.mk l1 erp_type)))
        + Summary.manual_review
            (TaxTaggingResponse.summary
               (Agent.process_tagging_request (fun j => env (length l1 + j)%nat)
                  (TaggingRequest.mk l2 erp_type))))%Z
  /\ Summary.errors
       (TaxTaggingResponse.summary
          (Agent.process_tagging_request env (TaggingRequest.mk (l1 ++ l2) erp_type)))
     = (Summary.errors
          (TaxTaggingResponse.summary
             (Agent.process_tagging_request env (TaggingRequest.mk l1 erp_type)))
        + Summary.errors
            (TaxTaggingResponse.summary
               (Agent.process_tagging_request (fun j => env (length l1 + j)%nat)
                  (TaggingRequest.mk l2 erp_type))))%Z.
Proof.
  assert (Hres :
    TaxTaggingResponse.results
      (Agent.process_tagging_request env (TaggingRequest.mk (l1 ++ l2) erp_type))
    = TaxTaggingResponse.results
        (Agent.process_tagging_request env (TaggingRequest.mk l1 erp_type))
      ++ map (reindex (length l1))
           (TaxTaggingResponse.results
              (Agent.process_tagging_request (fun j => env (length l1 + j)%nat)
                 (TaggingRequest.mk l2 erp_type)))).
  { unfold Agent.process_tagging_request.
    cbn [TaxTaggingResponse.results TaggingRequest.lines TaggingRequest.erp_type].
    rewrite process_lines_app, process_lines_results_acc, process_lines_reindex.
    reflexivity. }
  split; [exact Hres|].
  destruct (process_tagging_request_invariant env (TaggingRequest.mk (l1 ++ l2) erp_type))
    as (Hm & He & _).
  destruct (process_tagging_request_invariant env (TaggingRequest.mk l1 erp_type))
    as (Hm1 & He1 & _).
  destruct (process_tagging_request_invariant (fun j => env (length l1 + j)%nat)
              (TaggingRequest.mk l2 erp_type)) as (Hm2 & He2 & _).
  unfold Agent.process_tagging_request in *.
  cbn [TaxTaggingResponse.summary TaxTaggingResponse.results Agent.build_summary
       Summary.manual_review Summary.errors] in *.
  cbn zeta in Hm, He, Hm1, He1, Hm2, He2.
  rewrite Hm, He, Hm1, He1, Hm2, He2, Hres.
  rewrite !count_where_app, !count_where_reindex by reflexivity.
  split; reflexivity.
Qed.

(** ** Prompt selection *)

Lemma get_system_prompt_default (erp_type : string) :
  erp_type <> "SAP_ECC" -> erp_type <> "ORACLE" -> erp_type <> "MS_365" ->
  prompts !! erp_type = None.
Proof.
  intros H1 H2 H3. unfold prompts. cbn [list_to_map foldr uncurry fst snd].
  rewrite !lookup_insert_ne by congruence. apply lookup_empty.
Qed.

Lemma get_system_prompt_known :
  get_system_prompt "ORACLE" = ORACLE_ERP_SYSTEM_PROMPT
  /\ get_system_prompt "MS_365" = MS_365_SYSTEM_PROMPT
  /\ get_system_prompt "SAP_ECC" = SAP_ECC_SYSTEM_PROMPT.
Proof. vm_compute. repeat split. Qed.

(** X20: the prompt and the master tables are selected alike.  For every
    selector string the prompt returned by [get_system_prompt] and the
    tables chosen by [lookup_tax_code] belong to the same system; a selector
    that is none of the three known ones gets the SAP prompt and the SAP
    tables. *)
Theorem prompt_and_master_agree (erp_type : string) :
  match get_system_prompt erp_type with
  | SAP_ECC_SYSTEM_PROMPT =>
      default_selector erp_type
      /\ select_master erp_type = (SAP_TAX_CODE_MASTER, SAP_TAX_CODE_DESCRIPTIONS)
  | ORACLE_ERP_SYSTEM_PROMPT =>
      erp_type = "ORACLE"
      /\ select_master erp_type = (ORACLE_TAX_CODE_MASTER, ORACLE_TAX_CODE_DESCRIPTIONS)
  | MS_365_SYSTEM_PROMPT =>
      erp_type = "MS_365"
      /\ select_master erp_type = (MS360_TAX_CODE_MASTER, MS360_TAX_CODE_DESCRIPTIONS)
  end.
Proof.
  destruct (String.eqb_spec erp_type "ORACLE") as [->|Ho].
  { rewrite (proj1 get_system_prompt_known). split; reflexivity. }
  destruct (String.eqb_spec erp_type "MS_365") as [->|Hm].
  { rewrite (proj1 (proj2 get_system_prompt_known)). split; reflexivity. }
  assert (Hsel : select_master erp_type = (SAP_TAX_CODE_MASTER, SAP_TAX_CODE_DESCRIPTIONS)).
  { unfold select_master. apply String.eqb_neq in Ho, Hm. rewrite Ho, Hm. reflexivity. }
  destruct (String.eqb_spec erp_type "SAP_ECC") as [->|Hs].
  - rewrite (proj2 (proj2 get_system_prompt_known)).
    split; [split; discriminate | exact Hsel].
  - unfold get_system_prompt.
    rewrite (get_system_prompt_default erp_type Hs Ho Hm).
    cbn [from_option id]. split; [split; assumption | exact Hsel].
Qed.

(** ** Metrics *)

Lemma value_inc_eq {K : Type} `{Countable K} (k : K) (n : Z) (m : gmap K Z) :
  value (inc k n m) k = (value m k + n)%Z.
Proof. unfold value, inc. rewrite lookup_insert_eq. reflexivity. Qed.

Lemma value_inc_ne {K : Type} `{Countable K} (k k' : K) (n : Z) (m : gmap K Z) :
  k <> k' -> value (inc k n m) k' = value m k'.
Proof. intros Hne. unfold value, inc. rewrite lookup_insert_ne by exact Hne. reflexivity. Qed.

Lemma guarded_inc_requests (k k' : string * string) (n : Z) (reg : registry) :
  value (tax_agent_requests_total
           (if (0 <? n)%Z then set_requests_total (inc k n) reg else reg)) k'
  = (value (tax_agent_requests_total reg) k'
     + (if decide (k = k') then Z.max 0 n else 0))%Z.
Proof.
  destruct (Z.ltb_spec 0 n) as [Hn|Hn]; cbn [set_requests_total tax_agent_requests_total].
  - destruct (decide (k = k')) as [->|Hne].
    + rewrite value_inc_eq. lia.
    + rewrite value_inc_ne by exact Hne. lia.
  - destruct (decide (k = k')); lia.
Qed.

Lemma guarded_inc_requests_active (k : string * string) (n : Z) (reg : registry) :
  tax_agent_active_requests
    (if (0 <? n)%Z then set_requests_total (inc k n) reg else reg)
  = tax_agent_active_requests reg.
Proof. destruct (0 <? n)%Z; reflexivity. Qed.

Lemma count_if_count_where (p : TaxTaggingResult.t -> bool)
    (rs : list TaxTaggingResult.t) :
  count_if p rs = count_where p rs.
Proof. induction rs as [|r rs IH]; [reflexivity|]. cbn. rewrite IH. reflexivity. Qed.

Lemma is_error_result_has_errors (rs : list TaxTaggingResult.t) :
  Forall (fun r => needs_attention (TaxTaggingResult.tax_code r) ->
                   TaxTaggingResult.errors r <> []) rs ->
  count_if is_error_result rs = count_where has_errors rs.
Proof.
  intros Hf. rewrite count_if_count_where. apply count_where_ext.
  intros r Hr. rewrite Forall_forall in Hf.
  specialize (Hf r (proj2 (list_elem_of_In _ _) Hr)).
  unfold is_error_result, has_errors.
  destruct (String.eqb_spec (TaxTaggingResult.tax_code r) "ERROR") as [He|He].
  - assert (Hne : TaxTaggingResult.errors r <> [])
      by (apply Hf; right; left; exact He).
    destruct (TaxTaggingResult.errors r); [contradiction | reflexivity].
  - destruct (TaxTaggingResult.errors r); reflexivity.
Qed.

(** X18: the request metrics agree with the summary.  After a batch has
    gone through the decorated entry point, the request counter has grown
    by the summary's manual_review under status "manual_review", by the
    summary's errors under "error" and by the summary's successful, when
    that is positive, under "success"; the gauge of active requests is back
    at its value; and everything is recorded under the label "SAP_ECC",
    whatever target system the request names. *)
Theorem request_metrics_agree_with_summary (env : nat -> LineEnv.t)
    (request : TaggingRequest.t) (reg : registry) :
  value (tax_agent_requests_total
           (tracked_process_tagging_request env request reg).2)
        ("SAP_ECC", "manual_review")
  = (value (tax_agent_requests_total reg) ("SAP_ECC", "manual_review")
     + Summary.manual_review
         (TaxTaggingResponse.summary (tracked_process_tagging_request env request reg).1))%Z
  /\ value (tax_agent_requests_total
              (tracked_process_tagging_request env request reg).2)
           ("SAP_ECC", "error")
     = (value (tax_agent_requests_total reg) ("SAP_ECC", "error")
        + Summary.errors
            (TaxTaggingResponse.summary
               (tracked_process_tagging_request env request reg).1))%Z
  /\ value (tax_agent_requests_total
              (tracked_process_tagging_request env request reg).2)
           ("SAP_ECC", "success")
     = (value (tax_agent_requests_total reg) ("SAP_ECC", "success")
        + Z.max 0
            (Summary.successful
               (TaxTaggingResponse.summary
                  (tracked_process_tagging_request env request reg).1)))%Z
  /\ value (tax_agent_active_requests
              (tracked_process_tagging_request env request reg).2) "SAP_ECC"
     = value (tax_agent_active_requests reg) "SAP_ECC"
  /\ forall erp_type status,
       erp_type <> "SAP_ECC" ->
       value (tax_agent_requests_total
                (tracked_process_tagging_request env request reg).2)
             (erp_type, status)
       = value (tax_agent_requests_total reg) (erp_type, status).
Proof.
  destruct (process_tagging_request_invariant env request) as (Hm & He & Hf & Hlen).
  unfold tracked_process_tagging_request, track_request_metrics.
  cbn [fst snd].
  unfold Agent.process_tagging_request, Agent.build_summary.
  cbn [TaxTaggingResponse.summary TaxTaggingResponse.results
       Summary.successful Summary.manual_review Summary.errors].
  set (a := Agent.process_lines (TaggingRequest.erp_type request) env 0
              (TaggingRequest.lines request) Agent.acc0) in *.
  cbn zeta in Hm, He, Hf, Hlen.
  rewrite (is_error_result_has_errors _ Hf), <- He.
  replace (count_if is_manual_review_result (Agent.results a))
    with (Agent.manual_review_count a)
    by (rewrite Hm; symmetry; apply count_if_count_where).
  rewrite Hlen.
  assert (Hm0 : (0 <= Agent.manual_review_count a)%Z)
    by (rewrite Hm; apply count_where_nonneg).
  assert (He0 : (0 <= Agent.error_count a)%Z)
    by (rewrite He; apply count_where_nonneg).
  set (reg0 := set_active_requests (inc "SAP_ECC" 1) reg).
  assert (Hreq0 : tax_agent_requests_total reg0 = tax_agent_requests_total reg)
    by reflexivity.
  cbn [set_active_requests set_confidence_score tax_agent_requests_total
       tax_agent_active_requests].
  repeat split.
  - rewrite !guarded_inc_requests, Hreq0.
    repeat case_decide; try congruence; lia.
  - rewrite !guarded_inc_requests, Hreq0.
    repeat case_decide; try congruence; lia.
  - rewrite !guarded_inc_requests, Hreq0.
    repeat case_decide; try congruence; lia.
  - rewrite value_inc_eq, !guarded_inc_requests_active.
    subst reg0. cbn [set_active_requests tax_agent_active_requests].
    rewrite value_inc_eq. lia.
  - intros erp_type status Hne.
    rewrite !guarded_inc_requests, Hreq0.
    repeat case_decide; try congruence; lia.
Qed.

Lemma guarded_inc_tokens (k k' : string * string) (n : Z) (reg : registry) :
  value (tax_agent_llm_tokens_total
           (if (0 <? n)%Z then set_llm_tokens_total (inc k n) reg else reg)) k'
  = (value (tax_agent_llm_tokens_total reg) k'
     + (if decide (k = k') then Z.max 0 n else 0))%Z.
Proof.
  destruct (Z.ltb_spec 0 n) as [Hn|Hn];
    cbn [set_llm_tokens_total tax_agent_llm_tokens_total].
  - destruct (decide (k = k')) as [->|Hne].
    + rewrite value_inc_eq. lia.
    + rewrite value_inc_ne by exact Hne. lia.
  - destruct (decide (k = k')); lia.
Qed.

Lemma guarded_inc_tokens_lookup (k k' : string * string) (n : Z) (reg : registry) :
  k <> k' ->
  tax_agent_llm_tokens_total
    (if (0 <? n)%Z then set_llm_tokens_total (inc k n) reg else reg) !! k'
  = tax_agent_llm_tokens_total reg !! k'.
Proof.
  intros Hne. destruct (0 <? n)%Z; [|reflexivity].
  cbn [set_llm_tokens_total tax_agent_llm_tokens_total]. unfold inc.
  apply lookup_insert_ne. exact Hne.
Qed.

(** X19: the exact effect of [track_llm_tokens] on the registry.  Whatever
    counts the provider reports -- zero or negative ones included -- the
    counter of the target system's prompt, completion and reasoning tokens
    grows by the positive part of the reported count; every other token
    counter keeps its entry as it was (none is created, none is changed);
    the request, active-request, confidence, error and tool-call metrics are
    untouched.  In particular no token counter ever decreases. *)
Theorem track_llm_tokens_effect (erp_type : string)
    (prompt_tokens completion_tokens reasoning_tokens : Z) (reg : registry) :
  (forall labels,
     value (tax_agent_llm_tokens_total
              (track_llm_tokens erp_type prompt_tokens completion_tokens
                 reasoning_tokens reg)) labels
     = (value (tax_agent_llm_tokens_total reg) labels
        + (if decide (labels = (erp_type, "prompt")) then Z.max 0 prompt_tokens
           else if decide (labels = (erp_type, "completion"))
                then Z.max 0 completion_tokens
           else if decide (labels = (erp_type, "reasoning"))
                then Z.max 0 reasoning_tokens
           else 0))%Z)
  /\ (forall labels,
        labels <> (erp_type, "prompt") ->
        labels <> (erp_type, "completion") ->
        labels <> (erp_type, "reasoning") ->
        tax_agent_llm_tokens_total
          (track_llm_tokens erp_type prompt_tokens completion_tokens
             reasoning_tokens reg) !! labels
        = tax_agent_llm_tokens_total reg !! labels)
  /\ tax_agent_requests_total
       (track_llm_tokens erp_type prompt_tokens completion_tokens reasoning_tokens reg)
     = tax_agent_requests_total reg
  /\ tax_agent_active_requests
       (track_llm_tokens erp_type prompt_tokens completion_tokens reasoning_tokens reg)
     = tax_agent_active_requests reg
  /\ tax_agent_confidence_score
       (track_llm_tokens erp_type prompt_tokens completion_tokens reasoning_tokens reg)
     = tax_agent_confidence_score reg
  /\ tax_agent_errors_total
       (track_llm_tokens erp_type prompt_tokens completion_tokens reasoning_tokens reg)
     = tax_agent_errors_total reg
  /\ tax_agent_tool_calls_total
       (track_llm_tokens erp_type prompt_tokens completion_tokens reasoning_tokens reg)
     = tax_agent_tool_calls_total reg
  /\ (forall labels,
        (value (tax_agent_llm_tokens_total reg) labels
         <= value (tax_agent_llm_tokens_total
                     (track_llm_tokens erp_type prompt_tokens completion_tokens
                        reasoning_tokens reg)) labels)%Z).
Proof.
  unfold track_llm_tokens.
  split; [|split; [|split; [|split; [|split; [|split; [|split]]]]]].
  - intros labels. rewrite !guarded_inc_tokens.
    repeat case_decide; subst; try congruence; lia.
  - intros labels Hp Hc Hr.
    rewrite !guarded_inc_tokens_lookup by congruence. reflexivity.
  - destruct (0 <? prompt_tokens)%Z, (0 <? completion_tokens)%Z,
      (0 <? reasoning_tokens)%Z; reflexivity.
  - destruct (0 <? prompt_tokens)%Z, (0 <? completion_tokens)%Z,
      (0 <? reasoning_tokens)%Z; reflexivity.
  - destruct (0 <? prompt_tokens)%Z, (0 <? completion_tokens)%Z,
      (0 <? reasoning_tokens)%Z; reflexivity.
  - destruct (0 <? prompt_tokens)%Z, (0 <? completion_tokens)%Z,
      (0 <? reasoning_tokens)%Z; reflexivity.
  - destruct (0 <? prompt_tokens)%Z, (0 <? completion_tokens)%Z,
      (0 <? reasoning_tokens)%Z; reflexivity.
  - intros labels. rewrite !guarded_inc_tokens. repeat case_decide; lia.
Qed.

Lemma observe_confidences_spec (erp_type : string) (results : list TaxTaggingResult.t)
    (h : gmap string (list pyfloat)) :
  default [] (observe_confidences erp_type results h !! erp_type)
  = default [] (h !! erp_type)
    ++ map TaxTaggingResult.confidence
         (List.filter (fun r => flt zero (TaxTaggingResult.confidence r)) results).
Proof.
  revert h. induction results as [|r rest IH]; intros h.
  - cbn. rewrite app_nil_r. reflexivity.
  - cbn [observe_confidences List.filter]. rewrite IH.
    destruct (flt zero (TaxTaggingResult.confidence r)).
    + unfold observe. rewrite lookup_insert_eq. cbn [from_option id map].
      rewrite <- app_assoc. reflexivity.
    + reflexivity.
Qed.

(** X23: the confidence histogram receives, in the order of the results,
    exactly the confidences that are above zero; a line that ended with
    confidence 0.0 (a failed fallback, a run that raised) is not observed. *)
Theorem confidence_observations (erp_type : string)
    (outcome : TaxTaggingResponse.t) (reg : registry) :
  default [] (tax_agent_confidence_score
                (track_request_metrics erp_type (inr outcome) reg) !! erp_type)
  = default [] (tax_agent_confidence_score reg !! erp_type)
    ++ map TaxTaggingResult.confidence
         (List.filter (fun r => flt zero (TaxTaggingResult.confidence r))
            (TaxTaggingResponse.results outcome)).
Proof.
  unfold track_request_metrics.
  cbn [set_active_requests set_confidence_score tax_agent_confidence_score].
  rewrite observe_confidences_spec. f_equal.
  repeat match goal with
         | |- context [if ?b then set_requests_total ?f ?r else ?r] =>
             destruct b; cbn [set_requests_total tax_agent_confidence_score]
         end; reflexivity.
Qed.
